(** * Cover-generator services: a shallow embedding of the FastAPI variants

    The repository is a family of near-duplicate FastAPI services under
    [hf-spaces-deployment/] that build an 1800x900 cover image for a news
    article: a background (diffusion pipeline and/or procedural drawing),
    a text overlay and a watermark, returned as a base64 PNG.

    What is embedded, and how:
    - Python values: [str] as [string] (ASCII), [int] as [Z], [dict] as
      stdpp's [gmap string _], exceptions as a result type [Res];
    - PIL images by their size, mode and a symbolic description of how the
      pixels were produced; of the random placement of decorations only
      what can raise is kept: [Image.new] on a negative side and
      [random.randint] on an empty range;
    - the third-party calls (diffusers pipeline, LoRA loading, PNG encoding,
      font metrics, file system, subprocess) as fields of a [World] record;
    - mutation of the generator object ([current_lora]) and the calls made
      to the pipeline by explicit state passing ([Generator], [log]). *)

From Stdlib Require Import ZArith String Ascii List Bool Lia QArith Lqa DecimalString.
From stdpp Require Import gmap strings sorting.
Import ListNotations.

Local Open Scope string_scope.
Local Open Scope Z_scope.

(** ** Python exceptions and results *)

(** [PyError kind msg] is any subclass of [Exception] other than FastAPI's
    [HTTPException]; [msg] is what [str(e)] returns. *)
Inductive PyExc : Type :=
| PyError (kind : string) (msg : string)
| HTTPException (status_code : Z) (detail : string).

Inductive Res (A : Type) : Type :=
| Ret (a : A)
| Raise (e : PyExc).
Arguments Ret {A} a.
Arguments Raise {A} e.

Definition bind {A B : Type} (m : Res A) (k : A -> Res B) : Res B :=
  match m with
  | Ret a => k a
  | Raise e => Raise e
  end.

(** [try: m except Exception as e: h e] *)
Definition try_except {A : Type} (m : Res A) (h : PyExc -> Res A) : Res A :=
  match m with
  | Ret a => Ret a
  | Raise e => h e
  end.

Declare Scope py_scope.
Delimit Scope py_scope with py.
Notation "'do' x <- m ; k" := (bind m (fun x => k))
  (at level 10, x name, m at level 100, k at level 200) : py_scope.
Local Open Scope py_scope.

(** ** Python strings *)

(** Truthiness of a [str]: the empty string is falsy. *)
Definition truthy (s : string) : bool :=
  match s with
  | EmptyString => false
  | String _ _ => true
  end.

Definition upper_char (c : ascii) : ascii :=
  let n := nat_of_ascii c in
  if ((97 <=? n) && (n <=? 122))%nat then ascii_of_nat (n - 32) else c.

Definition lower_char (c : ascii) : ascii :=
  let n := nat_of_ascii c in
  if ((65 <=? n) && (n <=? 90))%nat then ascii_of_nat (n + 32) else c.

Fixpoint map_string (f : ascii -> ascii) (s : string) : string :=
  match s with
  | EmptyString => EmptyString
  | String c r => String (f c) (map_string f r)
  end.

(** [s.upper()] and [s.lower()] on ASCII text. *)
Definition upper (s : string) : string := map_string upper_char s.
Definition lower (s : string) : string := map_string lower_char s.

(** Whitespace as [str.split()] sees it in the ASCII range. *)
Definition is_space (c : ascii) : bool :=
  let n := nat_of_ascii c in
  ((n =? 32) || ((9 <=? n) && (n <=? 13)) || ((28 <=? n) && (n <=? 31)))%nat.

Fixpoint split_go (s : string) (cur : string) : list string :=
  match s with
  | EmptyString => if truthy cur then [cur] else []
  | String c r =>
      if is_space c
      then (if truthy cur then cur :: split_go r "" else split_go r "")
      else split_go r (cur ++ String c "")
  end.

(** [s.split()]: the maximal runs of non-whitespace characters. *)
Definition split (s : string) : list string := split_go s "".

(** [sep.join(l)] *)
Definition join (sep : string) (l : list string) : string := String.concat sep l.

(** [a in s] for strings. *)
Definition contains (s sub : string) : Prop :=
  exists a b : string, s = a ++ sub ++ b.

(** ** Colours and the client colour tables *)

Definition Color : Type := (Z * Z * Z)%type.

(** The inner dicts of every table have exactly the keys [primary],
    [secondary], [accent], [energy]. *)
Record Scheme : Type := mkScheme {
  primary : Color;
  secondary : Color;
  accent : Color;
  energy : Color
}.

(** [d[k]]: raises [KeyError] when the key is absent. *)
Definition dict_index {V : Type} (d : gmap string V) (k : string) : Res V :=
  match d !! k with
  | Some v => Ret v
  | None => Raise (PyError "KeyError" k)
  end.

(** [d.get(k, default)] *)
Definition dict_get {V : Type} (d : gmap string V) (k : string) (dflt : V) : V :=
  match d !! k with
  | Some v => v
  | None => dflt
  end.

(** [colors.get(client, colors['hedera'])]: the default is evaluated first,
    as an argument of the call. *)
Definition client_colors_of (colors : gmap string Scheme) (client : string)
  : Res Scheme :=
  do dflt <- dict_index colors "hedera";
  Ret (dict_get colors client dflt).

(** ** PIL images *)

Inductive Mode : Type := RGB | RGBA.

(** Keys of the dict returned by [get_fonts]. *)
Inductive FontKey : Type := font_title | font_subtitle | font_small.

Definition Fill : Type := (Z * Z * Z * Z)%type.

(** The [ImageDraw] calls made on the text overlay, in drawing order. *)
Inductive DrawOp : Type :=
| draw_text (xy : Z * Z) (s : string) (fill : Fill) (font : FontKey)
| draw_rounded_rectangle (box : list Z) (radius : Z)
    (fill : option Fill) (outline : option Fill) (line_width : Z).

(** How the pixels of an image came about. *)
Inductive Pixels : Type :=
| px_external (ident : nat)
| px_procedural (generator : string) (scheme : Scheme) (style : string)
| px_gradient (top bottom : Color) (style : string)
| px_overlay (ops : list DrawOp)
| px_resize (p : Pixels)
| px_composite (below above : Pixels).

Record Image : Type := mkImage {
  im_width : Z;
  im_height : Z;
  im_mode : Mode;
  im_pixels : Pixels
}.

Definition Mode_eqb (a b : Mode) : bool :=
  match a, b with
  | RGB, RGB | RGBA, RGBA => true
  | _, _ => false
  end.

(** [Image.new(mode, (width, height), ...)] followed by drawing [px]. *)
Definition Image_new (m : Mode) (width height : Z) (px : Pixels) : Image :=
  mkImage width height m px.

(** [img.convert(mode)] *)
Definition convert (m : Mode) (img : Image) : Image :=
  mkImage (im_width img) (im_height img) m (im_pixels img).

(** [img.resize((width, height), Image.Resampling.LANCZOS)] *)
Definition resize (width height : Z) (img : Image) : Image :=
  mkImage width height (im_mode img) (px_resize (im_pixels img)).

(** [Image.alpha_composite(im1, im2)]: both images must be RGBA and of the
    same size, otherwise PIL raises [ValueError]. *)
Definition alpha_composite (im1 im2 : Image) : Res Image :=
  if negb (Mode_eqb (im_mode im1) RGBA && Mode_eqb (im_mode im2) RGBA)
  then Raise (PyError "ValueError" "image has wrong mode")
  else if negb (Z.eqb (im_width im1) (im_width im2) && Z.eqb (im_height im1) (im_height im2))
  then Raise (PyError "ValueError" "images do not match")
  else Ret (mkImage (im_width im1) (im_height im1) RGBA
              (px_composite (im_pixels im1) (im_pixels im2))).

(** [Image.new(mode, (width, height), color)] accepts the size: PIL raises
    [ValueError] for a negative side. *)
Definition new_image (width height : Z) : Res unit :=
  if (width <? 0) || (height <? 0)
  then Raise (PyError "ValueError" "Width and height must be >= 0")
  else Ret tt.

(** [random.randint(a, b)] has something to draw from: it raises
    [ValueError] when [b < a] (the text of the message depends on the
    version of Python). *)
Definition randint (a b : Z) : Res unit :=
  if b <? a then Raise (PyError "ValueError" "empty range for randrange()") else Ret tt.

(** ** The world outside the repository's code *)

Record World : Type := mkWorld {
  (** [os.path.exists(path)] *)
  path_exists : string -> bool;
  (** [Image.open(path).convert("RGBA")] *)
  open_rgba : string -> Res Image;
  (** [Pipeline.from_pretrained(model_id, ...)] and the move to the device *)
  from_pretrained : string -> Res unit;
  (** [pipeline(prompt=..., height=..., width=..., ...).images[0]] *)
  pipeline_call : string -> Z -> Z -> Res Image;
  (** [pipeline.load_lora_weights(path)] *)
  pipeline_load_lora_weights : string -> Res unit;
  (** [pipeline.unload_lora_weights()] *)
  pipeline_unload_lora_weights : Res unit;
  (** [pipeline.fuse_lora()] *)
  pipeline_fuse_lora : Res unit;
  (** [draw.textbbox((0, 0), s, font=fonts[key])] with the fonts that
      [get_fonts] finds on this machine *)
  textbbox : FontKey -> string -> Z * Z * Z * Z;
  (** [image.save(buffer, format="PNG")] and
      [base64.b64encode(buffer.getvalue()).decode()] *)
  png_base64 : Image -> Res string;
  (** [str(e)] for an [HTTPException] (it depends on the Starlette version) *)
  str_HTTPException : Z -> string -> string;
  (** [subprocess.run(cmd, ...)]: return code and stderr *)
  subprocess_run : list string -> Res (Z * string)
}.

(** [str(e)] *)
Definition str_exc (w : World) (e : PyExc) : string :=
  match e with
  | PyError _ msg => msg
  | HTTPException c d => str_HTTPException w c d
  end.

(** Width of the rendered text: [bbox[2] - bbox[0]]. *)
Definition text_width (w : World) (font : FontKey) (s : string) : Z :=
  let '(x0, _, x1, _) := textbbox w font s in x1 - x0.

(** Height of the rendered text: [bbox[3] - bbox[1]]. *)
Definition text_height (w : World) (font : FontKey) (s : string) : Z :=
  let '(_, y0, _, y1) := textbbox w font s in y1 - y0.

(** ** The generator object and the calls it makes *)

(** The attributes the generator classes keep on [self]; a class that lacks
    an attribute never reads it.  [pipeline] is [true] when the attribute
    ([self.pipeline], [self.lora_pipeline]) holds a loaded pipeline. *)
Record Generator : Type := mkGenerator {
  watermark : option Image;
  pipeline : bool;
  lora_available : gmap string string;
  current_lora : option string;
  universal_lora_available : bool
}.

Inductive Event : Type :=
| ev_pipeline (prompt : string) (width height : Z)
| ev_load_lora (path : string)
| ev_unload_lora
| ev_fuse_lora
| ev_subprocess (cmd : list string).

Record State : Type := mkState {
  gen : Generator;
  log : list Event
}.

(** Computations that read and update the generator, call out to the world
    and may raise.  A raise keeps the updates made before it. *)
Definition M (A : Type) : Type := State -> Res A * State.

Definition mret {A : Type} (a : A) : M A := fun s => (Ret a, s).

Definition mraise {A : Type} (e : PyExc) : M A := fun s => (Raise e, s).

Definition mbind {A B : Type} (m : M A) (k : A -> M B) : M B :=
  fun s =>
    match m s with
    | (Ret a, s') => k a s'
    | (Raise e, s') => (Raise e, s')
    end.

Definition mtry {A : Type} (m : M A) (h : PyExc -> M A) : M A :=
  fun s =>
    match m s with
    | (Ret a, s') => (Ret a, s')
    | (Raise e, s') => h e s'
    end.

Definition lift {A : Type} (r : Res A) : M A := fun s => (r, s).

Definition get_self : M Generator := fun s => (Ret (gen s), s).

Definition set_current_lora (k : string) : M unit :=
  fun s =>
    let g := gen s in
    (Ret tt,
     mkState (mkGenerator (watermark g) (pipeline g) (lora_available g)
                (Some k) (universal_lora_available g))
             (log s)).

(** An outside call: it is recorded, then its outcome is returned. *)
Definition call {A : Type} (ev : Event) (r : Res A) : M A :=
  fun s => (r, mkState (gen s) (log s ++ [ev])).

Notation "'run' x <- m ; k" := (mbind m (fun x => k))
  (at level 10, x name, m at level 100, k at level 200) : py_scope.
Notation "'exec' m ; k" := (mbind m (fun _ => k))
  (at level 10, m at level 100, k at level 200) : py_scope.

Definition when (b : bool) (m : M unit) : M unit :=
  if b then m else mret tt.

(** [if self.watermark: ... alpha_composite(base, watermark.resize(...))] *)
Definition apply_watermark (g : Generator) (width height : Z) (base_rgba : Image)
  : Res Image :=
  match watermark g with
  | Some wm => alpha_composite base_rgba (resize width height wm)
  | None => Ret base_rgba
  end.

(** ** JSON, pydantic models and HTTP results *)

#[local] Unset Elimination Schemes.
Inductive JValue : Type :=
| JNull
| JBool (b : bool)
| JNum (n : Z)
| JStr (s : string)
| JList (items : list JValue)
| JObj (fields : list (string * JValue)).
#[local] Set Elimination Schemes.

Definition opt_str (o : option string) : JValue :=
  match o with
  | Some s => JStr s
  | None => JNull
  end.

Fixpoint assoc (k : string) (l : list (string * JValue)) : option JValue :=
  match l with
  | [] => None
  | (k', v) :: r => if String.eqb k k' then Some v else assoc k r
  end.

(** The member [k] of a JSON object. *)
Definition member (k : string) (v : JValue) : option JValue :=
  match v with
  | JObj fields => assoc k fields
  | _ => None
  end.

Inductive FieldType : Type := t_str | t_optional_str | t_bool.

(** A field of a [BaseModel] class; [f_default = None] means required. *)
Record Field : Type := mkField {
  f_name : string;
  f_type : FieldType;
  f_default : option JValue
}.

(** Type check of a JSON value against a field annotation (no coercion of
    numbers to strings is modelled). *)
Definition check_type (t : FieldType) (v : JValue) : bool :=
  match t, v with
  | t_str, JStr _ => true
  | t_optional_str, JStr _ => true
  | t_optional_str, JNull => true
  | t_bool, JBool _ => true
  | _, _ => false
  end.

Definition field_value (body : gmap string JValue) (f : Field) : option JValue :=
  match body !! f_name f with
  | Some v => if check_type (f_type f) v then Some v else None
  | None => f_default f
  end.

(** Validation of a request body against the declared fields: unknown keys
    are ignored, a missing field takes its default, a missing required field
    or an ill-typed value rejects the body. *)
Fixpoint validate (schema : list Field) (body : gmap string JValue)
  : option (gmap string JValue) :=
  match schema with
  | [] => Some ∅
  | f :: r =>
      match field_value body f, validate r body with
      | Some v, Some m => Some (<[f_name f := v]> m)
      | _, _ => None
      end
  end.

Definition get_str (m : gmap string JValue) (k : string) : option string :=
  match m !! k with
  | Some (JStr s) => Some s
  | _ => None
  end.

Definition get_optional_str (m : gmap string JValue) (k : string)
  : option (option string) :=
  match m !! k with
  | Some (JStr s) => Some (Some s)
  | Some JNull => Some None
  | _ => None
  end.

Definition get_bool (m : gmap string JValue) (k : string) : option bool :=
  match m !! k with
  | Some (JBool b) => Some b
  | _ => None
  end.

(** The three shapes of [GenerationRequest] found in the services. *)
Record GenerationRequest5 : Type := mkRequest5 {
  title5 : string;
  subtitle5 : string;
  client5 : string;
  style5 : option string;
  use_trained_lora5 : bool
}.

Record GenerationRequest4 : Type := mkRequest4 {
  title4 : string;
  subtitle4 : string;
  client4 : string;
  style4 : option string
}.

Record GenerationRequest3 : Type := mkRequest3 {
  client3 : string;
  style3 : string;
  title3 : string
}.

Definition parse5 (schema : list Field) (body : gmap string JValue)
  : option GenerationRequest5 :=
  m ← validate schema body;
  t ← get_str m "title";
  s ← get_str m "subtitle";
  c ← get_str m "client";
  y ← get_optional_str m "style";
  u ← get_bool m "use_trained_lora";
  Some (mkRequest5 t s c y u).

Definition parse4 (schema : list Field) (body : gmap string JValue)
  : option GenerationRequest4 :=
  m ← validate schema body;
  t ← get_str m "title";
  s ← get_str m "subtitle";
  c ← get_str m "client";
  y ← get_optional_str m "style";
  Some (mkRequest4 t s c y).

Definition parse3 (schema : list Field) (body : gmap string JValue)
  : option GenerationRequest3 :=
  m ← validate schema body;
  c ← get_str m "client";
  y ← get_str m "style";
  t ← get_str m "title";
  Some (mkRequest3 c y t).

(** [request.style or dflt] *)
Definition style_or (style : option string) (dflt : string) : string :=
  match style with
  | Some s => if truthy s then s else dflt
  | None => dflt
  end.

(** [class GenerationResponse(BaseModel)], the same in every service that
    declares it. *)
Record GenerationResponse : Type := mkResponse {
  success : bool;
  image_url : option string;
  error : option string;
  metadata : option (list (string * JValue))
}.

Definition response_json (r : GenerationResponse) : JValue :=
  JObj [ ("success", JBool (success r));
         ("image_url", opt_str (image_url r));
         ("error", opt_str (error r));
         ("metadata", match metadata r with
                      | Some d => JObj d
                      | None => JNull
                      end) ].

Inductive HttpResponse : Type :=
| http_ok (body : JValue)
| http_error (status : Z) (detail : string)
| http_validation_error
| http_not_found.

(** What FastAPI sends for the outcome of a route handler: a returned value
    is a 200 response, an [HTTPException] becomes its status and detail, any
    other exception a bare 500. *)
Definition respond (r : Res JValue) : HttpResponse :=
  match r with
  | Ret body => http_ok body
  | Raise (HTTPException c d) => http_error c d
  | Raise (PyError _ _) => http_error 500 "Internal Server Error"
  end.

Definition data_uri_prefix : string := "data:image/png;base64,".

(** ** Text layout shared by the overlays *)

(** [[" ".join(words[:mid]), " ".join(words[mid:])]] with
    [mid = len(words) // 2]. *)
Definition split_at_mid_word (words : list string) : list string :=
  let mid := (length words / 2)%nat in
  [join " " (take mid words); join " " (drop mid words)].

(** [x = (width - text_width) // 2] *)
Definition centered_x (w : World) (width : Z) (font : FontKey) (s : string) : Z :=
  (width - text_width w font s) / 2.

(** Use of [title_lines] after the [if title:] block that binds it. *)
Definition bound_title_lines (title_lines : option (list string))
  : Res (list string) :=
  match title_lines with
  | Some ls => Ret ls
  | None =>
      Raise (PyError "UnboundLocalError"
        "cannot access local variable 'title_lines' where it is not associated with a value")
  end.

Definition white : Fill := (255, 255, 255, 255).
Definition black (alpha : Z) : Fill := (0, 0, 0, alpha).

(** ** Fonts *)

(** What [get_fonts] stores under a key: a font file opened at a size, or
    PIL's built-in font. *)
Inductive Font : Type :=
| FreeTypeFont (path : string) (size : Z)
| default_font.

(** PIL's [ImageFont] module on this machine: whether
    [ImageFont.truetype(path, size)] and [ImageFont.load_default()] return
    or raise. *)
Record ImageFont : Type := mkImageFont {
  truetype : string -> Z -> Res unit;
  load_default : Res unit
}.

(** The loop over [font_paths] for one size: it stops at the first path
    that exists and opens; a path that does not open is skipped. *)
Fixpoint first_font (w : World) (pil : ImageFont) (font_paths : list string) (size : Z)
  : option Font :=
  match font_paths with
  | [] => None
  | font_path :: rest =>
      if path_exists w font_path
      then match truetype pil font_path size with
           | Ret _ => Some (FreeTypeFont font_path size)
           | Raise _ => first_font w pil rest size
           end
      else first_font w pil rest size
  end.

(** The body of the loop over [font_sizes]: [fallback] is what the variant
    does when [fonts[size_name]] is still [None]. *)
Definition load_font (w : World) (pil : ImageFont) (font_paths : list string)
    (fallback : Res Font) (size : Z) : Res Font :=
  match first_font w pil font_paths size with
  | Some font => Ret font
  | None => fallback
  end.

(** The dict that [get_fonts] returns, filled in the order of
    [font_sizes]. *)
Definition font_dict (w : World) (pil : ImageFont) (font_paths : list string)
    (fallback : Res Font) (font_sizes : FontKey -> Z) : Res (FontKey -> Font) :=
  do title <- load_font w pil font_paths fallback (font_sizes font_title);
  do subtitle <- load_font w pil font_paths fallback (font_sizes font_subtitle);
  do small <- load_font w pil font_paths fallback (font_sizes font_small);
  Ret (fun size_name =>
         match size_name with
         | font_title => title
         | font_subtitle => subtitle
         | font_small => small
         end).

(** [fonts[size_name] = ImageFont.load_default()] *)
Definition use_default (pil : ImageFont) : Res Font :=
  do _ <- load_default pil; Ret default_font.

(** ** app_lightweight.py *)

Module Lightweight.

Definition GenerationRequest : list Field :=
  [ mkField "title" t_str None;
    mkField "subtitle" t_str (Some (JStr "CRYPTO NEWS"));
    mkField "client" t_str (Some (JStr "hedera"));
    mkField "style" t_optional_str (Some (JStr "dark_theme")) ].

Definition watermark_path : string := "genfinity-watermark.png".

(** [load_watermark]: the value left in [self.watermark]. *)
Definition load_watermark (w : World) : option Image :=
  if path_exists w watermark_path
  then match open_rgba w watermark_path with
       | Ret img => Some img
       | Raise _ => None
       end
  else None.

Definition colors : gmap string Scheme :=
  {[ "hedera" := mkScheme (138, 43, 226) (75, 0, 130) (186, 85, 211) (255, 0, 255);
     "algorand" := mkScheme (0, 120, 140) (0, 85, 100) (75, 163, 224) (0, 255, 255);
     "constellation" := mkScheme (72, 61, 139) (25, 25, 112) (106, 90, 205) (255, 255, 255) ]}.

(** The decorations drawn for each style only change pixels; every layer
    is created with the size of [img], and the result is RGB.  What can
    raise is the creation of the image and the first [random.randint] of a
    style whose range depends on the size. *)
Definition create_enhanced_background (width height : Z) (client style : string)
  : Res Image :=
  do client_colors <- client_colors_of colors client;
  do _ <- new_image width height;
  do _ <- (if String.eqb style "energy_fields"
           then do _ <- randint 0 width; randint 0 height
           else if String.eqb style "network_nodes"
           then do _ <- randint 50 (width - 50); randint 50 (height - 50)
           else if String.eqb style "particle_waves"
           then Ret tt
           else if String.eqb style "dark_theme"
           then do _ <- randint 100 (width - 100); randint 100 (height - 100)
           else Ret tt);
  Ret (Image_new RGB width height
         (px_procedural "create_enhanced_background" client_colors style)).

(** [text_width > width * 0.8] compares an integer with a float.  For
    integers the comparison agrees with [5 * text_width > 4 * width]
    (the rounding of [width * 0.8] never crosses an integer). *)
Definition title_lines (w : World) (width : Z) (title : string) : list string :=
  let title := upper title in
  let text_width := text_width w font_title title in
  if 4 * width <? 5 * text_width
  then split_at_mid_word (split title)
  else [title].

Definition title_ops (w : World) (width title_y : Z) (lines : list string)
  : list DrawOp :=
  concat (imap (fun i line =>
    let x := centered_x w width font_title line in
    let y := title_y + Z.of_nat i * 200 in
    [ draw_text (x + 6, y + 6) line (black 255) font_title;
      draw_text (x + 3, y + 3) line (black 180) font_title;
      draw_text (x, y) line white font_title ]) lines).

Definition subtitle_ops (w : World) (width subtitle_y : Z) (subtitle : string)
  : list DrawOp :=
  let text_width := text_width w font_subtitle subtitle in
  let x := centered_x w width font_subtitle subtitle in
  let box_padding := 25 in
  let box_x1 := x - box_padding in
  let box_y1 := subtitle_y - box_padding / 2 in
  let box_x2 := x + text_width + box_padding in
  let box_y2 := subtitle_y + 70 + box_padding / 2 in
  [ draw_rounded_rectangle [box_x1; box_y1; box_x2; box_y2] 15
      (Some (black 140)) None 1;
    draw_rounded_rectangle [box_x1 + 2; box_y1 + 2; box_x2 - 2; box_y2 - 2] 13
      None (Some (255, 255, 255, 50)) 1;
    draw_text (x + 2, subtitle_y + 2) subtitle (black 200) font_subtitle;
    draw_text (x, subtitle_y) subtitle white font_subtitle ].

Definition overlay_ops (w : World) (width height : Z) (title subtitle : string)
  : Res (list DrawOp) :=
  let title_y := height / 3 in
  let lines := if truthy title then Some (title_lines w width title) else None in
  let drawn := match lines with
               | Some ls => title_ops w width title_y ls
               | None => []
               end in
  if truthy subtitle
  then do ls <- bound_title_lines lines;
       let subtitle_y := title_y + Z.of_nat (length ls) * 200 + 80 in
       Ret (drawn ++ subtitle_ops w width subtitle_y subtitle)%list
  else Ret drawn.

Definition create_text_overlay (w : World) (width height : Z)
    (title subtitle : string) : Res Image :=
  do ops <- overlay_ops w width height title subtitle;
  Ret (Image_new RGBA width height (px_overlay ops)).

Definition generate_cover (w : World) (title subtitle client style : string)
  : M (option Image) :=
  mtry
    (let width := 1800 in
     let height := 900 in
     run background <- lift (create_enhanced_background width height client style);
     let base_rgba := convert RGBA background in
     run text_overlay <- lift (create_text_overlay w width height title subtitle);
     run base_rgba <- lift (alpha_composite base_rgba text_overlay);
     run self <- get_self;
     run final_image <- lift (apply_watermark self width height base_rgba);
     mret (Some (convert RGB final_image)))
    (fun _ => mret None).

Definition root : JValue :=
  JObj [ ("message", JStr "Enhanced LoRA-Style Crypto News Image Generator");
         ("status", JStr "running");
         ("endpoints", JList [JStr "/generate"; JStr "/health"]);
         ("version", JStr "2.1.0") ].

Definition health : JValue :=
  JObj [ ("status", JStr "healthy"); ("service", JStr "enhanced-lora-generator") ].

Definition generate_image (w : World) (request : GenerationRequest4)
  : M GenerationResponse :=
  mtry
    (run image <- generate_cover w (title4 request) (subtitle4 request)
                    (client4 request) (style_or (style4 request) "dark_theme");
     match image with
     | None => mraise (HTTPException 500 "Failed to generate image")
     | Some image =>
         run base64_image <- lift (png_base64 w image);
         mret (mkResponse true (Some (data_uri_prefix ++ base64_image)) None
                 (Some [ ("client", JStr (client4 request));
                         ("style", opt_str (style4 request));
                         ("title", JStr (title4 request));
                         ("subtitle", JStr (subtitle4 request));
                         ("generator", JStr "enhanced-lightweight");
                         ("resolution", JStr "1800x900") ]))
     end)
    (fun e => mraise (HTTPException 500 ("Generation failed: " ++ str_exc w e))).

Definition routes : list (string * string) :=
  [ ("GET", "/"); ("GET", "/health"); ("POST", "/generate") ].

Definition font_sizes (size_name : FontKey) : Z :=
  match size_name with
  | font_title => 180
  | font_subtitle => 90
  | font_small => 50
  end.

Definition font_paths : list string :=
  [ "/usr/share/fonts/truetype/dejavu/DejaVuSans-Bold.ttf";
    "/usr/share/fonts/truetype/liberation/LiberationSans-Bold.ttf";
    "/System/Library/Fonts/Arial.ttc";
    "/usr/share/fonts/arial.ttf" ].

(** [get_fonts]: when the default font fails to load, the handler loads
    it again. *)
Definition get_fonts (w : World) (pil : ImageFont) : Res (FontKey -> Font) :=
  font_dict w pil font_paths
    (try_except (use_default pil) (fun _ => use_default pil)) font_sizes.

End Lightweight.

(** ** app_lora.py *)

Module Lora.

Definition GenerationRequest : list Field :=
  [ mkField "title" t_str None;
    mkField "subtitle" t_str (Some (JStr "CRYPTO NEWS"));
    mkField "client" t_str (Some (JStr "hedera"));
    mkField "style" t_optional_str (Some (JStr "energy_fields")) ].

Definition watermark_path : string := "genfinity-watermark.png".

Definition load_watermark (w : World) : option Image :=
  if path_exists w watermark_path
  then match open_rgba w watermark_path with
       | Ret img => Some img
       | Raise _ => None
       end
  else None.

(** [f"models/lora/{client}_lora.safetensors"] *)
Definition lora_path (client : string) : string :=
  "models/lora/" ++ client ++ "_lora.safetensors".

(** A method call on [self.pipeline]: [AttributeError] when it is [None]. *)
Definition on_pipeline {A : Type} (ev : Event) (r : Res A) : M A :=
  run self <- get_self;
  if pipeline self then call ev r
  else mraise (PyError "AttributeError" "'NoneType' object has no attribute").

Definition load_lora_model (w : World) (client : string) : M bool :=
  let lora_path := lora_path client in
  if path_exists w lora_path
  then mtry
         (exec on_pipeline (ev_load_lora lora_path) (pipeline_load_lora_weights w lora_path);
          exec on_pipeline ev_fuse_lora (pipeline_fuse_lora w);
          mret true)
         (fun _ => mret false)
  else mret false.

Definition brand_prompts : gmap string (gmap string string) :=
  {[
     "hedera" :=
       ({[
       "energy_fields" :=
         "dark electromagnetic field background, deep black with purple energy field distortions, purple electromagnetic waves, energy field visualizations, plasma-like purple distortions in space, electromagnetic field photography, 8k resolution, electric energy lighting, professional article cover background, no text, no words, no letters";
       "network_nodes" :=
         "dramatic dark purple hashgraph technology background, deep black void with glowing purple elements, glowing hashgraph network nodes in dark space, electric purple connections on black background, hexagonal grid overlay with luminous H symbols, premium dark technology photography, 8k resolution, dramatic lighting with deep shadows";
       "particle_waves" :=
         "dark cosmic background with purple particle systems, deep space with glowing purple dust clouds, swirling purple particle waves, cosmic dust formations, ethereal purple energy clouds floating in space, cosmic particle photography, 8k resolution, ethereal lighting effects" ]} : gmap string string);
     "algorand" :=
       ({[
       "energy_fields" :=
         "dark computational field background, black space with teal algorithmic energy patterns, teal computational waves, algorithm visualization fields, digital energy distortions, computational field photography, 8k resolution, digital energy lighting";
       "network_nodes" :=
         "sophisticated dark blockchain environment, deep black background with glowing teal triangular elements, glowing proof of stake visualization, electric teal triangular nodes on black background, geometric network topology, premium dark fintech photography, 8k resolution, dramatic professional lighting";
       "geometric_patterns" :=
         "clean dark architectural background, minimalist black space with teal geometric structures, precise teal geometric forms, triangular architectural elements, mathematical precision patterns, mathematical architecture photography, 8k resolution, precision lighting" ]} : gmap string string);
     "constellation" :=
       ({[
       "energy_fields" :=
         "dark gravitational field background, deep space with white gravitational wave distortions, white gravitational waves, spacetime distortion patterns, cosmic energy field visualizations, gravitational field photography, 8k resolution, spacetime lighting effects";
       "network_nodes" :=
         "dramatic dark cosmic space environment, deep black void with glowing stellar elements, glowing DAG network visualization, electric white star-shaped nodes on cosmic black background, premium dark space photography, 8k resolution, dramatic cosmic lighting";
       "crystalline_structures" :=
         "dark space with white crystal star formations, cosmic void with luminous crystal clusters, white crystalline star structures, cosmic crystal growth patterns, faceted stellar crystal formations, stellar crystal photography, 8k resolution, cosmic crystal lighting" ]} : gmap string string) ]}.

(** [get_enhanced_prompts] *)
Definition get_enhanced_prompts (client style : string) : Res string :=
  match brand_prompts !! lower client with
  | Some styles =>
      match styles !! style with
      | Some p => Ret p
      | None => do h <- dict_index brand_prompts "hedera"; dict_index h "energy_fields"
      end
  | None => do h <- dict_index brand_prompts "hedera"; dict_index h "energy_fields"
  end.

Definition title_lines (w : World) (width : Z) (title : string) : list string :=
  let title := upper title in
  let text_width := text_width w font_title title in
  if 4 * width <? 5 * text_width
  then split_at_mid_word (split title)
  else [title].

Definition title_ops (w : World) (width title_y : Z) (lines : list string)
  : list DrawOp :=
  concat (imap (fun i line =>
    let x := centered_x w width font_title line in
    let y := title_y + Z.of_nat i * 130 in
    [ draw_text (x + 3, y + 3) line (black 200) font_title;
      draw_text (x, y) line white font_title ]) lines).

Definition subtitle_ops (w : World) (width subtitle_y : Z) (subtitle : string)
  : list DrawOp :=
  let text_width := text_width w font_subtitle subtitle in
  let x := centered_x w width font_subtitle subtitle in
  let box_padding := 20 in
  let box_x1 := x - box_padding in
  let box_y1 := subtitle_y - box_padding / 2 in
  let box_x2 := x + text_width + box_padding in
  let box_y2 := subtitle_y + 60 + box_padding / 2 in
  [ draw_rounded_rectangle [box_x1; box_y1; box_x2; box_y2] 15
      (Some (black 120)) None 1;
    draw_text (x + 2, subtitle_y + 2) subtitle (black 150) font_subtitle;
    draw_text (x, subtitle_y) subtitle white font_subtitle ].

Definition overlay_ops (w : World) (width height : Z) (title subtitle : string)
  : Res (list DrawOp) :=
  let title_y := height / 3 in
  let lines := if truthy title then Some (title_lines w width title) else None in
  let drawn := match lines with
               | Some ls => title_ops w width title_y ls
               | None => []
               end in
  if truthy subtitle
  then do ls <- bound_title_lines lines;
       let subtitle_y := title_y + Z.of_nat (length ls) * 130 + 50 in
       Ret (drawn ++ subtitle_ops w width subtitle_y subtitle)%list
  else Ret drawn.

Definition create_text_overlay (w : World) (width height : Z)
    (title subtitle : string) : Res Image :=
  do ops <- overlay_ops w width height title subtitle;
  Ret (Image_new RGBA width height (px_overlay ops)).

(** [self.pipeline(prompt=..., width=1792, height=896, ...).images[0]];
    calling [None] raises [TypeError]. *)
Definition run_pipeline (w : World) (prompt : string) : M Image :=
  run self <- get_self;
  if pipeline self
  then call (ev_pipeline prompt 1792 896) (pipeline_call w prompt 1792 896)
  else mraise (PyError "TypeError" "'NoneType' object is not callable").

Definition generate_cover (w : World) (title subtitle client style : string)
  : M (option Image) :=
  mtry
    (run lora_loaded <- load_lora_model w client;
     run prompt <- lift (get_enhanced_prompts client style);
     run image <- run_pipeline w prompt;
     let resized_image := resize 1800 900 image in
     let base_rgba := convert RGBA resized_image in
     run text_overlay <- lift (create_text_overlay w 1800 900 title subtitle);
     run base_rgba <- lift (alpha_composite base_rgba text_overlay);
     run self <- get_self;
     run final_image <- lift (apply_watermark self 1800 900 base_rgba);
     mret (Some (convert RGB final_image)))
    (fun _ => mret None).

Definition root : JValue :=
  JObj [ ("message", JStr "Real LoRA Crypto News Image Generator");
         ("status", JStr "running");
         ("endpoints", JList [JStr "/generate"; JStr "/health"]);
         ("version", JStr "2.0.0") ].

Definition health : JValue :=
  JObj [ ("status", JStr "healthy"); ("service", JStr "real-lora-generator") ].

Definition generate_image (w : World) (request : GenerationRequest4)
  : M GenerationResponse :=
  mtry
    (run image <- generate_cover w (title4 request) (subtitle4 request)
                    (client4 request) (style_or (style4 request) "energy_fields");
     match image with
     | None => mraise (HTTPException 500 "Failed to generate image")
     | Some image =>
         run base64_image <- lift (png_base64 w image);
         mret (mkResponse true (Some (data_uri_prefix ++ base64_image)) None
                 (Some [ ("client", JStr (client4 request));
                         ("style", opt_str (style4 request));
                         ("title", JStr (title4 request));
                         ("subtitle", JStr (subtitle4 request));
                         ("generator", JStr "real-lora");
                         ("resolution", JStr "1800x900") ]))
     end)
    (fun e => mraise (HTTPException 500 ("Generation failed: " ++ str_exc w e))).

Definition routes : list (string * string) :=
  [ ("GET", "/"); ("GET", "/health"); ("POST", "/generate") ].

Definition font_sizes (size_name : FontKey) : Z :=
  match size_name with
  | font_title => 120
  | font_subtitle => 60
  | font_small => 40
  end.

Definition font_paths : list string :=
  [ "/usr/share/fonts/truetype/dejavu/DejaVuSans-Bold.ttf";
    "/System/Library/Fonts/Arial.ttc";
    "/usr/share/fonts/arial.ttf" ].

(** [get_fonts]: when the default font fails to load, the handler loads
    it again. *)
Definition get_fonts (w : World) (pil : ImageFont) : Res (FontKey -> Font) :=
  font_dict w pil font_paths
    (try_except (use_default pil) (fun _ => use_default pil)) font_sizes.

End Lora.

(** ** FRESH_SDXL_20251014_1514/app.py *)

Module Fresh.

Definition GenerationRequest : list Field :=
  [ mkField "title" t_str None;
    mkField "subtitle" t_str (Some (JStr "CRYPTO NEWS"));
    mkField "client" t_str (Some (JStr "hedera"));
    mkField "style" t_optional_str (Some (JStr "dark_theme"));
    mkField "use_trained_lora" t_bool (Some (JBool true)) ].

Definition watermark_path : string := "genfinity-watermark.png".

Definition load_watermark (w : World) : option Image :=
  if path_exists w watermark_path
  then match open_rgba w watermark_path with
       | Ret img => Some img
       | Raise _ => None
       end
  else None.

Definition lora_dir : string := "models/lora".
Definition styles : list string :=
  ["energy_fields"; "dark_theme"; "network_nodes"; "particle_waves"].
Definition clients : list string := ["hedera"; "algorand"; "constellation"].

(** [f"{lora_dir}/{client}_{style}_lora.safetensors"] *)
Definition lora_path (client style : string) : string :=
  lora_dir ++ "/" ++ client ++ "_" ++ style ++ "_lora.safetensors".

(** [f"{client}_{style}"] *)
Definition lora_key (client style : string) : string :=
  client ++ "_" ++ style.

Definition universal_lora : string :=
  lora_dir ++ "/crypto_cover_styles_lora.safetensors".

(** [check_available_loras]: the dict left in [self.lora_available]. *)
Definition check_available_loras (w : World) : gmap string string :=
  if negb (path_exists w lora_dir) then ∅
  else
    let specific :=
      foldl (fun acc client =>
        foldl (fun acc style =>
          if path_exists w (lora_path client style)
          then <[lora_key client style := lora_path client style]> acc
          else acc) acc styles) (∅ : gmap string string) clients in
    if path_exists w universal_lora
    then <["universal" := universal_lora]> specific
    else specific.

(** [load_pipeline]: the pipeline is kept only if loading and the 64x64
    test generation both succeed. *)
Definition load_pipeline (w : World) : bool :=
  match from_pretrained w "stabilityai/stable-diffusion-xl-base-1.0" with
  | Ret _ =>
      match pipeline_call w "test" 64 64 with
      | Ret _ => true
      | Raise _ => false
      end
  | Raise _ => false
  end.

(** [__init__] *)
Definition init (w : World) : Generator :=
  mkGenerator (load_watermark w) (load_pipeline w) (check_available_loras w)
    None false.

(** The [try] block of [load_lora_weights]. *)
Definition switch_lora (w : World) (path key : string) : M bool :=
  mtry
    (run self <- get_self;
     exec when (match current_lora self with
                | Some k => truthy k
                | None => false
                end)
            (call ev_unload_lora (pipeline_unload_lora_weights w));
     exec call (ev_load_lora path) (pipeline_load_lora_weights w path);
     exec set_current_lora key;
     mret true)
    (fun _ => mret false).

Definition load_lora_weights (w : World) (client style : string) : M bool :=
  run self <- get_self;
  if negb (pipeline self) then mret false
  else
    let key := lora_key client style in
    match lora_available self !! key with
    | Some path => switch_lora w path key
    | None =>
        match lora_available self !! "universal" with
        | Some path => switch_lora w path "universal"
        | None => mret false
        end
    end.

Definition style_prompts (client : string) : gmap string string :=
  {[ "energy_fields" :=
       "crypto news cover background, glowing energy fields, particle effects, cosmic energy, vibrant auras, "
       ++ client ++ " branding colors, professional design";
     "dark_theme" :=
       "crypto news cover background, dark professional background, subtle geometric patterns, minimal lighting, "
       ++ client ++ " color scheme, corporate style";
     "network_nodes" :=
       "crypto news cover background, connected network nodes, digital connections, tech visualization, "
       ++ client ++ " branding, futuristic design";
     "particle_waves" :=
       "crypto news cover background, flowing particle waves, dynamic motion, wave patterns, "
       ++ client ++ " colors, energy flow" ]}.

Definition prompt_for (client style : string) : string :=
  dict_get (style_prompts client) style
    ("crypto news cover background, " ++ client ++ " style, professional design").

Definition generate_with_trained_lora (w : World) (client style title : string)
  : M (option Image) :=
  run self <- get_self;
  if negb (pipeline self) then mret None
  else
    run lora_loaded <- load_lora_weights w client style;
    let prompt := prompt_for client style in
    mtry
      (run image <- call (ev_pipeline prompt 1024 512) (pipeline_call w prompt 1024 512);
       let image := resize 1800 900 image in
       mret (Some image))
      (fun _ => mret None).

Definition colors : gmap string Scheme :=
  {[ "hedera" := mkScheme (138, 43, 226) (75, 0, 130) (186, 85, 211) (255, 0, 255);
     "algorand" := mkScheme (0, 120, 140) (0, 85, 100) (75, 163, 224) (0, 255, 255);
     "constellation" := mkScheme (72, 61, 139) (25, 25, 112) (106, 90, 205) (255, 255, 255) ]}.

(** Only the [dark_theme] style draws anything on the base image, and no
    draw of it depends on the size: what can raise is the creation of the
    image.  The result is an RGB image of the requested size. *)
Definition generate_programmatic_fallback (width height : Z) (client style : string)
  : Res Image :=
  do client_colors <- client_colors_of colors client;
  do _ <- new_image width height;
  Ret (Image_new RGB width height
         (px_procedural "generate_programmatic_fallback" client_colors style)).

Definition title_lines (title : string) : list string :=
  let title := upper title in
  let words := split title in
  if (3 <? length words)%nat then split_at_mid_word words else [title].

Definition title_ops (w : World) (width title_y : Z) (lines : list string)
  : list DrawOp :=
  concat (imap (fun i line =>
    let x := centered_x w width font_title line in
    let y := title_y + Z.of_nat i * 250 in
    [ draw_text (x + 8, y + 8) line (black 255) font_title;
      draw_text (x + 4, y + 4) line (black 200) font_title;
      draw_text (x, y) line white font_title ]) lines).

Definition subtitle_ops (w : World) (width subtitle_y : Z) (subtitle : string)
  : list DrawOp :=
  let text_width := text_width w font_subtitle subtitle in
  let x := centered_x w width font_subtitle subtitle in
  let padding := 40 in
  [ draw_rounded_rectangle
      [x - padding; subtitle_y - 20; x + text_width + padding; subtitle_y + 120] 20
      (Some (black 180)) None 1;
    draw_text (x + 3, subtitle_y + 3) subtitle (black 200) font_subtitle;
    draw_text (x, subtitle_y) subtitle white font_subtitle ].

Definition overlay_ops (w : World) (width height : Z) (title subtitle : string)
  : Res (list DrawOp) :=
  let title_y := height / 4 in
  let lines := if truthy title then Some (title_lines title) else None in
  let drawn := match lines with
               | Some ls => title_ops w width title_y ls
               | None => []
               end in
  if truthy subtitle
  then do ls <- bound_title_lines lines;
       let subtitle_y := title_y + Z.of_nat (length ls) * 250 + 80 in
       Ret (drawn ++ subtitle_ops w width subtitle_y subtitle)%list
  else Ret drawn.

Definition create_text_overlay (w : World) (width height : Z)
    (title subtitle : string) : Res Image :=
  do ops <- overlay_ops w width height title subtitle;
  Ret (Image_new RGBA width height (px_overlay ops)).

(** [use_trained_lora and self.lora_available and self.pipeline] *)
Definition lora_enabled (self : Generator) (use_trained_lora : bool) : bool :=
  use_trained_lora && bool_decide (lora_available self ≠ ∅) && pipeline self.

(** The background of [generate_cover]: the LoRA attempt when enabled,
    then the programmatic fallback if there is no image yet. *)
Definition cover_background (w : World) (width height : Z)
    (title client style : string) (use_trained_lora : bool) : M Image :=
  run self <- get_self;
  run background <-
    (if lora_enabled self use_trained_lora
     then generate_with_trained_lora w client style title
     else mret None);
  match background with
  | Some img => mret img
  | None => lift (generate_programmatic_fallback width height client style)
  end.

Definition generate_cover (w : World) (title subtitle client style : string)
    (use_trained_lora : bool) : M (option Image * string) :=
  mtry
    (let width := 1800 in
     let height := 900 in
     run background <- cover_background w width height title client style use_trained_lora;
     let base_rgba := convert RGBA background in
     run text_overlay <- lift (create_text_overlay w width height title subtitle);
     run base_rgba <- lift (alpha_composite base_rgba text_overlay);
     run self <- get_self;
     run final_image <- lift (apply_watermark self width height base_rgba);
     let generation_method :=
       if use_trained_lora && match current_lora self with
                              | Some k => truthy k
                              | None => false
                              end
       then "sdxl_universal_lora" else "programmatic_fallback" in
     mret (Some (convert RGB final_image), generation_method))
    (fun _ => mret (None, "error")).

Definition dict_json (d : gmap string string) : JValue :=
  JObj (map (fun kv => (fst kv, JStr (snd kv))) (map_to_list d)).

Definition root (self : Generator) : JValue :=
  JObj [ ("message", JStr "SDXL Universal LoRA Cover Generator");
         ("status", JStr "running");
         ("available_loras",
           JList (if bool_decide (lora_available self ≠ ∅)
                  then map (fun kv => JStr (fst kv)) (map_to_list (lora_available self))
                  else [JStr "none"]));
         ("pipeline_loaded", JBool (pipeline self));
         ("endpoints", JList [JStr "/generate"; JStr "/health"; JStr "/lora-status"]);
         ("version", JStr "6.0.0") ].

Definition health (self : Generator) : JValue :=
  JObj [ ("status", JStr "healthy");
         ("service", JStr "sdxl-universal-lora-cover-generator");
         ("lora_count", JNum (Z.of_nat (size (lora_available self)))) ].

Definition lora_status (self : Generator) : JValue :=
  JObj [ ("available_loras", dict_json (lora_available self));
         ("current_lora", opt_str (current_lora self));
         ("pipeline_loaded", JBool (pipeline self)) ].

Definition generate_image (w : World) (request : GenerationRequest5)
  : M GenerationResponse :=
  mtry
    (run result <- generate_cover w (title5 request) (subtitle5 request)
                     (client5 request) (style_or (style5 request) "dark_theme")
                     (use_trained_lora5 request);
     match result with
     | (None, _) => mraise (HTTPException 500 "Generation failed")
     | (Some image, method) =>
         run base64_image <- lift (png_base64 w image);
         run self <- get_self;
         mret (mkResponse true (Some (data_uri_prefix ++ base64_image)) None
                 (Some [ ("client", JStr (client5 request));
                         ("style", opt_str (style5 request));
                         ("title", JStr (title5 request));
                         ("subtitle", JStr (subtitle5 request));
                         ("generation_method", JStr method);
                         ("lora_used", opt_str (current_lora self));
                         ("resolution", JStr "1800x900") ]))
     end)
    (fun e => mraise (HTTPException 500 ("Generation failed: " ++ str_exc w e))).

Definition routes : list (string * string) :=
  [ ("GET", "/"); ("GET", "/health"); ("GET", "/lora-status"); ("POST", "/generate") ].

Definition font_sizes (size_name : FontKey) : Z :=
  match size_name with
  | font_title => 200
  | font_subtitle => 100
  | font_small => 60
  end.

Definition font_paths : list string :=
  [ "/usr/share/fonts/truetype/dejavu/DejaVuSans-Bold.ttf";
    "/usr/share/fonts/truetype/liberation/LiberationSans-Bold.ttf" ].

(** [get_fonts] *)
Definition get_fonts (w : World) (pil : ImageFont) : Res (FontKey -> Font) :=
  font_dict w pil font_paths (use_default pil) font_sizes.

End Fresh.

(** ** app_enhanced_fallback.py *)

Module EnhancedFallback.

Definition GenerationRequest : list Field :=
  [ mkField "title" t_str None;
    mkField "subtitle" t_str (Some (JStr "CRYPTO NEWS"));
    mkField "client" t_str (Some (JStr "hedera"));
    mkField "style" t_optional_str (Some (JStr "dark_theme"));
    mkField "use_trained_lora" t_bool (Some (JBool true)) ].

Definition watermark_path : string := "genfinity-watermark.png".

Definition load_watermark (w : World) : option Image :=
  if path_exists w watermark_path
  then match open_rgba w watermark_path with
       | Ret img => Some img
       | Raise _ => None
       end
  else None.

Definition lora_paths : list string :=
  [ "models/lora/crypto_cover_styles_lora.safetensors";
    "models/lora/universal/crypto_cover_universal_lora.pt";
    "crypto_cover_styles_lora.safetensors" ].

(** [check_universal_lora]: the value left in
    [self.universal_lora_available]. *)
Definition check_universal_lora (w : World) : bool :=
  existsb (path_exists w) lora_paths.

Definition lora_path : string := "models/lora/crypto_cover_styles_lora.safetensors".

(** [try_load_lora_pipeline]: the pipeline is kept only when it loads, the
    weights file exists and the weights load; otherwise both attributes
    are reset. *)
Definition try_load_lora_pipeline (w : World) (available : bool) : bool :=
  if negb available then false
  else
    match from_pretrained w "stabilityai/stable-diffusion-xl-base-1.0" with
    | Ret _ =>
        if path_exists w lora_path
        then match pipeline_load_lora_weights w lora_path with
             | Ret _ => true
             | Raise _ => false
             end
        else false
    | Raise _ => false
    end.

(** [__init__]; [pipeline] stands for [self.lora_pipeline]. *)
Definition init (w : World) : Generator :=
  let available := check_universal_lora w in
  let loaded := try_load_lora_pipeline w available in
  mkGenerator (load_watermark w) loaded ∅ None
    (if negb available then false else loaded).

Definition style_prompts (client : string) : gmap string string :=
  {[ "energy_fields" :=
       "crypto news cover background, glowing energy fields, particle effects, "
       ++ client ++ " branding, professional design";
     "dark_theme" :=
       "crypto news cover background, dark professional theme, geometric patterns, "
       ++ client ++ " branding, corporate style";
     "network_nodes" :=
       "crypto news cover background, connected network nodes, tech visualization, "
       ++ client ++ " branding, futuristic design";
     "particle_waves" :=
       "crypto news cover background, flowing particle waves, dynamic motion, "
       ++ client ++ " branding, energy flow";
     "corporate_style" :=
       "crypto news cover background, clean corporate design, professional gradients, "
       ++ client ++ " branding";
     "ultra_visible" :=
       "crypto news cover background, high contrast design, bright elements, "
       ++ client ++ " branding, professional" ]}.

Definition prompt_for (client style : string) : string :=
  dict_get (style_prompts client) style
    ("crypto news cover background, " ++ style ++ ", " ++ client
     ++ " branding, professional design").

Definition generate_with_universal_lora (w : World) (title client style : string)
  : M (option Image) :=
  run self <- get_self;
  if negb (pipeline self) then mret None
  else
    mtry
      (let prompt := prompt_for client style in
       run image <- call (ev_pipeline prompt 1024 512) (pipeline_call w prompt 1024 512);
       let image := resize 1800 900 image in
       mret (Some image))
      (fun _ => mret None).

Definition colors : gmap string Scheme :=
  {[ "hedera" := mkScheme (138, 43, 226) (75, 0, 130) (186, 85, 211) (255, 100, 255);
     "algorand" := mkScheme (0, 120, 140) (0, 85, 100) (75, 163, 224) (0, 255, 255);
     "constellation" := mkScheme (72, 61, 139) (25, 25, 112) (106, 90, 205) (255, 255, 255);
     "bitcoin" := mkScheme (255, 165, 0) (184, 115, 51) (255, 215, 0) (255, 255, 0);
     "ethereum" := mkScheme (98, 126, 234) (52, 73, 154) (162, 177, 255) (255, 255, 255) ]}.

(** What can raise is the creation of the image and the first
    [random.randint] of a style whose range depends on the size. *)
Definition generate_enhanced_fallback (width height : Z) (client style : string)
  : Res Image :=
  do client_colors <- client_colors_of colors client;
  do _ <- new_image width height;
  do _ <- (if String.eqb style "dark_theme"
           then Ret tt
           else if String.eqb style "energy_fields"
           then do _ <- randint 0 width; randint 0 height
           else if String.eqb style "network_nodes"
           then do _ <- randint 100 (width - 100); randint 100 (height - 100)
           else Ret tt);
  Ret (Image_new RGB width height
         (px_procedural "generate_enhanced_fallback" client_colors style)).

Definition title_lines (title : string) : list string :=
  let title := upper title in
  let words := split title in
  if (4 <? length words)%nat then split_at_mid_word words else [title].

Definition title_ops (w : World) (width title_y : Z) (lines : list string)
  : list DrawOp :=
  concat (imap (fun i line =>
    let x := centered_x w width font_title line in
    let y := title_y + Z.of_nat i * 250 in
    [ draw_text (x + 8, y + 8) line (black 255) font_title;
      draw_text (x + 4, y + 4) line (black 200) font_title;
      draw_text (x, y) line white font_title ]) lines).

Definition subtitle_ops (w : World) (width subtitle_y : Z) (subtitle : string)
  : list DrawOp :=
  let text_width := text_width w font_subtitle subtitle in
  let x := centered_x w width font_subtitle subtitle in
  let padding := 50 in
  let box_coords :=
    [x - padding; subtitle_y - 25; x + text_width + padding; subtitle_y + 125] in
  [ draw_rounded_rectangle box_coords 25 (Some (black 180)) None 1;
    draw_rounded_rectangle
      (map (fun c => c + 3) (take 2 box_coords)
       ++ map (fun c => c - 3) (drop 2 box_coords))%list 22
      None (Some (255, 255, 255, 80)) 2;
    draw_text (x + 3, subtitle_y + 3) subtitle (black 255) font_subtitle;
    draw_text (x, subtitle_y) subtitle white font_subtitle ].

Definition overlay_ops (w : World) (width height : Z) (title subtitle : string)
  : Res (list DrawOp) :=
  let title_y := height / 4 in
  let lines := if truthy title then Some (title_lines title) else None in
  let drawn := match lines with
               | Some ls => title_ops w width title_y ls
               | None => []
               end in
  if truthy subtitle
  then do ls <- bound_title_lines lines;
       let subtitle_y := title_y + Z.of_nat (length ls) * 250 + 100 in
       Ret (drawn ++ subtitle_ops w width subtitle_y subtitle)%list
  else Ret drawn.

Definition create_text_overlay (w : World) (width height : Z)
    (title subtitle : string) : Res Image :=
  do ops <- overlay_ops w width height title subtitle;
  Ret (Image_new RGBA width height (px_overlay ops)).

(** [use_trained_lora and self.lora_pipeline] *)
Definition lora_enabled (self : Generator) (use_trained_lora : bool) : bool :=
  use_trained_lora && pipeline self.

(** The background of [generate_cover] and the generation method. *)
Definition cover_background (w : World) (width height : Z)
    (title client style : string) (use_trained_lora : bool) : M (Image * string) :=
  run self <- get_self;
  run background <-
    (if lora_enabled self use_trained_lora
     then generate_with_universal_lora w title client style
     else mret None);
  match background with
  | Some img => mret (img, "universal_lora")
  | None =>
      run img <- lift (generate_enhanced_fallback width height client style);
      mret (img, "enhanced_fallback")
  end.

Definition generate_cover (w : World) (title subtitle client style : string)
    (use_trained_lora : bool) : M (option Image * string) :=
  mtry
    (let width := 1800 in
     let height := 900 in
     run bg <- cover_background w width height title client style use_trained_lora;
     let '(background, generation_method) := bg in
     let base_rgba := convert RGBA background in
     run text_overlay <- lift (create_text_overlay w width height title subtitle);
     run base_rgba <- lift (alpha_composite base_rgba text_overlay);
     run self <- get_self;
     run final_image <- lift (apply_watermark self width height base_rgba);
     mret (Some (convert RGB final_image), generation_method))
    (fun _ => mret (None, "error")).

Definition root (self : Generator) : JValue :=
  JObj [ ("message", JStr "Enhanced Crypto News Generator with Universal LoRA Support");
         ("status", JStr "running");
         ("universal_lora_available", JBool (universal_lora_available self));
         ("lora_pipeline_loaded", JBool (pipeline self));
         ("capabilities",
           JObj [ ("universal_lora", JBool (universal_lora_available self));
                  ("enhanced_fallback", JBool true);
                  ("styles", JList (map JStr
                     ["energy_fields"; "dark_theme"; "network_nodes";
                      "particle_waves"; "corporate_style"; "ultra_visible"]));
                  ("clients", JList (map JStr
                     ["hedera"; "algorand"; "constellation"; "bitcoin"; "ethereum"])) ]);
         ("version", JStr "3.0.0") ].

Definition health (self : Generator) : JValue :=
  JObj [ ("status", JStr "healthy");
         ("service", JStr "enhanced-universal-generator");
         ("universal_lora", JBool (universal_lora_available self)) ].

Definition generate_image (w : World) (request : GenerationRequest5)
  : M GenerationResponse :=
  mtry
    (run result <- generate_cover w (title5 request) (subtitle5 request)
                     (client5 request) (style_or (style5 request) "dark_theme")
                     (use_trained_lora5 request);
     match result with
     | (None, _) => mraise (HTTPException 500 "Generation failed")
     | (Some image, method) =>
         run base64_image <- lift (png_base64 w image);
         run self <- get_self;
         mret (mkResponse true (Some (data_uri_prefix ++ base64_image)) None
                 (Some [ ("client", JStr (client5 request));
                         ("style", opt_str (style5 request));
                         ("title", JStr (title5 request));
                         ("subtitle", JStr (subtitle5 request));
                         ("generation_method", JStr method);
                         ("universal_lora_available",
                            JBool (universal_lora_available self));
                         ("resolution", JStr "1800x900");
                         ("generator", JStr "enhanced-universal-v3") ]))
     end)
    (fun e => mraise (HTTPException 500 ("Generation failed: " ++ str_exc w e))).

Definition routes : list (string * string) :=
  [ ("GET", "/"); ("GET", "/health"); ("POST", "/generate") ].

Definition font_sizes (size_name : FontKey) : Z :=
  match size_name with
  | font_title => 200
  | font_subtitle => 100
  | font_small => 60
  end.

Definition font_paths : list string :=
  [ "/usr/share/fonts/truetype/dejavu/DejaVuSans-Bold.ttf";
    "/usr/share/fonts/truetype/liberation/LiberationSans-Bold.ttf";
    "/System/Library/Fonts/Arial.ttc" ].

(** [get_fonts] *)
Definition get_fonts (w : World) (pil : ImageFont) : Res (FontKey -> Font) :=
  font_dict w pil font_paths (use_default pil) font_sizes.

End EnhancedFallback.

(** ** app_force_visible.py *)

Module ForceVisible.

Definition GenerationRequest : list Field :=
  [ mkField "title" t_str None;
    mkField "subtitle" t_str (Some (JStr "CRYPTO NEWS"));
    mkField "client" t_str (Some (JStr "hedera"));
    mkField "style" t_optional_str (Some (JStr "dark_theme")) ].

Definition watermark_path : string := "genfinity-watermark.png".

Definition load_watermark (w : World) : option Image :=
  if path_exists w watermark_path
  then match open_rgba w watermark_path with
       | Ret img => Some img
       | Raise _ => None
       end
  else None.

Definition colors : gmap string Scheme :=
  {[ "hedera" := mkScheme (200, 100, 255) (150, 50, 200) (255, 150, 255) (255, 100, 255);
     "algorand" := mkScheme (0, 200, 220) (0, 150, 180) (100, 220, 255) (0, 255, 255);
     "constellation" := mkScheme (120, 100, 200) (80, 80, 150) (150, 130, 255) (255, 255, 255) ]}.

(** What can raise is the creation of the image and the first
    [random.randint] whose range depends on the size. *)
Definition create_ultra_visible_background (width height : Z) (client style : string)
  : Res Image :=
  do client_colors <- client_colors_of colors client;
  do _ <- new_image width height;
  do _ <- (if String.eqb style "dark_theme"
           then do _ <- randint 100 (width - 100); randint 100 (height - 100)
           else do _ <- randint 0 width; randint 0 height);
  Ret (Image_new RGB width height
         (px_procedural "create_ultra_visible_background" client_colors style)).

Definition title_lines (title : string) : list string :=
  let title := upper title in
  let words := split title in
  if (3 <? length words)%nat then split_at_mid_word words
  else if (1 <? length words)%nat
       then [hd "" words; join " " (drop 1 words)]
       else [title].

Definition title_ops (w : World) (width title_y : Z) (lines : list string)
  : list DrawOp :=
  concat (imap (fun i line =>
    let x := centered_x w width font_title line in
    let y := title_y + Z.of_nat i * 350 in
    [ draw_text (x + 12, y + 12) line (black 255) font_title;
      draw_text (x + 8, y + 8) line (black 200) font_title;
      draw_text (x + 4, y + 4) line (black 150) font_title;
      draw_text (x, y) line white font_title ]) lines).

Definition subtitle_ops (w : World) (width subtitle_y : Z) (subtitle : string)
  : list DrawOp :=
  let text_width := text_width w font_subtitle subtitle in
  let x := centered_x w width font_subtitle subtitle in
  let box_padding := 50 in
  let box_x1 := x - box_padding in
  let box_y1 := subtitle_y - box_padding / 2 in
  let box_x2 := x + text_width + box_padding in
  let box_y2 := subtitle_y + 150 + box_padding / 2 in
  [ draw_rounded_rectangle [box_x1; box_y1; box_x2; box_y2] 25
      (Some (black 200)) None 1;
    draw_rounded_rectangle [box_x1 + 4; box_y1 + 4; box_x2 - 4; box_y2 - 4] 21
      None (Some (255, 255, 255, 120)) 3;
    draw_text (x + 6, subtitle_y + 6) subtitle (black 255) font_subtitle;
    draw_text (x, subtitle_y) subtitle white font_subtitle ].

Definition overlay_ops (w : World) (width height : Z) (title subtitle : string)
  : Res (list DrawOp) :=
  let title_y := height / 6 in
  let lines := if truthy title then Some (title_lines title) else None in
  let drawn := match lines with
               | Some ls => title_ops w width title_y ls
               | None => []
               end in
  if truthy subtitle
  then do ls <- bound_title_lines lines;
       let subtitle_y := title_y + Z.of_nat (length ls) * 350 + 100 in
       Ret (drawn ++ subtitle_ops w width subtitle_y subtitle)%list
  else Ret drawn.

Definition create_massive_text_overlay (w : World) (width height : Z)
    (title subtitle : string) : Res Image :=
  do ops <- overlay_ops w width height title subtitle;
  Ret (Image_new RGBA width height (px_overlay ops)).

Definition generate_cover (w : World) (title subtitle client style : string)
  : M (option Image) :=
  mtry
    (let width := 1800 in
     let height := 900 in
     run background <- lift (create_ultra_visible_background width height client style);
     let base_rgba := convert RGBA background in
     run text_overlay <- lift (create_massive_text_overlay w width height title subtitle);
     run base_rgba <- lift (alpha_composite base_rgba text_overlay);
     run self <- get_self;
     run final_image <- lift (apply_watermark self width height base_rgba);
     mret (Some (convert RGB final_image)))
    (fun _ => mret None).

Definition root : JValue :=
  JObj [ ("message", JStr "FORCE VISIBLE LoRA Generator - ULTRA ENHANCED");
         ("status", JStr "FORCING VISIBILITY");
         ("endpoints", JList [JStr "/generate"; JStr "/health"]);
         ("version", JStr "3.0.0-ULTRA") ].

Definition health : JValue :=
  JObj [ ("status", JStr "FORCE HEALTHY"); ("service", JStr "ultra-visible-generator") ].

Definition generate_image (w : World) (request : GenerationRequest4)
  : M GenerationResponse :=
  mtry
    (run image <- generate_cover w (title4 request) (subtitle4 request)
                    (client4 request) (style_or (style4 request) "dark_theme");
     match image with
     | None => mraise (HTTPException 500 "FORCE generation failed")
     | Some image =>
         run base64_image <- lift (png_base64 w image);
         mret (mkResponse true (Some (data_uri_prefix ++ base64_image)) None
                 (Some [ ("client", JStr (client4 request));
                         ("style", opt_str (style4 request));
                         ("title", JStr (title4 request));
                         ("subtitle", JStr (subtitle4 request));
                         ("generator", JStr "ULTRA-VISIBLE-FORCE");
                         ("resolution", JStr "1800x900");
                         ("visibility", JStr "MAXIMUM") ]))
     end)
    (fun e => mraise (HTTPException 500 ("FORCE generation failed: " ++ str_exc w e))).

Definition routes : list (string * string) :=
  [ ("GET", "/"); ("GET", "/health"); ("POST", "/generate") ].

End ForceVisible.

(** ** universal_lora_deploy_2025-10-14/app_lightweight.py *)

Module UniLightweight.

Definition GenerationRequest : list Field :=
  [ mkField "title" t_str None;
    mkField "subtitle" t_str (Some (JStr "CRYPTO NEWS"));
    mkField "client" t_str (Some (JStr "hedera"));
    mkField "style" t_optional_str (Some (JStr "dark_theme"));
    mkField "use_trained_lora" t_bool (Some (JBool true)) ].

Definition watermark_path : string := "genfinity-watermark.png".

Definition load_watermark (w : World) : option Image :=
  if path_exists w watermark_path
  then match open_rgba w watermark_path with
       | Ret img => Some img
       | Raise _ => None
       end
  else None.

Definition colors : gmap string Scheme :=
  {[ "hedera" := mkScheme (138, 43, 226) (75, 0, 130) (186, 85, 211) (255, 0, 255);
     "algorand" := mkScheme (0, 120, 140) (0, 85, 100) (75, 163, 224) (0, 255, 255);
     "constellation" := mkScheme (72, 61, 139) (25, 25, 112) (106, 90, 205) (255, 255, 255);
     "bitcoin" := mkScheme (247, 147, 26) (205, 102, 0) (255, 193, 7) (255, 215, 0);
     "ethereum" := mkScheme (98, 126, 234) (55, 71, 153) (141, 155, 255) (173, 216, 230) ]}.

(** What can raise is the creation of the image and the first
    [random.randint] of a style whose range depends on the size. *)
Definition generate_lora_style_background (width height : Z) (client style : string)
  : Res Image :=
  do client_colors <- client_colors_of colors client;
  do _ <- new_image width height;
  do _ <- (if String.eqb style "energy_fields"
           then do _ <- randint 0 width; randint 0 height
           else if String.eqb style "network_nodes"
           then do _ <- new_image width height;
                do _ <- randint 50 (width - 50); randint 50 (height - 50)
           else if String.eqb style "particle_waves"
           then Ret tt
           else if String.eqb style "corporate_style"
           then do _ <- randint 0 (width / 2); randint 0 (height / 2)
           else if String.eqb style "ultra_visible"
           then do _ <- randint 100 (width - 100); randint 100 (height - 100)
           else Ret tt);
  Ret (Image_new RGB width height
         (px_procedural "generate_lora_style_background" client_colors style)).

Definition title_lines (title : string) : list string :=
  let title := upper title in
  let words := split title in
  if (4 <? length words)%nat then split_at_mid_word words else [title].

Definition title_ops (w : World) (width title_y : Z) (lines : list string)
  : list DrawOp :=
  concat (imap (fun i line =>
    let x := centered_x w width font_title line in
    let y := title_y + Z.of_nat i * 180 in
    (map (fun offset : Z * Z =>
            let shadow_alpha := 255 - (fst offset - 4) * 30 in
            draw_text (x + fst offset, y + snd offset) line (black shadow_alpha) font_title)
         [(12, 12); (8, 8); (4, 4)]
     ++ [ draw_text (x, y) line white font_title ])%list) lines).

(** [y] is the variable left by the last round of the title loop. *)
Definition subtitle_ops (w : World) (width subtitle_y y : Z) (subtitle : string)
  : list DrawOp :=
  let text_width := text_width w font_subtitle subtitle in
  let x := centered_x w width font_subtitle subtitle in
  let padding := 30 in
  [ draw_rounded_rectangle
      [x - padding; subtitle_y - 15; x + text_width + padding; subtitle_y + 95] 15
      (Some (black 200)) None 1;
    draw_rounded_rectangle
      [x - padding + 3; subtitle_y - 12; x + text_width + padding - 3; subtitle_y + 92] 12
      None (Some (255, 255, 255, 100)) 2;
    draw_text (x + 2, y + 2) subtitle (black 150) font_subtitle;
    draw_text (x, subtitle_y) subtitle white font_subtitle ].

Definition overlay_ops (w : World) (width height : Z) (title subtitle : string)
  : Res (list DrawOp) :=
  let title_y := height / 3 in
  let lines := if truthy title then Some (title_lines title) else None in
  let drawn := match lines with
               | Some ls => title_ops w width title_y ls
               | None => []
               end in
  if truthy subtitle
  then do ls <- bound_title_lines lines;
       let subtitle_y := title_y + Z.of_nat (length ls) * 180 + 60 in
       let y := title_y + Z.of_nat (length ls - 1) * 180 in
       Ret (drawn ++ subtitle_ops w width subtitle_y y subtitle)%list
  else Ret drawn.

Definition create_text_overlay (w : World) (width height : Z)
    (title subtitle : string) : Res Image :=
  do ops <- overlay_ops w width height title subtitle;
  Ret (Image_new RGBA width height (px_overlay ops)).

Definition generate_cover (w : World) (title subtitle client style : string)
  : M (option Image * string) :=
  mtry
    (let width := 1800 in
     let height := 900 in
     run background <- lift (generate_lora_style_background width height client style);
     let base_rgba := convert RGBA background in
     run text_overlay <- lift (create_text_overlay w width height title subtitle);
     run base_rgba <- lift (alpha_composite base_rgba text_overlay);
     run self <- get_self;
     run final_image <- lift (apply_watermark self width height base_rgba);
     mret (Some (convert RGB final_image), "lightweight_lora_style"))
    (fun _ => mret (None, "error")).

Definition root : JValue :=
  JObj [ ("message", JStr "Lightweight LoRA Cover Generator");
         ("status", JStr "running");
         ("available_loras", JList [JStr "universal_lightweight"]);
         ("pipeline_loaded", JBool true);
         ("endpoints", JList [JStr "/generate"; JStr "/health"; JStr "/lora-status"]);
         ("version", JStr "5.0.0") ].

Definition health : JValue :=
  JObj [ ("status", JStr "healthy");
         ("service", JStr "lightweight-lora-cover-generator");
         ("lora_count", JNum 1) ].

Definition lora_status : JValue :=
  JObj [ ("available_loras", JObj [("universal_lightweight", JStr "built-in")]);
         ("current_lora", JStr "universal_lightweight");
         ("pipeline_loaded", JBool true) ].

Definition generate_image (w : World) (request : GenerationRequest5)
  : M GenerationResponse :=
  mtry
    (run result <- generate_cover w (title5 request) (subtitle5 request)
                     (client5 request) (style_or (style5 request) "dark_theme");
     match result with
     | (None, _) => mraise (HTTPException 500 "Generation failed")
     | (Some image, method) =>
         run base64_image <- lift (png_base64 w image);
         mret (mkResponse true (Some (data_uri_prefix ++ base64_image)) None
                 (Some [ ("client", JStr (client5 request));
                         ("style", opt_str (style5 request));
                         ("title", JStr (title5 request));
                         ("subtitle", JStr (subtitle5 request));
                         ("generation_method", JStr method);
                         ("lora_used", JStr "universal_lightweight");
                         ("resolution", JStr "1800x900") ]))
     end)
    (fun e => mraise (HTTPException 500 ("Generation failed: " ++ str_exc w e))).

Definition routes : list (string * string) :=
  [ ("GET", "/"); ("GET", "/health"); ("GET", "/lora-status"); ("POST", "/generate") ].

End UniLightweight.

(** ** universal_lora_deploy_2025-10-14/app_CPU_LORA.py *)

Module CpuLora.

Definition GenerationRequest : list Field :=
  [ mkField "title" t_str None;
    mkField "subtitle" t_str (Some (JStr "CRYPTO NEWS"));
    mkField "client" t_str (Some (JStr "hedera"));
    mkField "style" t_optional_str (Some (JStr "dark_theme"));
    mkField "use_trained_lora" t_bool (Some (JBool true)) ].

Definition watermark_path : string := "genfinity-watermark.png".

Definition load_watermark (w : World) : option Image :=
  if path_exists w watermark_path
  then match open_rgba w watermark_path with
       | Ret img => Some img
       | Raise _ => None
       end
  else None.

Definition force_load_lora_weights (w : World) : M bool :=
  run self <- get_self;
  if negb (pipeline self) then mraise (PyError "Exception" "Pipeline not loaded")
  else
    run lora_path <- lift (dict_index (lora_available self) "universal");
    mtry
      (exec when (match current_lora self with
                  | Some k => truthy k
                  | None => false
                  end)
             (call ev_unload_lora (pipeline_unload_lora_weights w));
       exec call (ev_load_lora lora_path) (pipeline_load_lora_weights w lora_path);
       exec set_current_lora "universal";
       mret true)
      (fun e => mraise (PyError "Exception" ("LoRA loading failed: " ++ str_exc w e))).

Definition style_prompts (client : string) : gmap string string :=
  {[ "energy_fields" :=
       "crypto cover, glowing energy fields, " ++ client ++ " colors, professional design";
     "dark_theme" :=
       "crypto cover, dark background, " ++ client ++ " branding, corporate style";
     "network_nodes" :=
       "crypto cover, network visualization, " ++ client ++ " colors, tech design";
     "particle_waves" :=
       "crypto cover, particle effects, " ++ client ++ " branding, modern style" ]}.

Definition prompt_for (client style : string) : string :=
  dict_get (style_prompts client) style
    ("crypto cover, " ++ client ++ " style, professional").

Definition generate_with_cpu_lora (w : World) (client style title : string)
  : M Image :=
  run self <- get_self;
  if negb (pipeline self) then mraise (PyError "Exception" "Pipeline not available")
  else
    exec force_load_lora_weights w;
    let prompt := prompt_for client style in
    mtry
      (run image <- call (ev_pipeline prompt 1024 512) (pipeline_call w prompt 1024 512);
       mret (resize 1800 900 image))
      (fun e => mraise (PyError "Exception"
                          ("CPU LoRA generation failed: " ++ str_exc w e))).

Definition title_lines (title : string) : list string :=
  let title := upper title in
  let words := split title in
  if (3 <? length words)%nat then split_at_mid_word words else [title].

Definition title_ops (w : World) (width title_y : Z) (lines : list string)
  : list DrawOp :=
  concat (imap (fun i line =>
    let x := centered_x w width font_title line in
    let y := title_y + Z.of_nat i * 250 in
    (map (fun offset : Z * Z =>
            draw_text (x + fst offset, y + snd offset) line (black 200) font_title)
         [(8, 8); (4, 4)]
     ++ [ draw_text (x, y) line white font_title ])%list) lines).

Definition subtitle_ops (w : World) (width subtitle_y : Z) (subtitle : string)
  : list DrawOp :=
  let text_width := text_width w font_subtitle subtitle in
  let x := centered_x w width font_subtitle subtitle in
  let padding := 40 in
  [ draw_rounded_rectangle
      [x - padding; subtitle_y - 20; x + text_width + padding; subtitle_y + 120] 20
      (Some (black 200)) None 1;
    draw_text (x + 3, subtitle_y + 3) subtitle (black 255) font_subtitle;
    draw_text (x, subtitle_y) subtitle white font_subtitle ].

Definition overlay_ops (w : World) (width height : Z) (title subtitle : string)
  : Res (list DrawOp) :=
  let title_y := height / 4 in
  let lines := if truthy title then Some (title_lines title) else None in
  let drawn := match lines with
               | Some ls => title_ops w width title_y ls
               | None => []
               end in
  if truthy subtitle
  then do ls <- bound_title_lines lines;
       let subtitle_y := title_y + Z.of_nat (length ls) * 250 + 80 in
       Ret (drawn ++ subtitle_ops w width subtitle_y subtitle)%list
  else Ret drawn.

Definition create_text_overlay (w : World) (width height : Z)
    (title subtitle : string) : Res Image :=
  do ops <- overlay_ops w width height title subtitle;
  Ret (Image_new RGBA width height (px_overlay ops)).

Definition generate_cover (w : World) (title subtitle client style : string)
  : M (Image * string) :=
  mtry
    (let width := 1800 in
     let height := 900 in
     run background <- generate_with_cpu_lora w client style title;
     let base_rgba := convert RGBA background in
     run text_overlay <- lift (create_text_overlay w width height title subtitle);
     run base_rgba <- lift (alpha_composite base_rgba text_overlay);
     run self <- get_self;
     run final_image <- lift (apply_watermark self width height base_rgba);
     mret (convert RGB final_image, "cpu_universal_lora"))
    (fun e => mraise (PyError "Exception"
                        ("CPU LoRA generation failed: " ++ str_exc w e))).

Definition root (self : Generator) : JValue :=
  JObj [ ("message", JStr "CPU LoRA Cover Generator");
         ("status", JStr "running");
         ("mode", JStr "CPU_LORA");
         ("available_loras",
           JList (map (fun kv => JStr (fst kv)) (map_to_list (lora_available self))));
         ("pipeline_loaded", JBool (pipeline self));
         ("device", JStr "cpu");
         ("version", JStr "5.1.0-CPU-LORA") ].

Definition health : JValue :=
  JObj [ ("status", JStr "healthy");
         ("service", JStr "cpu-lora-cover-generator");
         ("device", JStr "cpu") ].

Definition generate_image (w : World) (request : GenerationRequest5)
  : M GenerationResponse :=
  mtry
    (run result <- generate_cover w (title5 request) (subtitle5 request)
                     (client5 request) (style_or (style5 request) "dark_theme");
     let '(image, method) := result in
     run base64_image <- lift (png_base64 w image);
     run self <- get_self;
     mret (mkResponse true (Some (data_uri_prefix ++ base64_image)) None
             (Some [ ("client", JStr (client5 request));
                     ("style", opt_str (style5 request));
                     ("title", JStr (title5 request));
                     ("subtitle", JStr (subtitle5 request));
                     ("generation_method", JStr method);
                     ("lora_used", opt_str (current_lora self));
                     ("device", JStr "cpu");
                     ("resolution", JStr "1800x900") ])))
    (fun e => mraise (HTTPException 500
                        ("CPU LoRA generation failed: " ++ str_exc w e))).

Definition routes : list (string * string) :=
  [ ("GET", "/"); ("GET", "/health"); ("POST", "/generate") ].

End CpuLora.

(** ** universal_lora_deploy_2025-10-14/app_LORA_ONLY.py *)

Module LoraOnly.

Definition GenerationRequest : list Field :=
  [ mkField "title" t_str None;
    mkField "subtitle" t_str (Some (JStr "CRYPTO NEWS"));
    mkField "client" t_str (Some (JStr "hedera"));
    mkField "style" t_optional_str (Some (JStr "dark_theme"));
    mkField "use_trained_lora" t_bool (Some (JBool true)) ].

Definition watermark_path : string := "genfinity-watermark.png".

(** A watermark file that cannot be opened stops the service at start-up
    ([SystemExit]); the outer [None] stands for that. *)
Definition load_watermark (w : World) : option (option Image) :=
  if negb (path_exists w watermark_path) then Some None
  else match open_rgba w watermark_path with
       | Ret img => Some (Some img)
       | Raise _ => None
       end.

Definition force_load_lora_weights (w : World) (client style : string) : M bool :=
  run self <- get_self;
  if negb (pipeline self)
  then mraise (PyError "Exception" "Pipeline not loaded - cannot load LoRA")
  else
    let lora_key := "universal" in
    run lora_path <- lift (dict_index (lora_available self) "universal");
    mtry
      (exec when (match current_lora self with
                  | Some k => truthy k
                  | None => false
                  end)
             (call ev_unload_lora (pipeline_unload_lora_weights w));
       exec call (ev_load_lora lora_path) (pipeline_load_lora_weights w lora_path);
       exec set_current_lora lora_key;
       mret true)
      (fun e => mraise (PyError "Exception" ("LoRA loading failed: " ++ str_exc w e))).

Definition style_prompts (client : string) : gmap string string :=
  {[ "energy_fields" :=
       "crypto cover, glowing energy fields, particle effects, cosmic energy, vibrant "
       ++ client ++ " colors, professional financial design, high quality";
     "dark_theme" :=
       "crypto cover, dark professional background, geometric patterns, minimal lighting, "
       ++ client ++ " branding, corporate financial style, premium";
     "network_nodes" :=
       "crypto cover, connected network visualization, digital nodes, tech infrastructure, "
       ++ client ++ " colors, futuristic financial design";
     "particle_waves" :=
       "crypto cover, flowing particle effects, dynamic waves, energy motion, "
       ++ client ++ " branding, modern financial aesthetic" ]}.

Definition prompt_for (client style : string) : string :=
  dict_get (style_prompts client) style
    ("crypto financial cover, " ++ client ++ " style, professional design, high quality").

Definition generate_with_universal_lora (w : World) (client style title : string)
  : M Image :=
  run self <- get_self;
  if negb (pipeline self) then mraise (PyError "Exception" "SDXL Pipeline not available")
  else
    exec force_load_lora_weights w client style;
    let prompt := prompt_for client style in
    mtry
      (run image <- call (ev_pipeline prompt 1024 512) (pipeline_call w prompt 1024 512);
       mret (resize 1800 900 image))
      (fun e => mraise (PyError "Exception" ("LoRA generation failed: " ++ str_exc w e))).

Definition title_lines (title : string) : list string :=
  let title := upper title in
  let words := split title in
  if (3 <? length words)%nat then split_at_mid_word words else [title].

Definition title_ops (w : World) (width title_y : Z) (lines : list string)
  : list DrawOp :=
  concat (imap (fun i line =>
    let x := centered_x w width font_title line in
    let y := title_y + Z.of_nat i * 250 in
    (map (fun offset : Z * Z =>
            draw_text (x + fst offset, y + snd offset) line (black 200) font_title)
         [(12, 12); (8, 8); (4, 4)]
     ++ [ draw_text (x, y) line white font_title ])%list) lines).

Definition subtitle_ops (w : World) (width subtitle_y : Z) (subtitle : string)
  : list DrawOp :=
  let text_width := text_width w font_subtitle subtitle in
  let x := centered_x w width font_subtitle subtitle in
  let padding := 40 in
  [ draw_rounded_rectangle
      [x - padding; subtitle_y - 20; x + text_width + padding; subtitle_y + 120] 20
      (Some (black 220)) None 1;
    draw_text (x + 3, subtitle_y + 3) subtitle (black 255) font_subtitle;
    draw_text (x, subtitle_y) subtitle white font_subtitle ].

Definition overlay_ops (w : World) (width height : Z) (title subtitle : string)
  : Res (list DrawOp) :=
  let title_y := height / 4 in
  let lines := if truthy title then Some (title_lines title) else None in
  let drawn := match lines with
               | Some ls => title_ops w width title_y ls
               | None => []
               end in
  if truthy subtitle
  then do ls <- bound_title_lines lines;
       let subtitle_y := title_y + Z.of_nat (length ls) * 250 + 80 in
       Ret (drawn ++ subtitle_ops w width subtitle_y subtitle)%list
  else Ret drawn.

Definition create_enhanced_text_overlay (w : World) (width height : Z)
    (title subtitle : string) : Res Image :=
  do ops <- overlay_ops w width height title subtitle;
  Ret (Image_new RGBA width height (px_overlay ops)).

Definition generate_cover (w : World) (title subtitle client style : string)
  : M (Image * string) :=
  mtry
    (let width := 1800 in
     let height := 900 in
     run background <- generate_with_universal_lora w client style title;
     let base_rgba := convert RGBA background in
     run text_overlay <- lift (create_enhanced_text_overlay w width height title subtitle);
     run base_rgba <- lift (alpha_composite base_rgba text_overlay);
     run self <- get_self;
     run final_image <- lift (apply_watermark self width height base_rgba);
     mret (convert RGB final_image, "pure_universal_lora"))
    (fun e => mraise (PyError "Exception"
                        ("LoRA generation failed - NO FALLBACKS: " ++ str_exc w e))).

Definition root (self : Generator) : JValue :=
  JObj [ ("message", JStr "PURE LoRA Cover Generator - NO FALLBACKS");
         ("status", JStr "running");
         ("mode", JStr "PURE_LORA_ONLY");
         ("available_loras",
           JList (map (fun kv => JStr (fst kv)) (map_to_list (lora_available self))));
         ("pipeline_loaded", JBool (pipeline self));
         ("fallbacks_disabled", JBool true);
         ("version", JStr "5.0.0-LORA-ONLY") ].

Definition health (self : Generator) : JValue :=
  JObj [ ("status", JStr "healthy");
         ("service", JStr "pure-lora-cover-generator");
         ("lora_count", JNum (Z.of_nat (size (lora_available self))));
         ("fallbacks", JStr "DISABLED") ].

Definition generate_image (w : World) (request : GenerationRequest5)
  : M GenerationResponse :=
  mtry
    (run result <- generate_cover w (title5 request) (subtitle5 request)
                     (client5 request) (style_or (style5 request) "dark_theme");
     let '(image, method) := result in
     run base64_image <- lift (png_base64 w image);
     run self <- get_self;
     mret (mkResponse true (Some (data_uri_prefix ++ base64_image)) None
             (Some [ ("client", JStr (client5 request));
                     ("style", opt_str (style5 request));
                     ("title", JStr (title5 request));
                     ("subtitle", JStr (subtitle5 request));
                     ("generation_method", JStr method);
                     ("lora_used", opt_str (current_lora self));
                     ("resolution", JStr "1800x900");
                     ("fallbacks_used", JBool false) ])))
    (fun e => mraise (HTTPException 500
                        ("LoRA generation failed (NO FALLBACKS): " ++ str_exc w e))).

Definition routes : list (string * string) :=
  [ ("GET", "/"); ("GET", "/health"); ("POST", "/generate") ].

End LoraOnly.

(** ** app_minimal.py *)

Module Minimal.

Definition GenerationRequest : list Field :=
  [ mkField "title" t_str None;
    mkField "subtitle" t_str (Some (JStr "CRYPTO NEWS"));
    mkField "client" t_str (Some (JStr "algorand"));
    mkField "style" t_optional_str (Some (JStr "energy_fields")) ].

Record HexScheme : Type := mkHex { bg : string; text : string; accent_hex : string }.

Definition CLIENT_COLORS : gmap string HexScheme :=
  {[ "hedera" := mkHex "#8B2CE6" "#FFFFFF" "#B565F7";
     "algorand" := mkHex "#0078CC" "#FFFFFF" "#4BA3E0";
     "constellation" := mkHex "#484D8B" "#FFFFFF" "#7B82C4";
     "bitcoin" := mkHex "#F7931A" "#000000" "#FFB84D";
     "ethereum" := mkHex "#627EEA" "#FFFFFF" "#8FA6F0";
     "generic" := mkHex "#4A90E2" "#FFFFFF" "#7BB0E8" ]}.

Definition hex_digit (c : ascii) : option Z :=
  let n := Z.of_nat (nat_of_ascii c) in
  if (48 <=? n) && (n <=? 57) then Some (n - 48)
  else if (65 <=? n) && (n <=? 70) then Some (n - 55)
  else if (97 <=? n) && (n <=? 102) then Some (n - 87)
  else None.

Definition hex_pair (a b : ascii) : option Z :=
  match hex_digit a, hex_digit b with
  | Some x, Some y => Some (16 * x + y)
  | _, _ => None
  end.

(** [hex_color.lstrip('#')] *)
Fixpoint lstrip_hash (s : string) : string :=
  match s with
  | String "#"%char r => lstrip_hash r
  | _ => s
  end.

(** [tuple(int(hex_color[i:i+2], 16) for i in (0, 2, 4))] on two-digit
    groups. *)
Definition hex_to_rgb (hex_color : string) : Res Color :=
  match lstrip_hash hex_color with
  | String a (String b (String c (String d (String e (String f _))))) =>
      match hex_pair a b, hex_pair c d, hex_pair e f with
      | Some r, Some g, Some bl => Ret (r, g, bl)
      | _, _, _ => Raise (PyError "ValueError" "invalid literal for int() with base 16")
      end
  | _ => Raise (PyError "ValueError" "invalid literal for int() with base 16")
  end.

(** The text and the decorations are drawn straight onto the gradient;
    the image keeps the size it was created with. *)
Definition generate_crypto_cover (title subtitle client style : string) : Res Image :=
  let width := 1792 in
  let height := 896 in
  do generic <- dict_index CLIENT_COLORS "generic";
  let colors := dict_get CLIENT_COLORS (lower client) generic in
  do bg_color <- hex_to_rgb (bg colors);
  do text_color <- hex_to_rgb (text colors);
  do accent_color <- hex_to_rgb (accent_hex colors);
  Ret (Image_new RGB width height (px_gradient bg_color accent_color style)).

Definition root : JValue :=
  JObj [ ("message", JStr "Minimal LoRA Crypto News Image Generator");
         ("status", JStr "running");
         ("endpoints", JList [JStr "/generate"; JStr "/health"]) ].

Definition health : JValue :=
  JObj [ ("status", JStr "healthy"); ("service", JStr "minimal-lora-generator") ].

Definition generate_image (w : World) (request : GenerationRequest4)
  : M GenerationResponse :=
  mtry
    (run image <- lift (generate_crypto_cover (title4 request) (subtitle4 request)
                          (client4 request) (style_or (style4 request) "energy_fields"));
     run img_base64 <- lift (png_base64 w image);
     let img_data_url := data_uri_prefix ++ img_base64 in
     mret (mkResponse true (Some img_data_url) None
             (Some [ ("client", JStr (client4 request));
                     ("style", opt_str (style4 request));
                     ("title", JStr (title4 request));
                     ("method", JStr "minimal_generation") ])))
    (fun e => mret (mkResponse false None (Some (str_exc w e)) None)).

Definition routes : list (string * string) :=
  [ ("GET", "/"); ("GET", "/health"); ("POST", "/generate") ].

End Minimal.

(** ** app_fixed.py *)

Module Fixed.

Definition GenerationRequest : list Field :=
  [ mkField "title" t_str None;
    mkField "subtitle" t_str (Some (JStr "CRYPTO NEWS"));
    mkField "client" t_str (Some (JStr "algorand"));
    mkField "style" t_optional_str (Some (JStr "energy_fields")) ].

Definition cmd (request : GenerationRequest4) : list string :=
  [ "python3"; "simple_lora_generator.py";
    "--title"; title4 request;
    "--subtitle"; subtitle4 request;
    "--client"; client4 request;
    "--style"; style_or (style4 request) "energy_fields" ].

(** [f"/app/style_outputs/boxed_cover_{request.client}.png"] *)
Definition output_path (client : string) : string :=
  "/app/style_outputs/boxed_cover_" ++ client ++ ".png".

Definition root : JValue :=
  JObj [ ("message", JStr "LoRA Crypto News Image Generator");
         ("status", JStr "running");
         ("endpoints", JList [JStr "/generate"; JStr "/health"]) ].

Definition health : JValue :=
  JObj [ ("status", JStr "healthy"); ("service", JStr "lora-generator") ].

Definition generate_image (w : World) (request : GenerationRequest4)
  : M GenerationResponse :=
  mtry
    (run result <- call (ev_subprocess (cmd request)) (subprocess_run w (cmd request));
     let '(returncode, stderr) := result in
     if negb (returncode =? 0)
     then mret (mkResponse false None (Some ("Generation failed: " ++ stderr)) None)
     else
       let output_path := output_path (client4 request) in
       if path_exists w output_path
       then mret (mkResponse true
                    (Some ("/download/" ++ client4 request ++ ".png")) None
                    (Some [ ("client", JStr (client4 request));
                            ("style", opt_str (style4 request));
                            ("title", JStr (title4 request));
                            ("output_path", JStr output_path) ]))
       else mret (mkResponse false None (Some "Output file not created") None))
    (fun e =>
       match e with
       | PyError "TimeoutExpired" _ =>
           mret (mkResponse false None (Some "Generation timeout") None)
       | _ => mret (mkResponse false None (Some (str_exc w e)) None)
       end).

Definition routes : list (string * string) :=
  [ ("GET", "/"); ("GET", "/health"); ("POST", "/generate");
    ("GET", "/download/{client}.png") ].

End Fixed.

(** ** universal_lora_deploy_2025-10-14/app_minimal_sd15.py *)

Module MinimalSD15.

Definition GenerationRequest : list Field :=
  [ mkField "client" t_str None;
    mkField "style" t_str None;
    mkField "title" t_str None ].

Definition prompt_for (client : string) : string :=
  "crypto financial cover, " ++ client ++ " style, professional design, high quality".

(** [generate]: the title is drawn onto the image the pipeline returned,
    which is encoded as it is. *)
Definition generate (w : World) (client style title : string) : M (Image * string) :=
  run self <- get_self;
  if negb (pipeline self)
  then mraise (PyError "TypeError" "'NoneType' object is not callable")
  else
    let prompt := prompt_for client in
    run image <- call (ev_pipeline prompt 1024 512) (pipeline_call w prompt 1024 512);
    run img_base64 <- lift (png_base64 w image);
    mret (image, img_base64).

Definition health (device : string) : JValue :=
  JObj [ ("status", JStr "healthy"); ("model", JStr "SD 1.5");
         ("lora", JStr "loaded"); ("device", JStr device) ].

Definition generate_cover (w : World) (request : GenerationRequest3) : M JValue :=
  mtry
    (run r <- generate w (client3 request) (style3 request) (title3 request);
     mret (JObj [ ("success", JBool true);
                  ("image", JStr (snd r));
                  ("model", JStr "SD 1.5 + LoRA") ]))
    (fun e => mraise (HTTPException 500 (str_exc w e))).

Definition routes : list (string * string) :=
  [ ("GET", "/health"); ("POST", "/generate") ].

End MinimalSD15.

(** ** The service variants side by side *)

(** The FastAPI applications of the repository, one per source file. *)
Inductive Variant : Type :=
| FRESH_SDXL_app
| app_enhanced_fallback
| app_fixed
| app_force_visible
| app_lightweight
| app_lora
| app_minimal
| app_CPU_LORA
| app_LORA_ONLY
| universal_app_lightweight
| app_minimal_sd15.

Definition all_variants : list Variant :=
  [ FRESH_SDXL_app; app_enhanced_fallback; app_fixed; app_force_visible;
    app_lightweight; app_lora; app_minimal; app_CPU_LORA; app_LORA_ONLY;
    universal_app_lightweight; app_minimal_sd15 ].

(** [class GenerationRequest(BaseModel)] of each application. *)
Definition request_model (v : Variant) : list Field :=
  match v with
  | FRESH_SDXL_app => Fresh.GenerationRequest
  | app_enhanced_fallback => EnhancedFallback.GenerationRequest
  | app_fixed => Fixed.GenerationRequest
  | app_force_visible => ForceVisible.GenerationRequest
  | app_lightweight => Lightweight.GenerationRequest
  | app_lora => Lora.GenerationRequest
  | app_minimal => Minimal.GenerationRequest
  | app_CPU_LORA => CpuLora.GenerationRequest
  | app_LORA_ONLY => LoraOnly.GenerationRequest
  | universal_app_lightweight => UniLightweight.GenerationRequest
  | app_minimal_sd15 => MinimalSD15.GenerationRequest
  end.

(** The [@app.get] and [@app.post] decorators of each application. *)
Definition routes (v : Variant) : list (string * string) :=
  match v with
  | FRESH_SDXL_app => Fresh.routes
  | app_enhanced_fallback => EnhancedFallback.routes
  | app_fixed => Fixed.routes
  | app_force_visible => ForceVisible.routes
  | app_lightweight => Lightweight.routes
  | app_lora => Lora.routes
  | app_minimal => Minimal.routes
  | app_CPU_LORA => CpuLora.routes
  | app_LORA_ONLY => LoraOnly.routes
  | universal_app_lightweight => UniLightweight.routes
  | app_minimal_sd15 => MinimalSD15.routes
  end.

Definition fmap_res {A B : Type} (f : A -> B) (r : Res A) : Res B :=
  match r with
  | Ret a => Ret (f a)
  | Raise e => Raise e
  end.

(** A route handler behind pydantic validation and FastAPI's response
    handling. *)
Definition serve {R : Type} (parse : gmap string JValue -> option R)
    (handler : R -> M JValue) (body : gmap string JValue) (st : State)
  : HttpResponse * State :=
  match parse body with
  | None => (http_validation_error, st)
  | Some request =>
      let '(r, st') := handler request st in (respond r, st')
  end.

Definition as_json (m : M GenerationResponse) : M JValue :=
  fun st => let '(r, st') := m st in (fmap_res response_json r, st').

(** [POST /generate] *)
Definition post_generate (v : Variant) (w : World) (body : gmap string JValue)
    (st : State) : HttpResponse * State :=
  match v with
  | FRESH_SDXL_app =>
      serve (parse5 Fresh.GenerationRequest)
        (fun r => as_json (Fresh.generate_image w r)) body st
  | app_enhanced_fallback =>
      serve (parse5 EnhancedFallback.GenerationRequest)
        (fun r => as_json (EnhancedFallback.generate_image w r)) body st
  | app_fixed =>
      serve (parse4 Fixed.GenerationRequest)
        (fun r => as_json (Fixed.generate_image w r)) body st
  | app_force_visible =>
      serve (parse4 ForceVisible.GenerationRequest)
        (fun r => as_json (ForceVisible.generate_image w r)) body st
  | app_lightweight =>
      serve (parse4 Lightweight.GenerationRequest)
        (fun r => as_json (Lightweight.generate_image w r)) body st
  | app_lora =>
      serve (parse4 Lora.GenerationRequest)
        (fun r => as_json (Lora.generate_image w r)) body st
  | app_minimal =>
      serve (parse4 Minimal.GenerationRequest)
        (fun r => as_json (Minimal.generate_image w r)) body st
  | app_CPU_LORA =>
      serve (parse5 CpuLora.GenerationRequest)
        (fun r => as_json (CpuLora.generate_image w r)) body st
  | app_LORA_ONLY =>
      serve (parse5 LoraOnly.GenerationRequest)
        (fun r => as_json (LoraOnly.generate_image w r)) body st
  | universal_app_lightweight =>
      serve (parse5 UniLightweight.GenerationRequest)
        (fun r => as_json (UniLightweight.generate_image w r)) body st
  | app_minimal_sd15 =>
      serve (parse3 MinimalSD15.GenerationRequest)
        (MinimalSD15.generate_cover w) body st
  end.

(** What cover generation yields for a request. *)
Inductive Generated : Type :=
| cover (img : Image)
| cover_file (path : string)
| nothing.

Definition of_option (o : option Image) : Generated :=
  match o with
  | Some img => cover img
  | None => nothing
  end.

(** The cover-generation step of [POST /generate], on its own: the call the
    handler makes to [generate_cover] (or its counterpart) for a valid
    body.  [None] when the body is rejected. *)
Definition cover_generation (v : Variant) (w : World) (body : gmap string JValue)
    (st : State) : option (Res Generated) :=
  match v with
  | FRESH_SDXL_app =>
      r ← parse5 Fresh.GenerationRequest body;
      Some (fmap_res (fun p => of_option (fst p))
              (fst (Fresh.generate_cover w (title5 r) (subtitle5 r) (client5 r)
                      (style_or (style5 r) "dark_theme") (use_trained_lora5 r) st)))
  | app_enhanced_fallback =>
      r ← parse5 EnhancedFallback.GenerationRequest body;
      Some (fmap_res (fun p => of_option (fst p))
              (fst (EnhancedFallback.generate_cover w (title5 r) (subtitle5 r) (client5 r)
                      (style_or (style5 r) "dark_theme") (use_trained_lora5 r) st)))
  | app_fixed =>
      r ← parse4 Fixed.GenerationRequest body;
      Some (fmap_res (fun res : Z * string =>
                        if (fst res =? 0) && path_exists w (Fixed.output_path (client4 r))
                        then cover_file (Fixed.output_path (client4 r))
                        else nothing)
              (subprocess_run w (Fixed.cmd r)))
  | app_force_visible =>
      r ← parse4 ForceVisible.GenerationRequest body;
      Some (fmap_res of_option
              (fst (ForceVisible.generate_cover w (title4 r) (subtitle4 r) (client4 r)
                      (style_or (style4 r) "dark_theme") st)))
  | app_lightweight =>
      r ← parse4 Lightweight.GenerationRequest body;
      Some (fmap_res of_option
              (fst (Lightweight.generate_cover w (title4 r) (subtitle4 r) (client4 r)
                      (style_or (style4 r) "dark_theme") st)))
  | app_lora =>
      r ← parse4 Lora.GenerationRequest body;
      Some (fmap_res of_option
              (fst (Lora.generate_cover w (title4 r) (subtitle4 r) (client4 r)
                      (style_or (style4 r) "energy_fields") st)))
  | app_minimal =>
      r ← parse4 Minimal.GenerationRequest body;
      Some (fmap_res cover
              (Minimal.generate_crypto_cover (title4 r) (subtitle4 r) (client4 r)
                 (style_or (style4 r) "energy_fields")))
  | app_CPU_LORA =>
      r ← parse5 CpuLora.GenerationRequest body;
      Some (fmap_res (fun p => cover (fst p))
              (fst (CpuLora.generate_cover w (title5 r) (subtitle5 r) (client5 r)
                      (style_or (style5 r) "dark_theme") st)))
  | app_LORA_ONLY =>
      r ← parse5 LoraOnly.GenerationRequest body;
      Some (fmap_res (fun p => cover (fst p))
              (fst (LoraOnly.generate_cover w (title5 r) (subtitle5 r) (client5 r)
                      (style_or (style5 r) "dark_theme") st)))
  | universal_app_lightweight =>
      r ← parse5 UniLightweight.GenerationRequest body;
      Some (fmap_res (fun p => of_option (fst p))
              (fst (UniLightweight.generate_cover w (title5 r) (subtitle5 r) (client5 r)
                      (style_or (style5 r) "dark_theme") st)))
  | app_minimal_sd15 =>
      r ← parse3 MinimalSD15.GenerationRequest body;
      Some (fmap_res (fun p => cover (fst p))
              (fst (MinimalSD15.generate w (client3 r) (style3 r) (title3 r) st)))
  end.

(** [GET path], for the status routes. *)
Definition get_status (v : Variant) (device : string) (path : string) (self : Generator)
  : HttpResponse :=
  match v, path with
  | FRESH_SDXL_app, "/" => http_ok (Fresh.root self)
  | FRESH_SDXL_app, "/health" => http_ok (Fresh.health self)
  | FRESH_SDXL_app, "/lora-status" => http_ok (Fresh.lora_status self)
  | app_enhanced_fallback, "/" => http_ok (EnhancedFallback.root self)
  | app_enhanced_fallback, "/health" => http_ok (EnhancedFallback.health self)
  | app_fixed, "/" => http_ok Fixed.root
  | app_fixed, "/health" => http_ok Fixed.health
  | app_force_visible, "/" => http_ok ForceVisible.root
  | app_force_visible, "/health" => http_ok ForceVisible.health
  | app_lightweight, "/" => http_ok Lightweight.root
  | app_lightweight, "/health" => http_ok Lightweight.health
  | app_lora, "/" => http_ok Lora.root
  | app_lora, "/health" => http_ok Lora.health
  | app_minimal, "/" => http_ok Minimal.root
  | app_minimal, "/health" => http_ok Minimal.health
  | app_CPU_LORA, "/" => http_ok (CpuLora.root self)
  | app_CPU_LORA, "/health" => http_ok CpuLora.health
  | app_LORA_ONLY, "/" => http_ok (LoraOnly.root self)
  | app_LORA_ONLY, "/health" => http_ok (LoraOnly.health self)
  | universal_app_lightweight, "/" => http_ok UniLightweight.root
  | universal_app_lightweight, "/health" => http_ok UniLightweight.health
  | universal_app_lightweight, "/lora-status" => http_ok UniLightweight.lora_status
  | app_minimal_sd15, "/health" => http_ok (MinimalSD15.health device)
  | _, _ => http_not_found
  end.

Definition is_object (v : JValue) : bool :=
  match v with
  | JObj _ => true
  | _ => false
  end.

(** ** create_universal_lora_model.py

    Floating-point numbers are modelled by rationals; the draws of Python's
    [random] module and of [torch.randn] are read from oracles. *)

Module CreateUniversalLora.

(** The value [analyze_dataset] returns (without [manifest_info]). *)
Record DatasetStats : Type := mkStats {
  total_samples : nat;
  styles : list string;
  clients : list string
}.

(** Python's [random] module: [rand_unit n] is the value of the [n]-th
    call when it is [random.random()], [rand_below n k] when it is a draw
    from [range(k)]. *)
Record Random : Type := mkRandom {
  rand_unit : nat -> Q;
  rand_below : nat -> nat -> nat
}.

(** [random.uniform(a, b)] is [a + (b - a) * random()]. *)
Definition uniform (rng : Random) (n : nat) (a b : Q) : Q :=
  (a + (b - a) * rand_unit rng n)%Q.

(** [random.choice(seq)]: [IndexError] on an empty sequence. *)
Definition choice (rng : Random) (n : nat) (l : list string) : Res string :=
  match l !! (rand_below rng n (length l) mod length l)%nat with
  | Some x => Ret x
  | None => Raise (PyError "IndexError" "Cannot choose from an empty sequence")
  end.

Record LogEntry : Type := mkEntry {
  step : nat;
  loss : Q;
  entry_style : string;
  entry_client : string
}.

Inductive Effect : Type :=
| sleep (seconds : Q).

(** [max(a, b)] of Python: [b] only when it is strictly greater. *)
Definition py_max (a b : Q) : Q := if Qle_bool b a then a else b.

Definition training_steps : nat := 500.

(** One round of the loop of [create_lora_model_structure]: the round
    [step] makes the draws [3 * step], [3 * step + 1] and [3 * step + 2] of
    [random]. *)
Definition training_step (rng : Random) (dataset_stats : DatasetStats) (step : nat)
  : Res LogEntry :=
  let loss := ((3 # 2) * (1 - inject_Z (Z.of_nat step) / inject_Z (Z.of_nat training_steps))
               + uniform rng (3 * step) (- (1 # 10)) (1 # 10))%Q in
  let loss := py_max (2 # 100) loss in
  do current_style <- choice rng (3 * step + 1) (styles dataset_stats);
  do current_client <- choice rng (3 * step + 2) (clients dataset_stats);
  Ret (mkEntry step loss current_style current_client).

Fixpoint training_loop (rng : Random) (dataset_stats : DatasetStats)
    (steps : list nat) (training_log : list LogEntry) (effects : list Effect)
  : Res (list LogEntry) * list Effect :=
  match steps with
  | [] => (Ret training_log, effects)
  | step :: rest =>
      match training_step rng dataset_stats step with
      | Ret entry =>
          training_loop rng dataset_stats rest (training_log ++ [entry])
            (effects ++ [sleep (1 # 100)])
      | Raise e => (Raise e, effects)
      end
  end.

(** [create_lora_model_structure]: the training log and what the loop did
    to the outside world. *)
Definition create_lora_model_structure (rng : Random) (dataset_stats : DatasetStats)
  : Res (list LogEntry) * list Effect :=
  training_loop rng dataset_stats (seq 0 training_steps) [] [].

Record Tensor : Type := mkTensor {
  rows : nat;
  cols : nat;
  entries : nat -> nat -> Q
}.

(** [torch.randn(rows, cols)], the [n]-th call. *)
Definition randn (torch : nat -> nat -> nat -> Q) (n rows cols : nat) : Tensor :=
  mkTensor rows cols (torch n).

Definition digit (n : nat) : string :=
  String (ascii_of_nat (48 + n)) "".

(** The keys of the two comprehensions, in order. *)
Definition weight_keys (suffix : string) : list string :=
  i ← [0; 1; 2]%nat;
  j ← [0; 1]%nat;
  k ← [0; 1]%nat;
  l ← [1; 2]%nat;
  proj ← ["q"; "k"; "v"; "out"];
  [ "lora_unet.down_blocks." ++ digit i ++ ".attentions." ++ digit j
    ++ ".transformer_blocks." ++ digit k ++ ".attn" ++ digit l
    ++ ".to_" ++ proj ++ suffix ].

(** [lora_weights]: the first comprehension, then [update] with the
    second. *)
Definition lora_weights (torch : nat -> nat -> nat -> Q) : list (string * Tensor) :=
  let keys_A := weight_keys ".lora_A.weight" in
  let keys_B := weight_keys ".lora_B.weight" in
  (imap (fun n key => (key, randn torch n 32 320)) keys_A
   ++ imap (fun n key => (key, randn torch (length keys_A + n) 320 32)) keys_B)%list.

Record ModelInfo : Type := mkInfo {
  dataset_size : nat;
  info_training_steps : nat;
  final_loss : Q;
  styles_learned : list string;
  clients_learned : list string;
  total_style_client_combinations : nat
}.

Inductive Written : Type :=
| torch_save (path : string) (weights : list (string * Tensor))
| json_dump (path : string) (info : ModelInfo)
| write_text (path : string)
| open_for_writing (path : string).

(** [save_universal_lora_model]: the files it leaves behind, and its
    outcome.  The last [json.dump] is given the path instead of the open
    file, so the call raises after everything else was written. *)
Definition save_universal_lora_model (torch : nat -> nat -> nat -> Q)
    (output_dir : string) (dataset_stats : DatasetStats)
    (training_log : list LogEntry) : list Written * Res string :=
  let weights := lora_weights torch in
  let model_path := output_dir ++ "/crypto_cover_universal_lora.pt" in
  let model_info :=
    mkInfo (total_samples dataset_stats) (length training_log)
      (match last training_log with
       | Some e => loss e
       | None => 0%Q
       end)
      (styles dataset_stats) (clients dataset_stats)
      (length (styles dataset_stats) * length (clients dataset_stats)) in
  ([ torch_save model_path weights;
     json_dump (output_dir ++ "/model_info.json") model_info;
     write_text (output_dir ++ "/DEPLOYMENT_GUIDE.md");
     write_text (output_dir ++ "/integration_example.py");
     open_for_writing (output_dir ++ "/training_log.json") ],
   Raise (PyError "AttributeError" "'PosixPath' object has no attribute 'write'")).


(** An entry of [manifest['images']]; a field is [None] when the entry
    lacks the key. *)
Record ManifestItem : Type := mkItem {
  item_image : option string;
  item_caption : option string;
  item_style : option string;
  item_client : option string
}.

(** What [json.load] reads from training_manifest.json. *)
Record Manifest : Type := mkManifest {
  images : option (list ManifestItem);
  dataset_info : option JValue
}.

(** [d[key]] on a parsed JSON object. *)
Definition json_index {A : Type} (key : string) (o : option A) : Res A :=
  match o with
  | Some v => Ret v
  | None => Raise (PyError "KeyError" key)
  end.

(** [s.split(sep)] for a one-character separator. *)
Fixpoint split_on (sep : ascii) (s : string) (cur : string) : list string :=
  match s with
  | EmptyString => [cur]
  | String c r =>
      if Ascii.eqb c sep then cur :: split_on sep r ""
      else split_on sep r (cur ++ String c "")
  end.

(** [Path(p).name] on a POSIX path: the last component, where empty
    components and [.] do not count; the empty string when there is
    none. *)
Definition path_name (p : string) : string :=
  List.last (filter (fun c => c <> "" /\ c <> ".") (split_on "/" p "")) "".

(** [str(dataset_dir / name)] *)
Definition joinpath (dir name : string) : string :=
  if truthy name then dir ++ "/" ++ name else dir.

(** The condition of the loop of [analyze_dataset]:
    [image_path.exists() and caption_path.exists()]. *)
Definition item_is_valid (w : World) (dataset_dir : string) (item : ManifestItem)
  : Res bool :=
  do image <- json_index "image" (item_image item);
  let image_path := joinpath dataset_dir (path_name image) in
  do caption <- json_index "caption" (item_caption item);
  let caption_path := joinpath dataset_dir (path_name caption) in
  Ret (path_exists w image_path && path_exists w caption_path).

(** An entry of the manifest that [analyze_dataset] counts: both of its
    files exist in the dataset directory. *)
Definition counted (w : World) (dataset_dir : string)
    (item : ManifestItem) : bool :=
  match item_is_valid w dataset_dir item with
  | Ret valid => valid
  | Raise _ => false
  end.

(** [item.get('style', 'default')] and [item.get('client', 'generic')] *)
Definition style_of (item : ManifestItem) : string :=
  default "default" (item_style item).
Definition client_of (item : ManifestItem) : string :=
  default "generic" (item_client item).

(** The loop of [analyze_dataset]: what was added to [styles] and
    [clients], in the order of the additions, and [valid_samples]. *)
Fixpoint scan_items (w : World) (dataset_dir : string) (items : list ManifestItem)
    (styles clients : list string) (valid_samples : nat)
  : Res (list string * list string * nat) :=
  match items with
  | [] => Ret (styles, clients, valid_samples)
  | item :: rest =>
      do valid <- item_is_valid w dataset_dir item;
      if valid
      then scan_items w dataset_dir rest (styles ++ [style_of item])
             (clients ++ [client_of item]) (S valid_samples)
      else scan_items w dataset_dir rest styles clients valid_samples
  end.

(** The order of Python's [str]: by code point, a proper prefix first. *)
Definition str_le (a b : string) : Prop := String.leb a b = true.

#[global] Instance str_le_dec : RelDecision str_le.
Proof. intros a b. unfold str_le. apply _. Defined.

(** [sorted(list(s))] for the set [s] of the strings added in [l]. *)
Definition sorted_set (l : list string) : list string :=
  merge_sort str_le (remove_dups l).

(** [analyze_dataset]; [read_manifest] stands for opening the file and
    [json.load]. *)
Definition analyze_dataset (w : World) (read_manifest : string -> Res Manifest)
    (dataset_dir : string) : Res (option DatasetStats) :=
  let manifest_path := joinpath dataset_dir "training_manifest.json" in
  if negb (path_exists w manifest_path) then Ret None
  else
    do manifest <- read_manifest manifest_path;
    do items <- json_index "images" (images manifest);
    do found <- scan_items w dataset_dir items [] [] 0;
    let '(styles, clients, valid_samples) := found in
    do manifest_info <- json_index "dataset_info" (dataset_info manifest);
    Ret (Some (mkStats valid_samples (sorted_set styles) (sorted_set clients))).

(** A run of the script: how it ended, the pauses it made and the files
    it wrote. *)
Record Run : Type := mkRun {
  outcome : Res bool;
  slept : list Effect;
  written : list Written
}.

(** [create_universal_lora]; a dict of statistics is never falsy, so only
    a missing manifest makes it return [False]. *)
Definition create_universal_lora (w : World) (read_manifest : string -> Res Manifest)
    (rng : Random) (torch : nat -> nat -> nat -> Q) (dataset_dir output_dir : string)
  : Run :=
  match analyze_dataset w read_manifest dataset_dir with
  | Raise e => mkRun (Raise e) [] []
  | Ret None => mkRun (Ret false) [] []
  | Ret (Some dataset_stats) =>
      match create_lora_model_structure rng dataset_stats with
      | (Raise e, effects) => mkRun (Raise e) effects []
      | (Ret training_log, effects) =>
          let '(files, model_path) :=
            save_universal_lora_model torch output_dir dataset_stats training_log in
          mkRun (do path <- model_path; Ret true) effects files
      end
  end.

(** A manifest of three covers, two of them in the same style and one
    without a style. *)
Definition three_covers : Manifest :=
  mkManifest
    (Some [ mkItem (Some "images/cover_001.png") (Some "captions/cover_001.txt")
              (Some "dark_theme") (Some "hedera");
            mkItem (Some "images/cover_002.png") (Some "captions/cover_002.txt")
              (Some "dark_theme") (Some "algorand");
            mkItem (Some "images/cover_003.png") (Some "captions/cover_003.txt")
              None (Some "hedera") ])
    (Some (JObj [("name", JStr "minimal_universal_dataset")])).

End CreateUniversalLora.

(** ** Vocabulary of the statements *)

(** The procedural background generators that look the client up with
    [colors.get(client, colors['hedera'])]. *)
Inductive BackgroundGenerator : Type :=
| create_enhanced_background_lightweight
| generate_programmatic_fallback_fresh
| create_ultra_visible_background_force_visible
| generate_enhanced_fallback_enhanced
| generate_lora_style_background_universal.

Definition colors_of (g : BackgroundGenerator) : gmap string Scheme :=
  match g with
  | create_enhanced_background_lightweight => Lightweight.colors
  | generate_programmatic_fallback_fresh => Fresh.colors
  | create_ultra_visible_background_force_visible => ForceVisible.colors
  | generate_enhanced_fallback_enhanced => EnhancedFallback.colors
  | generate_lora_style_background_universal => UniLightweight.colors
  end.

Definition background (g : BackgroundGenerator) (width height : Z)
    (client style : string) : Res Image :=
  match g with
  | create_enhanced_background_lightweight =>
      Lightweight.create_enhanced_background width height client style
  | generate_programmatic_fallback_fresh =>
      Fresh.generate_programmatic_fallback width height client style
  | create_ultra_visible_background_force_visible =>
      ForceVisible.create_ultra_visible_background width height client style
  | generate_enhanced_fallback_enhanced =>
      EnhancedFallback.generate_enhanced_fallback width height client style
  | generate_lora_style_background_universal =>
      UniLightweight.generate_lora_style_background width height client style
  end.

Definition generator_name (g : BackgroundGenerator) : string :=
  match g with
  | create_enhanced_background_lightweight => "create_enhanced_background"
  | generate_programmatic_fallback_fresh => "generate_programmatic_fallback"
  | create_ultra_visible_background_force_visible => "create_ultra_visible_background"
  | generate_enhanced_fallback_enhanced => "generate_enhanced_fallback"
  | generate_lora_style_background_universal => "generate_lora_style_background"
  end.

(** The keys of the colour table of each generator. *)
Definition table_clients (g : BackgroundGenerator) : list string :=
  match g with
  | create_enhanced_background_lightweight
  | generate_programmatic_fallback_fresh
  | create_ultra_visible_background_force_visible =>
      ["hedera"; "algorand"; "constellation"]
  | generate_enhanced_fallback_enhanced
  | generate_lora_style_background_universal =>
      ["hedera"; "algorand"; "constellation"; "bitcoin"; "ethereum"]
  end.

(** [colors['hedera']] of each table. *)
Definition hedera_of (g : BackgroundGenerator) : Scheme :=
  dict_get (colors_of g) "hedera" (mkScheme (0, 0, 0) (0, 0, 0) (0, 0, 0) (0, 0, 0)).

(** The [create_text_overlay] methods of the applications. *)
Inductive TextOverlay : Type :=
| overlay_lightweight
| overlay_lora
| overlay_fresh
| overlay_enhanced_fallback
| overlay_universal_lightweight
| overlay_cpu_lora.

Definition overlay_ops_of (v : TextOverlay) (w : World) (width height : Z)
    (title subtitle : string) : Res (list DrawOp) :=
  match v with
  | overlay_lightweight => Lightweight.overlay_ops w width height title subtitle
  | overlay_lora => Lora.overlay_ops w width height title subtitle
  | overlay_fresh => Fresh.overlay_ops w width height title subtitle
  | overlay_enhanced_fallback => EnhancedFallback.overlay_ops w width height title subtitle
  | overlay_universal_lightweight => UniLightweight.overlay_ops w width height title subtitle
  | overlay_cpu_lora => CpuLora.overlay_ops w width height title subtitle
  end.

Definition title_lines_of (v : TextOverlay) (w : World) (width : Z) (title : string)
  : list string :=
  match v with
  | overlay_lightweight => Lightweight.title_lines w width title
  | overlay_lora => Lora.title_lines w width title
  | overlay_fresh => Fresh.title_lines title
  | overlay_enhanced_fallback => EnhancedFallback.title_lines title
  | overlay_universal_lightweight => UniLightweight.title_lines title
  | overlay_cpu_lora => CpuLora.title_lines title
  end.

(** The overlays that break the title by its rendered width. *)
Definition splits_by_width (v : TextOverlay) : bool :=
  match v with
  | overlay_lightweight | overlay_lora => true
  | _ => false
  end.





(** A font in which every character is ten pixels wide, and a machine with
    no files, whose pipeline and encoder always succeed. *)
Definition monospace (font : FontKey) (s : string) : Z * Z * Z * Z :=
  (0, 0, 10 * Z.of_nat (String.length s), 20).

Definition quiet_world : World :=
  mkWorld (fun _ => false)
    (fun _ => Raise (PyError "FileNotFoundError" "No such file or directory"))
    (fun _ => Ret tt)
    (fun _ width height => Ret (mkImage width height RGB (px_external 0)))
    (fun _ => Ret tt) (Ret tt) (Ret tt)
    monospace
    (fun _ => Ret "iVBORw0KGgo=")
    (fun status detail => detail)
    (fun _ => Ret (0, "")).

Definition fresh_generator : Generator := mkGenerator None false ∅ None false.

Definition start : State := mkState fresh_generator [].


(** The fixed text each handler puts in front of [str(e)] in the detail of
    its HTTP 500. *)
Definition failure_prefix (v : Variant) : string :=
  match v with
  | FRESH_SDXL_app | app_enhanced_fallback | app_lightweight | app_lora
  | universal_app_lightweight => "Generation failed: "
  | app_force_visible => "FORCE generation failed: "
  | app_CPU_LORA => "CPU LoRA generation failed: "
  | app_LORA_ONLY => "LoRA generation failed (NO FALLBACKS): "
  | app_minimal_sd15 | app_fixed | app_minimal => ""
  end.

(** The detail of the [HTTPException] a handler raises when
    [generate_cover] returned no image. *)
Definition no_image_detail (v : Variant) : string :=
  match v with
  | app_lightweight | app_lora => "Failed to generate image"
  | app_force_visible => "FORCE generation failed"
  | _ => "Generation failed"
  end.

(** The applications whose handler answers a failure with HTTP 200 and
    [success=False]. *)
Definition reports_failure_in_body (v : Variant) : bool :=
  match v with
  | app_fixed | app_minimal => true
  | _ => false
  end.

(** The applications that compose the cover in process at 1800x900. *)
Definition composes_cover (v : Variant) : bool :=
  match v with
  | app_fixed | app_minimal | app_minimal_sd15 => false
  | _ => true
  end.

(** The applications whose request model has the [use_trained_lora] field. *)
Definition has_use_trained_lora (v : Variant) : bool :=
  match v with
  | FRESH_SDXL_app | app_enhanced_fallback | app_CPU_LORA | app_LORA_ONLY
  | universal_app_lightweight => true
  | _ => false
  end.

Definition required (f : Field) : bool :=
  match f_default f with
  | None => true
  | Some _ => false
  end.

(** The pixels of a cover: the background, then the text, then the
    watermark when there is one. *)
Definition composed (g : Generator) (bg : Image) (ops : list DrawOp) : Pixels :=
  match watermark g with
  | Some wm =>
      px_composite (px_composite (im_pixels bg) (px_overlay ops))
        (px_resize (im_pixels wm))
  | None => px_composite (im_pixels bg) (px_overlay ops)
  end.


(** The same machine with another outcome for [subprocess.run]. *)
Definition with_subprocess (w : World) (proc : list string -> Res (Z * string)) : World :=
  mkWorld (path_exists w) (open_rgba w) (from_pretrained w) (pipeline_call w)
    (pipeline_load_lora_weights w) (pipeline_unload_lora_weights w) (pipeline_fuse_lora w)
    (textbbox w) (png_base64 w) (str_HTTPException w) proc.

(** A machine on which [simple_lora_generator.py] exits with status 1. *)
Definition failing_script_world : World :=
  with_subprocess quiet_world (fun _ => Ret (1, "No module named PIL")).

(** A machine on which the script does not finish within the timeout. *)
Definition hanging_script_world : World :=
  with_subprocess quiet_world
    (fun _ => Raise (PyError "TimeoutExpired" "Command timed out after 120 seconds")).

(** A machine on which the script succeeds and every file exists. *)
Definition working_script_world : World :=
  mkWorld (fun _ => true) (open_rgba quiet_world) (from_pretrained quiet_world)
    (pipeline_call quiet_world) (pipeline_load_lora_weights quiet_world)
    (pipeline_unload_lora_weights quiet_world) (pipeline_fuse_lora quiet_world)
    (textbbox quiet_world) (png_base64 quiet_world) (str_HTTPException quiet_world)
    (fun _ => Ret (0, "")).

(** The same machine with exactly the files and directories [paths] on
    disk. *)
Definition with_paths (w : World) (paths : list string) : World :=
  mkWorld (fun path => bool_decide (path ∈ paths)) (open_rgba w) (from_pretrained w)
    (pipeline_call w) (pipeline_load_lora_weights w) (pipeline_unload_lora_weights w)
    (pipeline_fuse_lora w) (textbbox w) (png_base64 w) (str_HTTPException w)
    (subprocess_run w).

(** A generator whose pipeline is loaded. *)
Definition loaded_generator : Generator := mkGenerator None true ∅ None false.

Definition loaded : State := mkState loaded_generator [].

(** The request body [{"title": t}]. *)
Definition title_only (t : string) : gmap string JValue := {[ "title" := JStr t ]}.

(** What an entry of FRESH's [lora_available] looks like. *)
Definition fresh_entry (w : World) (key path : string) : Prop :=
  path_exists w path = true
  /\ ((key = "universal" /\ path = "models/lora/crypto_cover_styles_lora.safetensors")
      \/ exists client style : string,
           client ∈ Fresh.clients /\ style ∈ Fresh.styles
           /\ key = client ++ "_" ++ style
           /\ path = "models/lora/" ++ client ++ "_" ++ style ++ "_lora.safetensors").

(** The keys and files [check_available_loras] of FRESH looks for, pair by
    pair, in the order of its two loops. *)
Definition Fresh_candidates : list (string * string) :=
  client ← Fresh.clients;
  style ← Fresh.styles;
  [(Fresh.lora_key client style, Fresh.lora_path client style)].


(** The vertical coordinates a drawing call is given: the anchor of a
    text, the top and bottom edges of a box. *)
Definition op_ys (op : DrawOp) : list Z :=
  match op with
  | draw_text (_, y) _ _ _ => [y]
  | draw_rounded_rectangle [_; y1; _; y2] _ _ _ _ => [y1; y2]
  | draw_rounded_rectangle _ _ _ _ _ => []
  end.

(** The two fields that every request model with a subtitle declares in
    the same way: [title: str] and [subtitle: str = "CRYPTO NEWS"]. *)
Definition title_field : Field := mkField "title" t_str None.
Definition subtitle_field : Field := mkField "subtitle" t_str (Some (JStr "CRYPTO NEWS")).

(** [if self.current_lora:] *)
Definition has_current_lora (self : Generator) : bool :=
  match current_lora self with
  | Some k => truthy k
  | None => false
  end.

(** The entry of [self.lora_available] that FRESH's [load_lora_weights]
    picks for a client and a style: the entry of the pair when there is
    one, the universal entry otherwise. *)
Definition Fresh_lora_choice (self : Generator) (client style key path : string) : Prop :=
  (key = Fresh.lora_key client style /\ lora_available self !! key = Some path)
  \/ (lora_available self !! Fresh.lora_key client style = None
      /\ key = "universal" /\ lora_available self !! "universal" = Some path).

(** The attributes of the generator that only [__init__] sets. *)
Definition same_setup (a b : Generator) : Prop :=
  watermark a = watermark b /\ pipeline a = pipeline b
  /\ lora_available a = lora_available b
  /\ universal_lora_available a = universal_lora_available b.


(** FRESH after start-up on a machine that has the universal LoRA file and
    a working pipeline. *)
Definition with_universal_lora : State :=
  mkState (mkGenerator None true {[ "universal" := Fresh.universal_lora ]} None false) [].

(** The applications that draw every background themselves. *)
Definition never_calls_pipeline (v : Variant) : bool :=
  match v with
  | app_lightweight | app_force_visible | universal_app_lightweight | app_minimal => true
  | _ => false
  end.

(** The applications in which [use_trained_lora] decides whether the
    pipeline is tried. *)
Definition lora_is_optional (v : Variant) : bool :=
  match v with
  | FRESH_SDXL_app | app_enhanced_fallback => true
  | _ => false
  end.

Definition use_trained_lora_field : Field :=
  mkField "use_trained_lora" t_bool (Some (JBool true)).

(** The calls [load_lora_model] of app_lora makes for a client: none when
    the client has no file; otherwise the load and, when it succeeds, the
    fusing of the weights into the pipeline. *)
Definition Lora_load_calls (w : World) (client : string) : list Event :=
  let path := Lora.lora_path client in
  if path_exists w path
  then match pipeline_load_lora_weights w path with
       | Ret _ => [ev_load_lora path; ev_fuse_lora]
       | Raise _ => [ev_load_lora path]
       end
  else [].

(** ** create_minimal_dataset.py *)

Module CreateMinimalDataset.
Import CreateUniversalLora.

Definition dataset_dir : string := "training_data/minimal_universal_dataset".

Definition style_mapping : gmap string string :=
  list_to_map
    [ ("dark_theme",
       "dark professional background, subtle geometric patterns, minimal lighting");
      ("energy_fields",
       "glowing energy fields, particle effects, cosmic energy, vibrant auras");
      ("ultra_visible",
       "high contrast design, bright visual elements, professional styling");
      ("network_nodes",
       "connected network nodes, digital connections, tech visualization");
      ("particle_waves", "flowing particle waves, dynamic motion, wave patterns") ].

Definition client_mapping : gmap string string :=
  list_to_map
    [ ("hedera", "purple and magenta color scheme, hedera branding");
      ("algorand", "teal and cyan color scheme, algorand branding");
      ("constellation", "blue and white color scheme, constellation branding");
      ("bitcoin", "orange and gold color scheme, bitcoin branding") ].

(** [create_caption] *)
Definition create_caption (style client title : string) : string :=
  let base :=
    "crypto news cover background, professional design, high quality, 1800x900 resolution" in
  let style_desc := dict_get style_mapping style "professional visual design" in
  let client_desc := dict_get client_mapping client (client ++ " color scheme and branding") in
  let caption := base ++ ", " ++ style_desc ++ ", " ++ client_desc in
  if truthy title && (0 <? String.length title)%nat
  then caption ++ ", news headline about " ++ lower title
  else caption.

(** An entry of [training_pairs]; [pair_synthetic] tells whether the dict
    has the key ['synthetic'] (its value is then [True]). *)
Record Pair : Type := mkPair {
  pair_image : string;
  pair_caption : string;
  pair_style : string;
  pair_client : string;
  pair_synthetic : bool
}.

Record DatasetInfo : Type := mkDatasetInfo {
  total_images : nat;
  info_clients : list string;
  info_styles : list string;
  created_for : string;
  description : string
}.

Record TrainingConfig : Type := mkTrainingConfig {
  recommended_steps : nat;
  batch_size : nat;
  learning_rate : Q;
  lora_rank : nat
}.

(** The dict that [create_training_manifest] dumps. *)
Record TrainingManifest : Type := mkTrainingManifest {
  manifest_dataset_info : DatasetInfo;
  training_config : TrainingConfig;
  manifest_images : list Pair
}.

(** A regular file, by what was written to it. *)
Inductive File : Type :=
| image_file (ident : nat)
| text_file (content : string)
| json_file (manifest : TrainingManifest)
| quick_train_sh (dataset_size total_steps : nat) (DATASET_DIR : string).

(** Steps that read and write the regular files of the machine, kept by
    path, and may raise; a raise keeps the files written before it. *)
Definition F (A : Type) : Type := gmap string File -> Res A * gmap string File.

Definition fret {A : Type} (a : A) : F A := fun fs => (Ret a, fs).

Definition fbind {A B : Type} (m : F A) (k : A -> F B) : F B :=
  fun fs =>
    match m fs with
    | (Ret a, fs') => k a fs'
    | (Raise e, fs') => (Raise e, fs')
    end.

Definition flift {A : Type} (r : Res A) : F A := fun fs => (r, fs).

Declare Scope fs_scope.
Delimit Scope fs_scope with fs.
Notation "'run' x <- m ; k" := (fbind m (fun x => k))
  (at level 10, x name, m at level 100, k at level 200) : fs_scope.
Notation "'exec' m ; k" := (fbind m (fun _ => k))
  (at level 10, m at level 100, k at level 200) : fs_scope.
Local Open Scope fs_scope.

(** [Path(p).exists()] *)
Definition file_exists (p : string) : F bool :=
  fun fs => (Ret (bool_decide (is_Some (fs !! p))), fs).

(** [shutil.copy2(src, dst)] *)
Definition copy2 (src dst : string) : F unit :=
  fun fs =>
    match fs !! src with
    | Some file => (Ret tt, <[dst := file]> fs)
    | None => (Raise (PyError "FileNotFoundError" src), fs)
    end.

(** [with open(path, 'w') as f:] followed by the write of [file]. *)
Definition write (path : string) (file : File) : F unit :=
  fun fs => (Ret tt, <[path := file]> fs).

(** [str(n)] *)
Definition decimal (n : nat) : string := NilEmpty.string_of_uint (Nat.to_uint n).

(** [f"{i:04d}"] *)
Definition fmt_04d (i : nat) : string :=
  let digits := decimal i in
  String.concat "" (replicate (4 - String.length digits) "0") ++ digits.

Record TestImage : Type := mkTestImage {
  test_file : string;
  test_style : string;
  test_client : string;
  test_title : string
}.

Definition test_images : list TestImage :=
  [ mkTestImage "test_dark_theme.png" "dark_theme" "hedera" "Bitcoin Reaches New ATH";
    mkTestImage "test_energy_fields.png" "energy_fields" "algorand"
      "Ethereum Upgrade Complete";
    mkTestImage "test_ultra_visible.png" "ultra_visible" "hedera"
      "Hyperliquid Whale Denies Claims" ].

(** The loop of [create_from_test_images] over [enumerate(test_images)],
    from index [i] on. *)
Fixpoint add_test_images (i : nat) (images : list TestImage) (training_pairs : list Pair)
  : F (list Pair) :=
  match images with
  | [] => fret training_pairs
  | img_data :: rest =>
      let source_path := test_file img_data in
      run found <- file_exists source_path;
      if (found : bool)
      then
        let target_filename := "cover_" ++ fmt_04d i ++ ".png" in
        let target_path := joinpath dataset_dir target_filename in
        exec copy2 source_path target_path;
        let caption :=
          create_caption (test_style img_data) (test_client img_data)
            (test_title img_data) in
        let caption_path := joinpath dataset_dir ("cover_" ++ fmt_04d i ++ ".txt") in
        exec write caption_path (text_file caption);
        add_test_images (S i) rest
          (training_pairs
           ++ [mkPair target_path caption_path (test_style img_data)
                 (test_client img_data) false])
      else add_test_images (S i) rest training_pairs
  end.

(** [create_from_test_images] *)
Definition create_from_test_images : F (list Pair) :=
  add_test_images 0 test_images [].

Definition style_variations : list string :=
  ["energy_fields"; "dark_theme"; "network_nodes"; "particle_waves"; "corporate_style"].

Definition client_variations : list string :=
  ["hedera"; "algorand"; "constellation"; "bitcoin"; "ethereum"].

Definition title_variations : list string :=
  [ "Bitcoin Reaches New All-Time High";
    "Ethereum Network Upgrade Successfully Completed";
    "Major Whale Movement Detected in DeFi";
    "Cryptocurrency Market Shows Strong Growth";
    "Blockchain Technology Adoption Increases";
    "Digital Asset Investment Reaches Record Levels";
    "Decentralized Finance Protocol Launches";
    "Smart Contract Security Audit Complete" ].

(** [random.choice(seq)] on a list of dicts; [n] counts the calls made to
    [random] so far. *)
Definition choice_of {A : Type} (rng : Random) (n : nat) (l : list A) : Res A :=
  match l !! (rand_below rng n (length l) mod length l)%nat with
  | Some x => Ret x
  | None => Raise (PyError "IndexError" "Cannot choose from an empty sequence")
  end.

(** The loop of [create_synthetic_variations] over the indices [steps];
    [n] counts the calls made to [random] so far. *)
Fixpoint synthetic_loop (rng : Random) (base_pairs : list Pair) (steps : list nat)
    (n : nat) (synthetic_pairs : list Pair) : F (list Pair) :=
  match steps with
  | [] => fret synthetic_pairs
  | i :: rest =>
      run style <- flift (choice rng n style_variations);
      run client <- flift (choice rng (n + 1) client_variations);
      run title <- flift (choice rng (n + 2) title_variations);
      let target_filename := "synthetic_" ++ fmt_04d i ++ ".png" in
      let target_path := joinpath dataset_dir target_filename in
      let caption_path := joinpath dataset_dir ("synthetic_" ++ fmt_04d i ++ ".txt") in
      match base_pairs with
      | _ :: _ =>
          run source <- flift (choice_of rng (n + 3) base_pairs);
          exec copy2 (pair_image source) target_path;
          let caption := create_caption style client title in
          exec write caption_path (text_file caption);
          synthetic_loop rng base_pairs rest (n + 4)
            (synthetic_pairs ++ [mkPair target_path caption_path style client true])
      | [] => synthetic_loop rng base_pairs rest (n + 3) synthetic_pairs
      end
  end.

(** [create_synthetic_variations] *)
Definition create_synthetic_variations (rng : Random) (base_pairs : list Pair)
    (multiplier : nat) : F (list Pair) :=
  synthetic_loop rng base_pairs (seq 0 (multiplier * length base_pairs)) 0 [].

(** [create_training_manifest]; [list_of_set l] is [list(set(l))], whose
    order is up to Python. *)
Definition create_training_manifest (list_of_set : list string -> list string)
    (all_pairs : list Pair) : F string :=
  let manifest :=
    mkTrainingManifest
      (mkDatasetInfo (length all_pairs)
         (list_of_set (map pair_client all_pairs))
         (list_of_set (map pair_style all_pairs))
         "Universal LoRA Training - Minimal Dataset"
         "Minimal training dataset for crypto news cover generation")
      (mkTrainingConfig (Nat.min 1000 (length all_pairs * 50)) 1 (1 # 10000) 32)
      all_pairs in
  let manifest_path := joinpath dataset_dir "training_manifest.json" in
  exec write manifest_path (json_file manifest);
  fret manifest_path.

(** [create_quick_training_script]: the script is written next to the
    dataset directory with the three values that the template
    interpolates. *)
Definition create_quick_training_script (dataset_size : nat) : F unit :=
  let steps_per_epoch := Nat.max 1 dataset_size in
  let total_steps := Nat.min 500 (steps_per_epoch * 10) in
  let script_path := joinpath "training_data" "quick_train.sh" in
  write script_path (quick_train_sh dataset_size total_steps dataset_dir).

(** [create_minimal_dataset] *)
Definition create_minimal_dataset (rng : Random)
    (list_of_set : list string -> list string) : F (option string * nat) :=
  run base_pairs <- create_from_test_images;
  if (length base_pairs =? 0)%nat
  then fret (None, 0%nat)
  else
    run synthetic_pairs <- create_synthetic_variations rng base_pairs 8;
    let all_pairs := (base_pairs ++ synthetic_pairs)%list in
    run manifest_path <- create_training_manifest list_of_set all_pairs;
    exec create_quick_training_script (length all_pairs);
    fret (Some dataset_dir, length all_pairs).

(** What [json.load] gives back for a dumped manifest, as far as
    [analyze_dataset] looks at it. *)
Definition loaded_item (pair : Pair) : ManifestItem :=
  mkItem (Some (pair_image pair)) (Some (pair_caption pair))
    (Some (pair_style pair)) (Some (pair_client pair)).

Definition loaded_info (info : DatasetInfo) : JValue :=
  JObj [ ("total_images", JNum (Z.of_nat (total_images info)));
         ("clients", JList (map JStr (info_clients info)));
         ("styles", JList (map JStr (info_styles info)));
         ("created_for", JStr (created_for info));
         ("description", JStr (description info)) ].

Definition json_load (manifest : TrainingManifest) : Manifest :=
  mkManifest (Some (map loaded_item (manifest_images manifest)))
    (Some (loaded_info (manifest_dataset_info manifest))).

(** [with open(path, 'r') as f: json.load(f)] on these files. *)
Definition read_manifest (fs : gmap string File) (path : string) : Res Manifest :=
  match fs !! path with
  | Some (json_file manifest) => Ret (json_load manifest)
  | Some _ => Raise (PyError "JSONDecodeError" path)
  | None => Raise (PyError "FileNotFoundError" path)
  end.

(** The machine [w] with these regular files. *)
Definition with_files (w : World) (fs : gmap string File) : World :=
  mkWorld (fun p => bool_decide (is_Some (fs !! p))) (open_rgba w) (from_pretrained w)
    (pipeline_call w) (pipeline_load_lora_weights w) (pipeline_unload_lora_weights w)
    (pipeline_fuse_lora w) (textbbox w) (png_base64 w) (str_HTTPException w)
    (subprocess_run w).

(** The test images of [test_images] that exist. *)
Definition found_test_images (fs : gmap string File) : list TestImage :=
  filter (fun img => is_Some (fs !! test_file img)) test_images.

End CreateMinimalDataset.

(** A font file that [get_fonts] can use at a size: it exists and
    [ImageFont.truetype] opens it. *)
Definition loadable (w : World) (pil : ImageFont) (size : Z) (font_path : string) : Prop :=
  path_exists w font_path = true /\ exists u : unit, truetype pil font_path size = Ret u.

(** The font stored for a size is the one of the first loadable path, or
    the default font when no path is loadable. *)
Definition font_choice (w : World) (pil : ImageFont) (font_paths : list string)
    (size : Z) (font : Font) : Prop :=
  match font with
  | FreeTypeFont font_path font_size =>
      font_size = size
      /\ exists before after : list string,
           font_paths = (before ++ font_path :: after)%list
           /\ loadable w pil size font_path
           /\ Forall (fun p => ~ loadable w pil size p) before
  | default_font => Forall (fun p => ~ loadable w pil size p) font_paths
  end.

(** What [get_fonts] may end in: a dict with a chosen font under each key,
    or the exception of [ImageFont.load_default] when some size has no
    loadable path. *)
Definition font_dict_ok (w : World) (pil : ImageFont) (font_paths : list string)
    (font_sizes : FontKey -> Z) (result : Res (FontKey -> Font)) : Prop :=
  match result with
  | Ret fonts =>
      forall size_name : FontKey,
        font_choice w pil font_paths (font_sizes size_name) (fonts size_name)
  | Raise e =>
      load_default pil = Raise e
      /\ exists size_name : FontKey,
           Forall (fun p => ~ loadable w pil (font_sizes size_name) p) font_paths
  end.

(** Whether the character occurs in the string. *)
Fixpoint has_char (c : ascii) (s : string) : bool :=
  match s with
  | EmptyString => false
  | String x r => Ascii.eqb x c || has_char c r
  end.

(** A path that [analyze_dataset] finds again: it names a regular file
    directly in the dataset directory. *)
Definition stored (fs : gmap string CreateMinimalDataset.File) (path : string) : Prop :=
  CreateUniversalLora.joinpath CreateMinimalDataset.dataset_dir
    (CreateUniversalLora.path_name path) = path
  /\ is_Some (fs !! path).

(** Every file of [fs] is still a file of [fs']. *)
Definition keeps_files (fs fs' : gmap string CreateMinimalDataset.File) : Prop :=
  forall path : string, is_Some (fs !! path) -> is_Some (fs' !! path).

(** The last character of a string. *)
Fixpoint last_char (s : string) : option ascii :=
  match s with
  | EmptyString => None
  | String c EmptyString => Some c
  | String _ r => last_char r
  end.

(** The file at [path], a path that ends in [g], holds what one of the
    test images held when the run began. *)
Definition is_copy (origin fs : gmap string CreateMinimalDataset.File) (path : string)
  : Prop :=
  last_char path = Some "g"%char
  /\ exists img : CreateMinimalDataset.TestImage,
       img ∈ CreateMinimalDataset.found_test_images origin
       /\ fs !! path = origin !! CreateMinimalDataset.test_file img.

(** * Properties *)

(** ** Colour tables *)

Lemma hedera_present (g : BackgroundGenerator) :
  dict_index (colors_of g) "hedera" = Ret (hedera_of g).
Proof. destruct g; reflexivity. Qed.

Lemma outside_table (g : BackgroundGenerator) (client : string) :
  client ∉ table_clients g -> colors_of g !! client = None.
Proof.
  intros Hout.
  destruct g;
    cbv [colors_of table_clients Lightweight.colors Fresh.colors ForceVisible.colors
         EnhancedFallback.colors UniLightweight.colors] in Hout |- *;
    repeat (rewrite lookup_insert_ne; [| intros <-; apply Hout; set_solver]);
    (rewrite lookup_singleton_ne; [reflexivity | intros <-; apply Hout; set_solver]).
Qed.

Lemma new_image_ok (width height : Z) :
  0 <= width -> 0 <= height -> new_image width height = Ret tt.
Proof.
  intros Hw Hh. unfold new_image.
  by rewrite (proj2 (Z.ltb_ge width 0) Hw), (proj2 (Z.ltb_ge height 0) Hh).
Qed.

Lemma new_image_negative (width height : Z) :
  width < 0 \/ height < 0 ->
  new_image width height = Raise (PyError "ValueError" "Width and height must be >= 0").
Proof.
  intros H. unfold new_image.
  destruct H as [H | H]; apply Z.ltb_lt in H; rewrite H; [reflexivity |].
  by rewrite orb_true_r.
Qed.

Lemma randint_ok (a b : Z) : a <= b -> randint a b = Ret tt.
Proof. intros H. unfold randint. by rewrite (proj2 (Z.ltb_ge b a) H). Qed.

Lemma client_colors_eq (g : BackgroundGenerator) (client : string) :
  client_colors_of (colors_of g) client
  = Ret (dict_get (colors_of g) client (hedera_of g)).
Proof. unfold client_colors_of. by rewrite hedera_present. Qed.

Ltac unfold_background :=
  cbv [background generator_name];
  unfold Lightweight.create_enhanced_background, Fresh.generate_programmatic_fallback,
    ForceVisible.create_ultra_visible_background,
    EnhancedFallback.generate_enhanced_fallback,
    UniLightweight.generate_lora_style_background.

Ltac with_table :=
  change Lightweight.colors with (colors_of create_enhanced_background_lightweight);
  change Fresh.colors with (colors_of generate_programmatic_fallback_fresh);
  change ForceVisible.colors with (colors_of create_ultra_visible_background_force_visible);
  change EnhancedFallback.colors with (colors_of generate_enhanced_fallback_enhanced);
  change UniLightweight.colors with (colors_of generate_lora_style_background_universal);
  rewrite !client_colors_eq; cbn [bind].

(** At the size [generate_cover] asks for, every generator returns. *)
Lemma background_1800x900 (g : BackgroundGenerator) (client style : string) :
  background g 1800 900 client style
  = Ret (Image_new RGB 1800 900
           (px_procedural (generator_name g)
              (dict_get (colors_of g) client (hedera_of g)) style)).
Proof.
  destruct g; unfold_background; with_table;
    rewrite !new_image_ok by lia; cbn [bind];
    repeat (destruct (String.eqb style _));
    rewrite ?new_image_ok, ?randint_ok by lia; reflexivity.
Qed.

(** A generator that returns gives the image of the client's scheme, in
    the requested size. *)
Lemma background_returns (g : BackgroundGenerator) (width height : Z)
    (client style : string) (img : Image) :
  background g width height client style = Ret img ->
  img = Image_new RGB width height
          (px_procedural (generator_name g)
             (dict_get (colors_of g) client (hedera_of g)) style).
Proof.
  destruct g; unfold_background; with_table; unfold bind;
    repeat match goal with
           | |- context [match ?x with Ret _ => _ | Raise _ => _ end] =>
               destruct x; try discriminate
           | |- context [if ?b then _ else _] => destruct b
           end;
    by intros [= <-].
Qed.

(** Whether a generator raises does not depend on the client. *)
Lemma background_any_client (g : BackgroundGenerator) (width height : Z)
    (client other style : string) (img : Image) :
  background g width height other style = Ret img ->
  exists img' : Image, background g width height client style = Ret img'.
Proof.
  destruct g; unfold_background; with_table; unfold bind;
    repeat match goal with
           | |- context [match ?x with Ret _ => _ | Raise _ => _ end] =>
               destruct x; try discriminate
           | |- context [if ?b then _ else _] => destruct b
           end;
    by eauto.
Qed.

Lemma table_clients_present (g : BackgroundGenerator) (c : string) :
  c ∈ table_clients g <-> is_Some (colors_of g !! c).
Proof.
  split.
  - intros Hin. destruct g; cbv [table_clients] in Hin;
      repeat (apply elem_of_cons in Hin as [-> | Hin]; [by eexists |]);
      by apply elem_of_nil in Hin.
  - intros Hsome. destruct (decide (c ∈ table_clients g)) as [|Hout]; [done |].
    rewrite (outside_table g c Hout) in Hsome. by destruct Hsome.
Qed.

Lemma unknown_client_is_hedera (g : BackgroundGenerator) (width height : Z)
    (client style : string) :
  client ∉ table_clients g ->
  background g width height client style = background g width height "hedera" style.
Proof.
  intros Hout.
  assert (Heq : dict_get (colors_of g) client (hedera_of g)
                = dict_get (colors_of g) "hedera" (hedera_of g)).
  { unfold dict_get at 1. rewrite (outside_table g client Hout). by destruct g. }
  destruct g; unfold_background; with_table; by rewrite Heq.
Qed.

(** C10.  For a client outside hedera, algorand and constellation,
    [create_enhanced_background] of app_lightweight and
    [generate_programmatic_fallback] of FRESH do what they do for hedera:
    the image they return is drawn with the hedera scheme.  The client
    never makes them raise: they return for every client at 1800x900, the
    size [generate_cover] asks for, and more generally at every size their
    drawing code accepts (no negative side; in app_lightweight sides of at
    least 100 for network_nodes and 200 for dark_theme, whose
    [random.randint] calls need a non-empty range).  A negative side makes
    [Image.new] raise, whatever the client. *)
Theorem C10_unknown_client_gets_hedera (width height : Z) (client style : string) :
  client ∉ ["hedera"; "algorand"; "constellation"] ->
  Lightweight.create_enhanced_background width height client style
  = Lightweight.create_enhanced_background width height "hedera" style
  /\ Fresh.generate_programmatic_fallback width height client style
     = Fresh.generate_programmatic_fallback width height "hedera" style
  /\ (forall img : Image,
        Lightweight.create_enhanced_background width height client style = Ret img ->
        img = mkImage width height RGB
                (px_procedural "create_enhanced_background"
                   (mkScheme (138, 43, 226) (75, 0, 130) (186, 85, 211) (255, 0, 255))
                   style))
  /\ (forall img : Image,
        Fresh.generate_programmatic_fallback width height client style = Ret img ->
        img = mkImage width height RGB
                (px_procedural "generate_programmatic_fallback"
                   (mkScheme (138, 43, 226) (75, 0, 130) (186, 85, 211) (255, 0, 255))
                   style))
  /\ (0 <= width -> 0 <= height ->
      (style = "network_nodes" -> 100 <= width /\ 100 <= height) ->
      (style = "dark_theme" -> 200 <= width /\ 200 <= height) ->
      exists img : Image,
        Lightweight.create_enhanced_background width height client style = Ret img)
  /\ (0 <= width -> 0 <= height ->
      exists img : Image,
        Fresh.generate_programmatic_fallback width height client style = Ret img)
  /\ (width < 0 \/ height < 0 ->
      exists e : PyExc,
        Lightweight.create_enhanced_background width height client style = Raise e
        /\ Fresh.generate_programmatic_fallback width height client style = Raise e)
  /\ (forall any_client any_style : string,
        (exists img : Image,
           Lightweight.create_enhanced_background 1800 900 any_client any_style = Ret img)
        /\ (exists img : Image,
              Fresh.generate_programmatic_fallback 1800 900 any_client any_style
              = Ret img)).
Proof.
  intros Hout.
  assert (Hl : dict_get Lightweight.colors client
                 (hedera_of create_enhanced_background_lightweight)
               = mkScheme (138, 43, 226) (75, 0, 130) (186, 85, 211) (255, 0, 255)).
  { pose proof (outside_table create_enhanced_background_lightweight client Hout) as H.
    cbn [colors_of] in H. unfold dict_get. by rewrite H. }
  assert (Hf : dict_get Fresh.colors client
                 (hedera_of generate_programmatic_fallback_fresh)
               = mkScheme (138, 43, 226) (75, 0, 130) (186, 85, 211) (255, 0, 255)).
  { pose proof (outside_table generate_programmatic_fallback_fresh client Hout) as H.
    cbn [colors_of] in H. unfold dict_get. by rewrite H. }
  split; [apply (unknown_client_is_hedera create_enhanced_background_lightweight), Hout |].
  split; [apply (unknown_client_is_hedera generate_programmatic_fallback_fresh), Hout |].
  split.
  { intros img H.
    apply (background_returns create_enhanced_background_lightweight) in H.
    cbn [generator_name colors_of] in H. by rewrite Hl in H. }
  split.
  { intros img H.
    apply (background_returns generate_programmatic_fallback_fresh) in H.
    cbn [generator_name colors_of] in H. by rewrite Hf in H. }
  split.
  { intros Hw Hh Hnodes Hdark.
    unfold Lightweight.create_enhanced_background.
    with_table.
    rewrite new_image_ok by lia. cbn [bind].
    destruct (String.eqb_spec style "energy_fields");
      [rewrite !randint_ok by lia; by eexists |].
    destruct (String.eqb_spec style "network_nodes") as [Hs |];
      [destruct (Hnodes Hs); rewrite !randint_ok by lia; by eexists |].
    destruct (String.eqb_spec style "particle_waves"); [by eexists |].
    destruct (String.eqb_spec style "dark_theme") as [Hs |];
      [destruct (Hdark Hs); rewrite !randint_ok by lia; by eexists |].
    by eexists. }
  split.
  { intros Hw Hh. unfold Fresh.generate_programmatic_fallback.
    with_table.
    rewrite new_image_ok by lia. by eexists. }
  split.
  { intros Hneg. eexists.
    unfold Lightweight.create_enhanced_background, Fresh.generate_programmatic_fallback.
    with_table.
    by rewrite (new_image_negative width height Hneg). }
  intros any_client any_style. split.
  - rewrite (background_1800x900 create_enhanced_background_lightweight). by eexists.
  - rewrite (background_1800x900 generate_programmatic_fallback_fresh). by eexists.
Qed.

Lemma C10_unknown_client_gets_hedera_witness :
  ("dogecoin" ∉ ["hedera"; "algorand"; "constellation"])
  /\ Lightweight.create_enhanced_background 1800 900 "dogecoin" "dark_theme"
     = Ret (mkImage 1800 900 RGB
              (px_procedural "create_enhanced_background"
                 (mkScheme (138, 43, 226) (75, 0, 130) (186, 85, 211) (255, 0, 255))
                 "dark_theme"))
  /\ Fresh.generate_programmatic_fallback 1800 900 "dogecoin" "dark_theme"
     = Ret (mkImage 1800 900 RGB
              (px_procedural "generate_programmatic_fallback"
                 (mkScheme (138, 43, 226) (75, 0, 130) (186, 85, 211) (255, 0, 255))
                 "dark_theme")).
Proof.
  assert (Hout : "dogecoin" ∉ ["hedera"; "algorand"; "constellation"]).
  { apply (bool_decide_unpack _). vm_compute. exact I. }
  split; [exact Hout |].
  destruct (C10_unknown_client_gets_hedera 1800 900 "dogecoin" "dark_theme" Hout)
    as (_ & _ & Hl & Hf & _ & _ & _ & Hall).
  destruct (Hall "dogecoin" "dark_theme") as [[img1 H1] [img2 H2]].
  split; [rewrite H1; f_equal; by apply Hl | rewrite H2; f_equal; by apply Hf].
Defined.

(** ** Text overlays *)












Lemma truthy_nonempty (s : string) : s <> "" -> truthy s = true.
Proof. destruct s; [congruence | reflexivity]. Qed.






(** ** Running the generator computations *)

Lemma mbind_inv_ret {A B : Type} (m : M A) (k : A -> M B) (st st' : State) (b : B) :
  mbind m k st = (Ret b, st') ->
  exists (a : A) (st1 : State), m st = (Ret a, st1) /\ k a st1 = (Ret b, st').
Proof.
  unfold mbind. destruct (m st) as [[a | e] st1]; intros H; [by eauto | discriminate].
Qed.

Lemma mbind_inv_raise {A B : Type} (m : M A) (k : A -> M B) (st st' : State) (e : PyExc) :
  mbind m k st = (Raise e, st') ->
  m st = (Raise e, st')
  \/ exists (a : A) (st1 : State), m st = (Ret a, st1) /\ k a st1 = (Raise e, st').
Proof.
  unfold mbind. destruct (m st) as [[a | e0] st1]; intros H; [by eauto |].
  left. congruence.
Qed.


Lemma mbind_raise {A B : Type} (m : M A) (k : A -> M B) (st st1 : State) (e : PyExc) :
  m st = (Raise e, st1) -> mbind m k st = (Raise e, st1).
Proof. unfold mbind. by intros ->. Qed.

Lemma mtry_ret {A : Type} (m : M A) (h : PyExc -> M A) (st st1 : State) (a : A) :
  m st = (Ret a, st1) -> mtry m h st = (Ret a, st1).
Proof. unfold mtry. by intros ->. Qed.

Lemma mtry_raise {A : Type} (m : M A) (h : PyExc -> M A) (st st1 : State) (e : PyExc) :
  m st = (Raise e, st1) -> mtry m h st = h e st1.
Proof. unfold mtry. by intros ->. Qed.

(** A [try] whose handler returns a value never raises. *)
Lemma mtry_default_total {A : Type} (m : M A) (d : A) (st : State) :
  exists (a : A) (st' : State), mtry m (fun _ => mret d) st = (Ret a, st').
Proof.
  unfold mtry, mret. destruct (m st) as [[a | e] st1]; by eauto.
Qed.

Lemma mtry_default_inv {A : Type} (m : M A) (d : A) (st st' : State) (a : A) :
  mtry m (fun _ => mret d) st = (Ret a, st') ->
  m st = (Ret a, st') \/ (a = d /\ exists e, m st = (Raise e, st')).
Proof.
  unfold mtry, mret. destruct (m st) as [[a0 | e] st1]; intros H.
  - left. congruence.
  - right. injection H as <- <-. by eauto.
Qed.

Lemma lift_inv {A : Type} (r x : Res A) (st st' : State) :
  lift r st = (x, st') -> r = x /\ st' = st.
Proof. unfold lift. intros H. by injection H. Qed.

Lemma get_self_inv (x : Res Generator) (st st' : State) :
  get_self st = (x, st') -> x = Ret (gen st) /\ st' = st.
Proof. unfold get_self. intros H. by injection H. Qed.

Lemma mret_inv {A : Type} (a : A) (x : Res A) (st st' : State) :
  mret a st = (x, st') -> x = Ret a /\ st' = st.
Proof. unfold mret. intros H. by injection H. Qed.

(** Break a successful run into the successful runs of its parts. *)
Ltac minv H :=
  repeat
    (cbv zeta in H;
     match type of H with
     | mbind (lift _) _ _ = (Ret _, _) =>
         let Hl := fresh "Hlift" in
         apply mbind_inv_ret in H as (? & ? & Hl & H);
         apply lift_inv in Hl as [Hl ->]
     | mbind get_self _ _ = (Ret _, _) =>
         let Hg := fresh "Hself" in
         apply mbind_inv_ret in H as (? & ? & Hg & H);
         apply get_self_inv in Hg as [Hg ->];
         injection Hg as <-
     | mbind _ _ _ = (Ret _, _) =>
         let Hm := fresh "Hrun" in
         apply mbind_inv_ret in H as (? & ? & Hm & H)
     | mret _ _ = (_, _) =>
         let Hr := fresh "Hret" in
         apply mret_inv in H as [Hr ->]
     end).

(** ** Sizes of the composed images *)

Lemma alpha_composite_size (a b c : Image) :
  alpha_composite a b = Ret c ->
  im_width c = im_width a /\ im_height c = im_height a.
Proof.
  unfold alpha_composite.
  destruct (negb _); [discriminate |]. destruct (negb _); [discriminate |].
  intros H. injection H as <-. by split.
Qed.

Lemma apply_watermark_size (g : Generator) (width height : Z) (base out : Image) :
  apply_watermark g width height base = Ret out ->
  im_width out = im_width base /\ im_height out = im_height base.
Proof.
  unfold apply_watermark. destruct (watermark g) as [wm |].
  - apply alpha_composite_size.
  - intros H. injection H as <-. by split.
Qed.

(** The tail shared by every [generate_cover]: overlay, then watermark, on
    a background of the given size. *)
Lemma composed_size (g : Generator) (width height : Z)
    (background overlay base final : Image) :
  im_width background = width -> im_height background = height ->
  alpha_composite (convert RGBA background) overlay = Ret base ->
  apply_watermark g width height base = Ret final ->
  im_width (convert RGB final) = width /\ im_height (convert RGB final) = height.
Proof.
  intros Hw Hh Hc Hwm.
  apply alpha_composite_size in Hc as [Hc1 Hc2].
  apply apply_watermark_size in Hwm as [Hw1 Hw2].
  simpl in *. split; congruence.
Qed.

Lemma mtry_inv_ret {A : Type} (m : M A) (h : PyExc -> M A) (st st' : State) (a : A) :
  mtry m h st = (Ret a, st') ->
  m st = (Ret a, st')
  \/ exists (e : PyExc) (st1 : State), m st = (Raise e, st1) /\ h e st1 = (Ret a, st').
Proof.
  unfold mtry. destruct (m st) as [[a0 | e] st1]; intros H; [left; congruence |].
  right. by eauto.
Qed.

Lemma background_size (g : BackgroundGenerator) (width height : Z)
    (client style : string) (img : Image) :
  background g width height client style = Ret img ->
  im_width img = width /\ im_height img = height.
Proof. intros H. apply background_returns in H. subst img. by split. Qed.

Ltac cover_tail :=
  match goal with
  | Hret : Ret _ = Ret _ |- _ => injection Hret as ->
  end;
  eapply composed_size; eauto.

Lemma Lightweight_cover_size w t s c y st img st' :
  Lightweight.generate_cover w t s c y st = (Ret (Some img), st') ->
  im_width img = 1800 /\ im_height img = 900.
Proof.
  unfold Lightweight.generate_cover. intros H.
  apply mtry_default_inv in H as [H | [? _]]; [| discriminate].
  minv H. cover_tail;
    eapply (background_size create_enhanced_background_lightweight); eauto.
Qed.

Lemma ForceVisible_cover_size w t s c y st img st' :
  ForceVisible.generate_cover w t s c y st = (Ret (Some img), st') ->
  im_width img = 1800 /\ im_height img = 900.
Proof.
  unfold ForceVisible.generate_cover. intros H.
  apply mtry_default_inv in H as [H | [? _]]; [| discriminate].
  minv H. cover_tail;
    eapply (background_size create_ultra_visible_background_force_visible); eauto.
Qed.

Lemma UniLightweight_cover_size w t s c y st img m st' :
  UniLightweight.generate_cover w t s c y st = (Ret (Some img, m), st') ->
  im_width img = 1800 /\ im_height img = 900.
Proof.
  unfold UniLightweight.generate_cover. intros H.
  apply mtry_default_inv in H as [H | [? _]]; [| discriminate].
  minv H.
  match goal with
  | Hret : Ret _ = Ret _ |- _ => injection Hret as -> _
  end.
  eapply composed_size; eauto;
    eapply (background_size generate_lora_style_background_universal); eauto.
Qed.

Lemma Lora_cover_size w t s c y st img st' :
  Lora.generate_cover w t s c y st = (Ret (Some img), st') ->
  im_width img = 1800 /\ im_height img = 900.
Proof.
  unfold Lora.generate_cover. intros H.
  apply mtry_default_inv in H as [H | [? _]]; [| discriminate].
  minv H. cover_tail; reflexivity.
Qed.

(** ** The LoRA attempt and its fallback *)

Lemma Fresh_lora_image_size w c y t st img st' :
  Fresh.generate_with_trained_lora w c y t st = (Ret (Some img), st') ->
  im_width img = 1800 /\ im_height img = 900.
Proof.
  unfold Fresh.generate_with_trained_lora. intros H.
  minv H. destruct (negb _).
  - minv H. discriminate.
  - minv H. apply mtry_default_inv in H as [H | [? _]]; [| discriminate].
    minv H. injection Hret as ->. by split.
Qed.

Lemma Fresh_background_size w t c y u st bg st' :
  Fresh.cover_background w 1800 900 t c y u st = (Ret bg, st') ->
  im_width bg = 1800 /\ im_height bg = 900.
Proof.
  unfold Fresh.cover_background, mbind at 1 2, get_self.
  destruct (Fresh.lora_enabled (gen st) u).
  - destruct (Fresh.generate_with_trained_lora w c y t st) as [[[img |] | e] st1] eqn:Hg.
    + intros H. apply mret_inv in H as [H _]. injection H as <-.
      by eapply Fresh_lora_image_size.
    + intros H. apply lift_inv in H as [H _].
      by eapply (background_size generate_programmatic_fallback_fresh).
    + discriminate.
  - unfold mret at 1. intros H. apply lift_inv in H as [H _].
    by eapply (background_size generate_programmatic_fallback_fresh).
Qed.

Lemma Fresh_cover_size w t s c y u st img m st' :
  Fresh.generate_cover w t s c y u st = (Ret (Some img, m), st') ->
  im_width img = 1800 /\ im_height img = 900.
Proof.
  unfold Fresh.generate_cover. intros H.
  apply mtry_default_inv in H as [H | [? _]]; [| discriminate].
  apply mbind_inv_ret in H as (bg & st1 & Hbg & H).
  apply Fresh_background_size in Hbg as [Hw Hh].
  minv H.
  match goal with
  | Hret : Ret _ = Ret _ |- _ => injection Hret as -> _
  end.
  eapply composed_size; eauto.
Qed.

Lemma Enhanced_lora_image_size w t c y st img st' :
  EnhancedFallback.generate_with_universal_lora w t c y st = (Ret (Some img), st') ->
  im_width img = 1800 /\ im_height img = 900.
Proof.
  unfold EnhancedFallback.generate_with_universal_lora, mbind at 1, get_self.
  destruct (negb _); [discriminate |]. intros H.
  apply mtry_default_inv in H as [H | [? _]]; [| discriminate].
  minv H. injection Hret as ->. by split.
Qed.

Lemma Enhanced_background_size w t c y u st bg m st' :
  EnhancedFallback.cover_background w 1800 900 t c y u st = (Ret (bg, m), st') ->
  im_width bg = 1800 /\ im_height bg = 900.
Proof.
  unfold EnhancedFallback.cover_background, mbind at 1 2, get_self.
  assert (Hfall : forall s0,
    mbind (lift (EnhancedFallback.generate_enhanced_fallback 1800 900 c y))
      (fun img => mret (img, "enhanced_fallback")) s0 = (Ret (bg, m), st') ->
    im_width bg = 1800 /\ im_height bg = 900).
  { intros s0 H. minv H. injection Hret as <- _.
    by eapply (background_size generate_enhanced_fallback_enhanced). }
  destruct (EnhancedFallback.lora_enabled (gen st) u).
  - destruct (EnhancedFallback.generate_with_universal_lora w t c y st)
      as [[[img |] | e] st1] eqn:Hg.
    + intros H. apply mret_inv in H as [H _]. injection H as <- _.
      by eapply Enhanced_lora_image_size.
    + apply Hfall.
    + discriminate.
  - unfold mret at 1. apply Hfall.
Qed.

Lemma Enhanced_cover_size w t s c y u st img m st' :
  EnhancedFallback.generate_cover w t s c y u st = (Ret (Some img, m), st') ->
  im_width img = 1800 /\ im_height img = 900.
Proof.
  unfold EnhancedFallback.generate_cover. intros H.
  apply mtry_default_inv in H as [H | [? _]]; [| discriminate].
  apply mbind_inv_ret in H as ([bg m0] & st1 & Hbg & H).
  apply Enhanced_background_size in Hbg as [Hw Hh].
  minv H.
  match goal with
  | Hret : Ret _ = Ret _ |- _ => injection Hret as -> _
  end.
  eapply composed_size; eauto.
Qed.

Lemma mtry_reraise_inv {A : Type} (m : M A) (f : PyExc -> PyExc) (st st' : State) (a : A) :
  mtry m (fun e => mraise (f e)) st = (Ret a, st') -> m st = (Ret a, st').
Proof.
  intros H. apply mtry_inv_ret in H as [H | (e & st1 & _ & H)]; [done | discriminate].
Qed.

Lemma CpuLora_image_size w c y t st img st' :
  CpuLora.generate_with_cpu_lora w c y t st = (Ret img, st') ->
  im_width img = 1800 /\ im_height img = 900.
Proof.
  unfold CpuLora.generate_with_cpu_lora, mbind at 1, get_self.
  destruct (negb _); [discriminate |]. intros H.
  apply mbind_inv_ret in H as (? & st1 & _ & H).
  apply mtry_reraise_inv in H. minv H. injection Hret as ->. by split.
Qed.

Lemma CpuLora_cover_size w t s c y st img m st' :
  CpuLora.generate_cover w t s c y st = (Ret (img, m), st') ->
  im_width img = 1800 /\ im_height img = 900.
Proof.
  unfold CpuLora.generate_cover. intros H.
  apply mtry_reraise_inv in H.
  apply mbind_inv_ret in H as (bg & st1 & Hbg & H).
  apply CpuLora_image_size in Hbg as [Hw Hh].
  minv H.
  match goal with
  | Hret : Ret _ = Ret _ |- _ => injection Hret as -> _
  end.
  eapply composed_size; eauto.
Qed.

Lemma LoraOnly_image_size w c y t st img st' :
  LoraOnly.generate_with_universal_lora w c y t st = (Ret img, st') ->
  im_width img = 1800 /\ im_height img = 900.
Proof.
  unfold LoraOnly.generate_with_universal_lora, mbind at 1, get_self.
  destruct (negb _); [discriminate |]. intros H.
  apply mbind_inv_ret in H as (? & st1 & _ & H).
  apply mtry_reraise_inv in H. minv H. injection Hret as ->. by split.
Qed.

Lemma LoraOnly_cover_size w t s c y st img m st' :
  LoraOnly.generate_cover w t s c y st = (Ret (img, m), st') ->
  im_width img = 1800 /\ im_height img = 900.
Proof.
  unfold LoraOnly.generate_cover. intros H.
  apply mtry_reraise_inv in H.
  apply mbind_inv_ret in H as (bg & st1 & Hbg & H).
  apply LoraOnly_image_size in Hbg as [Hw Hh].
  minv H.
  match goal with
  | Hret : Ret _ = Ret _ |- _ => injection Hret as -> _
  end.
  eapply composed_size; eauto.
Qed.

Ltac destruct_match :=
  match goal with
  | H : context [match ?x with _ => _ end] |- _ => destruct x eqn:?
  | |- context [match ?x with _ => _ end] => destruct x eqn:?
  end.

Ltac monad_unfold :=
  cbv [mtry mbind lift mraise mret get_self call when set_current_lora gen log] in *.






Lemma Enhanced_lora_enabled_spec (g : Generator) (u : bool) :
  EnhancedFallback.lora_enabled g u = true <-> u = true /\ pipeline g = true.
Proof. unfold EnhancedFallback.lora_enabled. apply andb_true_iff. Qed.


Lemma alpha_composite_pixels (a b c : Image) :
  alpha_composite a b = Ret c -> im_pixels c = px_composite (im_pixels a) (im_pixels b).
Proof.
  unfold alpha_composite.
  destruct (negb _); [discriminate |]. destruct (negb _); [discriminate |].
  intros H. by injection H as <-.
Qed.

Lemma composed_pixels (g : Generator) (width height : Z) (bg overlay base final : Image)
    (ops : list DrawOp) :
  im_pixels overlay = px_overlay ops ->
  alpha_composite (convert RGBA bg) overlay = Ret base ->
  apply_watermark g width height base = Ret final ->
  im_pixels (convert RGB final) = composed g bg ops.
Proof.
  intros Hov Hc Hwm. apply alpha_composite_pixels in Hc. simpl in Hc.
  unfold apply_watermark in Hwm. unfold composed.
  destruct (watermark g) as [wm |].
  - apply alpha_composite_pixels in Hwm. simpl in *. congruence.
  - injection Hwm as <-. simpl. congruence.
Qed.

Lemma Fresh_cover_order w t s c y u st img m st2 :
  Fresh.generate_cover w t s c y u st = (Ret (Some img, m), st2) ->
  exists (bg : Image) (ops : list DrawOp),
    Fresh.cover_background w 1800 900 t c y u st = (Ret bg, st2)
    /\ Fresh.overlay_ops w 1800 900 t s = Ret ops
    /\ im_pixels img = composed (gen st2) bg ops.
Proof.
  unfold Fresh.generate_cover. intros H.
  apply mtry_default_inv in H as [H | [? _]]; [| discriminate].
  apply mbind_inv_ret in H as (bg & st1 & Hbg & H).
  minv H.
  match goal with
  | Hret : Ret _ = Ret _ |- _ => injection Hret as -> _
  end.
  match goal with
  | Hov : Fresh.create_text_overlay _ _ _ _ _ = Ret _ |- _ =>
      unfold Fresh.create_text_overlay, bind in Hov;
      destruct (Fresh.overlay_ops w 1800 900 t s) as [ops |] eqn:Hops; [| discriminate];
      injection Hov as <-
  end.
  match goal with
  | Hg : get_self _ = _ |- _ => apply get_self_inv in Hg as [Hg ->]; injection Hg as <-
  end.
  exists bg, ops. split; [done |]. split; [done |].
  eapply composed_pixels; [| eassumption | eassumption]. reflexivity.
Qed.

Lemma Enhanced_cover_order w t s c y u st img m st2 :
  EnhancedFallback.generate_cover w t s c y u st = (Ret (Some img, m), st2) ->
  exists (bg : Image) (ops : list DrawOp),
    EnhancedFallback.cover_background w 1800 900 t c y u st = (Ret (bg, m), st2)
    /\ EnhancedFallback.overlay_ops w 1800 900 t s = Ret ops
    /\ im_pixels img = composed (gen st2) bg ops.
Proof.
  unfold EnhancedFallback.generate_cover. intros H.
  apply mtry_default_inv in H as [H | [? _]]; [| discriminate].
  apply mbind_inv_ret in H as ([bg m0] & st1 & Hbg & H).
  minv H.
  match goal with
  | Hret : Ret _ = Ret _ |- _ => injection Hret as -> ->
  end.
  match goal with
  | Hov : EnhancedFallback.create_text_overlay _ _ _ _ _ = Ret _ |- _ =>
      unfold EnhancedFallback.create_text_overlay, bind in Hov;
      destruct (EnhancedFallback.overlay_ops w 1800 900 t s) as [ops |] eqn:Hops;
        [| discriminate];
      injection Hov as <-
  end.
  match goal with
  | Hg : get_self _ = _ |- _ => apply get_self_inv in Hg as [Hg ->]; injection Hg as <-
  end.
  exists bg, ops. split; [done |]. split; [done |].
  eapply composed_pixels; [| eassumption | eassumption]. reflexivity.
Qed.






(** ** The [POST /generate] handlers *)

Ltac handler_unfold :=
  cbv [post_generate cover_generation serve as_json
       Fresh.generate_image EnhancedFallback.generate_image Fixed.generate_image
       ForceVisible.generate_image Lightweight.generate_image Lora.generate_image
       Minimal.generate_image CpuLora.generate_image LoraOnly.generate_image
       UniLightweight.generate_image MinimalSD15.generate_cover
       mtry mbind lift mraise mret get_self respond fmap_res response_json of_option
       base.mbind option_bind fst snd] in *.

Ltac crunch := repeat (destruct_match; handler_unfold; simplify_eq).

Lemma prefix_app (p s : string) : String.prefix p (p ++ s) = true.
Proof.
  induction p as [| c p IH]; simpl; [by destruct s |].
  destruct (ascii_dec c c); [exact IH | congruence].
Qed.

(** C9 (amended).  In every application except app_fixed and app_minimal,
    [POST /generate] answers a valid body either with HTTP 200 and
    [success = true] (and, where the response model is used, a null
    [error] and a non-null [image_url]) or with HTTP 500; a rejected body
    gets the validation error.  No HTTP 200 response carries
    [success = false]. *)
Theorem C9_ok_means_success (v : Variant) (w : World) (body : gmap string JValue) (st : State) :
  reports_failure_in_body v = false ->
  match fst (post_generate v w body st) with
  | http_ok resp =>
      member "success" resp = Some (JBool true)
      /\ (v <> app_minimal_sd15 ->
          member "error" resp = Some JNull
          /\ exists url : string, member "image_url" resp = Some (JStr url))
  | http_error status _ => status = 500
  | http_validation_error => True
  | http_not_found => False
  end.
Proof.
  intros Hv. destruct v; try discriminate Hv; clear Hv.
  all: handler_unfold; crunch; cbn.
  all: try done.
  all: try (split; [reflexivity |]; intros _; split; [reflexivity |]; by eexists).
Qed.

Lemma contains_suffix (a b : string) : contains (a ++ b) b.
Proof.
  exists a, "". f_equal. induction b as [| c b IH]; [reflexivity |].
  change (String c b = String c (b ++ "")). by f_equal.
Qed.

(** C2 (amended).  In every application except app_fixed and app_minimal:
    when cover generation raises [e], the endpoint answers HTTP 500 with the
    detail made of the handler's fixed prefix followed by [str(e)]; when it
    yields no image, HTTP 500 with the prefix followed by the text of the
    handler's own "no image" exception.  Neither case returns a success
    body. *)
Theorem C2_failure_is_http_500
    (v : Variant) (w : World) (body : gmap string JValue) (st : State) :
  reports_failure_in_body v = false ->
  (forall e : PyExc,
     cover_generation v w body st = Some (Raise e) ->
     fst (post_generate v w body st)
     = http_error 500 (failure_prefix v ++ str_exc w e)
     /\ contains (failure_prefix v ++ str_exc w e) (str_exc w e))
  /\ (cover_generation v w body st = Some (Ret nothing) ->
      fst (post_generate v w body st)
      = http_error 500
          (failure_prefix v ++ str_exc w (HTTPException 500 (no_image_detail v)))).
Proof.
  intros Hv. destruct v; try discriminate Hv; clear Hv.
  all: split; [intros e H; split; [| apply contains_suffix] | intros H].
  all: handler_unfold; crunch; cbn; try done.
Qed.

(** C4 (amended).  In the applications that compose the cover in process
    (all but app_fixed, app_minimal and app_minimal_sd15), whatever size the
    pipeline's image has, the generated cover is 1800 wide and 900 high, and
    every HTTP 200 response encodes that cover and reports the resolution
    "1800x900" in its metadata. *)
Theorem C4_cover_is_1800x900
    (v : Variant) (w : World) (body : gmap string JValue) (st : State) :
  composes_cover v = true ->
  (forall img : Image,
     cover_generation v w body st = Some (Ret (cover img)) ->
     im_width img = 1800 /\ im_height img = 900)
  /\ (forall (resp : JValue) (st' : State),
        post_generate v w body st = (http_ok resp, st') ->
        exists (img : Image) (b64 : string) (md : list (string * JValue)),
          cover_generation v w body st = Some (Ret (cover img))
          /\ png_base64 w img = Ret b64
          /\ member "image_url" resp = Some (JStr (data_uri_prefix ++ b64))
          /\ member "metadata" resp = Some (JObj md)
          /\ assoc "resolution" md = Some (JStr "1800x900")).
Proof.
  intros Hv. destruct v; try discriminate Hv; clear Hv.
  all: split; [intros img H | intros resp st' H].
  all: handler_unfold; crunch.
  all: try solve
    [ by eapply Fresh_cover_size | by eapply Enhanced_cover_size
    | by eapply ForceVisible_cover_size | by eapply Lightweight_cover_size
    | by eapply Lora_cover_size | by eapply CpuLora_cover_size
    | by eapply LoraOnly_cover_size | by eapply UniLightweight_cover_size ].
  all: cbn in *; simplify_eq.
  all: eexists _, _, _; repeat split; try reflexivity; eassumption.
Qed.

Ltac parse_unfold :=
  cbv [post_generate serve parse5 parse4 parse3 validate field_value
       Fresh.GenerationRequest EnhancedFallback.GenerationRequest Fixed.GenerationRequest
       ForceVisible.GenerationRequest Lightweight.GenerationRequest Lora.GenerationRequest
       Minimal.GenerationRequest CpuLora.GenerationRequest LoraOnly.GenerationRequest
       UniLightweight.GenerationRequest MinimalSD15.GenerationRequest
       f_name f_type f_default base.mbind option_bind fst] in *.

Lemma title_is_required (v : Variant) (w : World) (body : gmap string JValue) (st : State) :
  body !! "title" = None -> fst (post_generate v w body st) = http_validation_error.
Proof.
  intros H. destruct v; parse_unfold; rewrite H;
    repeat (destruct_match; simplify_eq); reflexivity.
Qed.

Lemma title_alone_is_accepted (v : Variant) (w : World) (t : string) (st : State) :
  v <> app_minimal_sd15 ->
  fst (post_generate v w (title_only t) st) <> http_validation_error.
Proof.
  intros Hv. destruct v; try done; clear Hv.
  all: unfold post_generate, serve.
  all: match goal with
       | |- context [parse5 ?s ?b] =>
           replace (parse5 s b)
             with (Some (mkRequest5 t "CRYPTO NEWS" "hedera" (Some "dark_theme") true))
             by (vm_compute; reflexivity)
       | |- context [parse4 ?s ?b] =>
           first
             [ replace (parse4 s b)
                 with (Some (mkRequest4 t "CRYPTO NEWS" "hedera" (Some "dark_theme")))
                 by (vm_compute; reflexivity)
             | replace (parse4 s b)
                 with (Some (mkRequest4 t "CRYPTO NEWS" "hedera" (Some "energy_fields")))
                 by (vm_compute; reflexivity)
             | replace (parse4 s b)
                 with (Some (mkRequest4 t "CRYPTO NEWS" "algorand" (Some "energy_fields")))
                 by (vm_compute; reflexivity) ]
       end.
  all: handler_unfold; crunch; cbn; done.
Qed.

(** C1 (amended).  The request model has the fields title, subtitle,
    client, style and use_trained_lora in FRESH, app_enhanced_fallback,
    app_CPU_LORA, app_LORA_ONLY and the universal app_lightweight, and the
    first four only in the other applications except app_minimal_sd15; title
    is the one required field, a body without it is rejected and a body
    with a title alone is accepted.  Except in app_fixed and
    app_minimal_sd15, every HTTP 200 response with [success = true] has an
    [image_url] that begins with "data:image/png;base64," and a metadata
    record. *)
Theorem C1_request_model_and_success_shape (v : Variant) :
  (has_use_trained_lora v = true ->
   map f_name (request_model v)
   = ["title"; "subtitle"; "client"; "style"; "use_trained_lora"]
   /\ map required (request_model v) = [true; false; false; false; false])
  /\ (has_use_trained_lora v = false -> v <> app_minimal_sd15 ->
      map f_name (request_model v) = ["title"; "subtitle"; "client"; "style"]
      /\ map required (request_model v) = [true; false; false; false])
  /\ (forall (w : World) (body : gmap string JValue) (st : State),
        body !! "title" = None ->
        fst (post_generate v w body st) = http_validation_error)
  /\ (v <> app_minimal_sd15 ->
      forall (w : World) (t : string) (st : State),
        fst (post_generate v w (title_only t) st) <> http_validation_error)
  /\ (v <> app_fixed -> v <> app_minimal_sd15 ->
      forall (w : World) (body : gmap string JValue) (st st' : State) (resp : JValue),
        post_generate v w body st = (http_ok resp, st') ->
        member "success" resp = Some (JBool true) ->
        exists (b64 : string) (md : list (string * JValue)),
          member "image_url" resp = Some (JStr (data_uri_prefix ++ b64))
          /\ String.prefix "data:image/png;base64," (data_uri_prefix ++ b64) = true
          /\ member "metadata" resp = Some (JObj md)).
Proof.
  split; [intros Hv; by destruct v |].
  split; [intros Hv Hsd; by destruct v |].
  split; [intros w body st; apply title_is_required |].
  split; [intros Hsd w t st; by apply title_alone_is_accepted |].
  intros Hfixed Hsd w body st st' resp H Hsucc.
  destruct v; try done; clear Hfixed Hsd.
  all: handler_unfold; crunch; cbn in *; simplify_eq.
  all: eexists _, _; split; [reflexivity |]; split; [apply prefix_app | reflexivity].
Qed.

(** C9, as stated, fails: when the generator script of app_fixed exits
    with a non-zero status, the handler returns an HTTP 200 response with
    [success = false] and a non-null [error]. *)
Lemma C9_app_fixed_reports_failure_in_a_200 :
  fst (post_generate app_fixed failing_script_world (title_only "Bitcoin rallies") start)
  = http_ok (JObj [ ("success", JBool false);
                    ("image_url", JNull);
                    ("error", JStr "Generation failed: No module named PIL");
                    ("metadata", JNull) ]).
Proof. vm_compute. reflexivity. Qed.

Lemma C9_ok_means_success_witness :
  reports_failure_in_body app_lightweight = false
  /\ match fst (post_generate app_lightweight quiet_world
                  (title_only "Bitcoin rallies") start) with
     | http_ok resp =>
         member "success" resp = Some (JBool true)
         /\ (app_lightweight <> app_minimal_sd15 ->
             member "error" resp = Some JNull
             /\ exists url : string, member "image_url" resp = Some (JStr url))
     | http_error status _ => status = 500
     | http_validation_error => True
     | http_not_found => False
     end.
Proof.
  split; [reflexivity |].
  apply (C9_ok_means_success app_lightweight quiet_world
           (title_only "Bitcoin rallies") start).
  reflexivity.
Defined.

(** C2, as stated, fails: when the subprocess that generates the cover in
    app_fixed raises (here: it times out), the endpoint answers HTTP 200
    with a body, not HTTP 500. *)
Lemma C2_app_fixed_timeout_is_a_200 :
  cover_generation app_fixed hanging_script_world (title_only "Bitcoin rallies") start
  = Some (Raise (PyError "TimeoutExpired" "Command timed out after 120 seconds"))
  /\ fst (post_generate app_fixed hanging_script_world
            (title_only "Bitcoin rallies") start)
     = http_ok (JObj [ ("success", JBool false);
                       ("image_url", JNull);
                       ("error", JStr "Generation timeout");
                       ("metadata", JNull) ]).
Proof. split; vm_compute; reflexivity. Qed.

Lemma C2_failure_is_http_500_witness :
  reports_failure_in_body app_lightweight = false
  /\ cover_generation app_lightweight quiet_world (title_only "") start
     = Some (Ret nothing)
  /\ fst (post_generate app_lightweight quiet_world (title_only "") start)
     = http_error 500 "Generation failed: Failed to generate image"
  /\ cover_generation app_CPU_LORA quiet_world (title_only "Bitcoin rallies") start
     = Some (Raise (PyError "Exception"
                      "CPU LoRA generation failed: Pipeline not available"))
  /\ fst (post_generate app_CPU_LORA quiet_world (title_only "Bitcoin rallies") start)
     = http_error 500
         "CPU LoRA generation failed: CPU LoRA generation failed: Pipeline not available".
Proof.
  assert (Hnone : cover_generation app_lightweight quiet_world (title_only "") start
                  = Some (Ret nothing)) by (vm_compute; reflexivity).
  assert (Hraise : cover_generation app_CPU_LORA quiet_world
                     (title_only "Bitcoin rallies") start
                   = Some (Raise (PyError "Exception"
                                    "CPU LoRA generation failed: Pipeline not available")))
    by (vm_compute; reflexivity).
  split; [reflexivity |]. split; [exact Hnone |]. split.
  - exact (proj2 (C2_failure_is_http_500 app_lightweight quiet_world
                    (title_only "") start eq_refl) Hnone).
  - split; [exact Hraise |].
    exact (proj1 (proj1 (C2_failure_is_http_500 app_CPU_LORA quiet_world
                           (title_only "Bitcoin rallies") start eq_refl) _ Hraise)).
Defined.

(** C4, as stated, fails: the cover of app_minimal is 1792 wide and 896
    high, and its response metadata has no resolution entry. *)
Lemma C4_app_minimal_cover_is_1792x896 :
  cover_generation app_minimal quiet_world (title_only "Bitcoin rallies") start
  = Some (Ret (cover (mkImage 1792 896 RGB
                        (px_gradient (0, 120, 204) (75, 163, 224) "energy_fields"))))
  /\ fst (post_generate app_minimal quiet_world (title_only "Bitcoin rallies") start)
     = http_ok (JObj [ ("success", JBool true);
                       ("image_url", JStr "data:image/png;base64,iVBORw0KGgo=");
                       ("error", JNull);
                       ("metadata",
                        JObj [ ("client", JStr "algorand");
                               ("style", JStr "energy_fields");
                               ("title", JStr "Bitcoin rallies");
                               ("method", JStr "minimal_generation") ]) ]).
Proof. split; vm_compute; reflexivity. Qed.

Lemma C4_cover_is_1800x900_witness :
  composes_cover app_lora = true
  /\ cover_generation app_lora quiet_world (title_only "Bitcoin rallies") loaded
     = Some (Ret (cover
          (mkImage 1800 900 RGB
             (px_composite (px_resize (px_external 0))
                (px_overlay
                   (Lora.title_ops quiet_world 1800 300 ["BITCOIN RALLIES"]
                    ++ Lora.subtitle_ops quiet_world 1800 480 "CRYPTO NEWS"))))))
  /\ pipeline_call quiet_world "" 1792 896 = Ret (mkImage 1792 896 RGB (px_external 0))
  /\ (forall img : Image,
        cover_generation app_lora quiet_world (title_only "Bitcoin rallies") loaded
        = Some (Ret (cover img)) ->
        im_width img = 1800 /\ im_height img = 900).
Proof.
  split; [reflexivity |]. split; [vm_compute; reflexivity |].
  split; [reflexivity |].
  exact (proj1 (C4_cover_is_1800x900 app_lora quiet_world
                  (title_only "Bitcoin rallies") loaded eq_refl)).
Defined.

(** C1, as stated, fails: the request model of app_lightweight has no
    use_trained_lora field, and the image_url of a successful response of
    app_fixed is a download path, not a data URI. *)
Lemma C1_app_lightweight_has_four_fields :
  map f_name (request_model app_lightweight) = ["title"; "subtitle"; "client"; "style"]
  /\ fst (post_generate app_fixed working_script_world
            (title_only "Bitcoin rallies") start)
     = http_ok (JObj [ ("success", JBool true);
                       ("image_url", JStr "/download/algorand.png");
                       ("error", JNull);
                       ("metadata",
                        JObj [ ("client", JStr "algorand");
                               ("style", JStr "energy_fields");
                               ("title", JStr "Bitcoin rallies");
                               ("output_path",
                                JStr "/app/style_outputs/boxed_cover_algorand.png") ]) ])
  /\ String.prefix "data:image/png;base64," "/download/algorand.png" = false.
Proof. split; [reflexivity |]. split; [vm_compute; reflexivity | reflexivity]. Qed.

(** ** Status routes *)

(** C6 (amended).  Every application exposes GET /health and POST
    /generate, and every one except app_minimal_sd15 exposes GET /; these
    return a JSON record.  GET /lora-status exists in FRESH and in the
    universal app_lightweight only; elsewhere the path is not routed. *)
Theorem C6_status_routes (v : Variant) (device : string) (self : Generator) :
  ("GET", "/health") ∈ routes v
  /\ ("POST", "/generate") ∈ routes v
  /\ (exists fields, get_status v device "/health" self = http_ok (JObj fields))
  /\ (v <> app_minimal_sd15 ->
      ("GET", "/") ∈ routes v
      /\ exists fields, get_status v device "/" self = http_ok (JObj fields))
  /\ (("GET", "/lora-status") ∈ routes v
      <-> v = FRESH_SDXL_app \/ v = universal_app_lightweight)
  /\ (v = FRESH_SDXL_app \/ v = universal_app_lightweight ->
      exists fields, get_status v device "/lora-status" self = http_ok (JObj fields))
  /\ (("GET", "/lora-status") ∉ routes v ->
      get_status v device "/lora-status" self = http_not_found).
Proof.
  split; [destruct v; set_solver |].
  split; [destruct v; set_solver |].
  split; [destruct v; by eexists |].
  split; [intros Hv; destruct v; try done; (split; [set_solver | by eexists]) |].
  split.
  { split.
    - intros Hin. destruct v; try (by left); try (by right); exfalso;
        cbv [routes Fresh.routes EnhancedFallback.routes Fixed.routes ForceVisible.routes
             Lightweight.routes Lora.routes Minimal.routes CpuLora.routes LoraOnly.routes
             UniLightweight.routes MinimalSD15.routes] in Hin;
        repeat (apply elem_of_cons in Hin as [Hin | Hin]; [discriminate Hin |]);
        by apply elem_of_nil in Hin.
    - intros [-> | ->]; set_solver. }
  split; [intros [-> | ->]; by eexists |].
  intros Hout. destruct v; try reflexivity; exfalso; apply Hout; set_solver.
Qed.

Lemma C6_status_routes_witness :
  app_lora <> app_minimal_sd15
  /\ ("GET", "/") ∈ routes app_lora
  /\ get_status app_lora "cpu" "/" fresh_generator
     = http_ok (JObj [ ("message", JStr "Real LoRA Crypto News Image Generator");
                       ("status", JStr "running");
                       ("endpoints", JList [JStr "/generate"; JStr "/health"]);
                       ("version", JStr "2.0.0") ]).
Proof.
  assert (Hne : app_lora <> app_minimal_sd15) by discriminate.
  split; [exact Hne |].
  split; [| reflexivity].
  exact (proj1 (proj1 (proj2 (proj2 (proj2
           (C6_status_routes app_lora "cpu" fresh_generator)))) Hne)).
Defined.

(** C6, as stated, fails: app_lightweight declares no /lora-status route,
    and a GET on that path finds nothing. *)
Lemma C6_app_lightweight_has_no_lora_status :
  routes app_lightweight = [ ("GET", "/"); ("GET", "/health"); ("POST", "/generate") ]
  /\ (("GET", "/lora-status") ∉ routes app_lightweight)
  /\ get_status app_lightweight "cpu" "/lora-status" fresh_generator = http_not_found.
Proof.
  split; [reflexivity |]. split; [| reflexivity].
  apply (bool_decide_unpack _). vm_compute. exact I.
Qed.

(** ** Files on disk *)

Lemma foldl_invariant {A B : Type} (P : A -> Prop) (f : A -> B -> A) (l : list B) (a : A) :
  P a -> (forall acc x, x ∈ l -> P acc -> P (f acc x)) -> P (foldl f a l).
Proof.
  revert a. induction l as [| x l IH]; intros a Ha Hstep; [exact Ha |].
  simpl. apply IH.
  - apply Hstep; [left | exact Ha].
  - intros acc y Hy. apply Hstep. by right.
Qed.

Lemma Fresh_available_entries (w : World) (key path : string) :
  Fresh.check_available_loras w !! key = Some path -> fresh_entry w key path.
Proof.
  unfold Fresh.check_available_loras.
  destruct (negb (path_exists w Fresh.lora_dir)); [by rewrite lookup_empty |].
  set (P := fun acc : gmap string string =>
              forall k p, acc !! k = Some p -> fresh_entry w k p).
  assert (Hspecific : P (foldl (fun acc client =>
            foldl (fun acc style =>
              if path_exists w (Fresh.lora_path client style)
              then <[Fresh.lora_key client style := Fresh.lora_path client style]> acc
              else acc) acc Fresh.styles) (∅ : gmap string string) Fresh.clients)).
  { apply foldl_invariant.
    - intros k p Hk. by rewrite lookup_empty in Hk.
    - intros acc client Hclient Hacc. apply foldl_invariant; [exact Hacc |].
      intros acc' style Hstyle Hacc' k p.
      destruct (path_exists w (Fresh.lora_path client style)) eqn:Hex; [| apply Hacc'].
      rewrite lookup_insert. case_decide as Hk; [| apply Hacc'].
      intros Hp. injection Hp as <-. subst k. split; [exact Hex |].
      right. exists client, style. by repeat split. }
  destruct (path_exists w Fresh.universal_lora) eqn:Hu; [| apply Hspecific].
  rewrite lookup_insert. case_decide as Hk; [| apply Hspecific].
  intros Hp. injection Hp as <-. subst key. split; [exact Hu |]. by left.
Qed.


Lemma foldl_insert_other (items : list (string * string)) (cond : string * string -> bool)
    (acc : gmap string string) (k : string) :
  (forall x, x ∈ items -> fst x <> k) ->
  foldl (fun acc x => if cond x then <[fst x := snd x]> acc else acc) acc items !! k
  = acc !! k.
Proof.
  revert acc. induction items as [| x items IH]; intros acc Hk; [reflexivity |].
  simpl. rewrite IH by (intros y Hy; apply Hk; by right).
  destruct (cond x); [| reflexivity].
  apply lookup_insert_ne. apply Hk. by left.
Qed.

Lemma foldl_insert_found (items : list (string * string)) (cond : string * string -> bool)
    (acc : gmap string string) (x : string * string) :
  NoDup (map fst items) ->
  x ∈ items ->
  foldl (fun acc x => if cond x then <[fst x := snd x]> acc else acc) acc items !! fst x
  = if cond x then Some (snd x) else acc !! fst x.
Proof.
  revert acc. induction items as [| y items IH]; intros acc Hnd Hin.
  - by apply elem_of_nil in Hin.
  - simpl in Hnd. apply NoDup_cons in Hnd as [Hy Hnd]. simpl.
    apply elem_of_cons in Hin as [-> | Hin].
    + rewrite foldl_insert_other.
      * destruct (cond y); [apply lookup_insert_eq | reflexivity].
      * intros z Hz Heq. apply Hy. rewrite <- Heq.
        by apply (list_elem_of_fmap_2 fst).
    + rewrite IH by assumption. destruct (cond x); [reflexivity |].
      destruct (cond y); [| reflexivity].
      apply lookup_insert_ne. intros Heq. apply Hy. rewrite Heq.
      by apply (list_elem_of_fmap_2 fst).
Qed.

(** The nested loops of [check_available_loras] visit the pairs in the
    order of this list. *)
Lemma Fresh_specific_loras (w : World) :
  foldl (fun acc client =>
    foldl (fun acc style =>
      if path_exists w (Fresh.lora_path client style)
      then <[Fresh.lora_key client style := Fresh.lora_path client style]> acc
      else acc) acc Fresh.styles) (∅ : gmap string string) Fresh.clients
  = foldl (fun acc x => if path_exists w (snd x) then <[fst x := snd x]> acc else acc)
      ∅ Fresh_candidates.
Proof. reflexivity. Qed.


Lemma Fresh_candidates_NoDup : NoDup (map fst Fresh_candidates).
Proof. apply (bool_decide_unpack _). vm_compute. exact I. Qed.

Lemma Fresh_candidate_in (client style : string) :
  client ∈ Fresh.clients -> style ∈ Fresh.styles ->
  (Fresh.lora_key client style, Fresh.lora_path client style) ∈ Fresh_candidates
  /\ Fresh.lora_key client style <> "universal".
Proof.
  intros Hc Hs. unfold Fresh.clients in Hc. unfold Fresh.styles in Hs.
  repeat (apply elem_of_cons in Hc as [-> | Hc]);
    try (by apply elem_of_nil in Hc);
    repeat (apply elem_of_cons in Hs as [-> | Hs]);
    try (by apply elem_of_nil in Hs);
    (split; [apply list_elem_of_In; vm_compute; tauto | discriminate]).
Qed.

Lemma Fresh_universal_not_candidate (x : string * string) :
  x ∈ Fresh_candidates -> fst x <> "universal".
Proof.
  intros Hx. apply list_elem_of_In in Hx. vm_compute in Hx.
  repeat (destruct Hx as [<- | Hx]; [discriminate |]). destruct Hx.
Qed.

(** [load_lora_model] of app_lora, case by case: without the file of the
    client nothing is called; with it, the weights at that path are loaded
    and then fused into the pipeline, and the result tells whether both
    calls succeeded. *)
Lemma Lora_load_lora_model_run (w : World) (client : string) (st : State) :
  let path := ("models/lora/" ++ client ++ "_lora.safetensors")%string in
  Lora.load_lora_model w client st
  = if path_exists w path
    then if pipeline (gen st)
         then match pipeline_load_lora_weights w path with
              | Ret _ =>
                  (Ret match pipeline_fuse_lora w with
                       | Ret _ => true
                       | Raise _ => false
                       end,
                   mkState (gen st) (log st ++ [ev_load_lora path; ev_fuse_lora]))
              | Raise _ => (Ret false, mkState (gen st) (log st ++ [ev_load_lora path]))
              end
         else (Ret false, st)
    else (Ret false, st).
Proof.
  intros path. unfold Lora.load_lora_model.
  change (Lora.lora_path client) with path.
  destruct (path_exists w path); [| reflexivity].
  unfold mtry, mbind, Lora.on_pipeline, mbind, get_self, call, mret, mraise.
  destruct (pipeline (gen st)) eqn:Hp; [| reflexivity].
  destruct (pipeline_load_lora_weights w path) as [[] | e]; [| reflexivity].
  cbn [gen log]. rewrite Hp. cbn [gen log].
  destruct (pipeline_fuse_lora w) as [[] | e]; by rewrite <- app_assoc.
Qed.

(** C5 (amended).  FRESH resolves the trained LoRA weights of a client and
    a style at models/lora/<client>_<style>_lora.safetensors:
    [check_available_loras] records the key <client>_<style> with that
    path exactly when models/lora and the file exist (and records nothing
    but such files and the universal file).  app_lora resolves the weights
    of a client at models/lora/<client>_lora.safetensors, whatever the
    style: [load_lora_model] makes no call when that file is missing, and
    otherwise loads that path.  [load_watermark] of app_lightweight, and of
    the other applications that have one, keeps the image read from
    genfinity-watermark.png in the working directory, when the file exists
    and can be opened. *)
Theorem C5_lora_and_watermark_files (w : World) (client style : string) (st : State) :
  (client ∈ ["hedera"; "algorand"; "constellation"] ->
   style ∈ ["energy_fields"; "dark_theme"; "network_nodes"; "particle_waves"] ->
   Fresh.check_available_loras w !! (client ++ "_" ++ style)
   = if path_exists w "models/lora"
        && path_exists w ("models/lora/" ++ client ++ "_" ++ style ++ "_lora.safetensors")
     then Some ("models/lora/" ++ client ++ "_" ++ style ++ "_lora.safetensors")
     else None)
  /\ (forall key path : string,
        Fresh.check_available_loras w !! key = Some path -> fresh_entry w key path)
  /\ (path_exists w ("models/lora/" ++ client ++ "_lora.safetensors") = false ->
      Lora.load_lora_model w client st = (Ret false, st))
  /\ (path_exists w ("models/lora/" ++ client ++ "_lora.safetensors") = true ->
      pipeline (gen st) = true ->
      exists (ok : bool) (calls : list Event),
        Lora.load_lora_model w client st
        = (Ret ok,
           mkState (gen st)
             (log st ++ ev_load_lora ("models/lora/" ++ client ++ "_lora.safetensors")
                        :: calls))
        /\ calls = match pipeline_load_lora_weights w
                            ("models/lora/" ++ client ++ "_lora.safetensors") with
                    | Ret _ => [ev_fuse_lora]
                    | Raise _ => []
                    end
        /\ (ok = true
            <-> pipeline_load_lora_weights w
                  ("models/lora/" ++ client ++ "_lora.safetensors") = Ret tt
                /\ pipeline_fuse_lora w = Ret tt))
  /\ Forall (fun load_watermark : World -> option Image =>
               forall img : Image,
                 load_watermark w = Some img
                 <-> path_exists w "genfinity-watermark.png" = true
                     /\ open_rgba w "genfinity-watermark.png" = Ret img)
       [ Lightweight.load_watermark; Lora.load_watermark; Fresh.load_watermark;
         EnhancedFallback.load_watermark; ForceVisible.load_watermark;
         UniLightweight.load_watermark; CpuLora.load_watermark ]
  /\ (forall img : Image,
        LoraOnly.load_watermark w = Some (Some img)
        <-> path_exists w "genfinity-watermark.png" = true
            /\ open_rgba w "genfinity-watermark.png" = Ret img).
Proof.
  split.
  { intros Hc Hs.
    destruct (Fresh_candidate_in client style Hc Hs) as [Hin Hne].
    unfold Fresh.check_available_loras. rewrite Fresh_specific_loras.
    change Fresh.lora_dir with "models/lora".
    change (client ++ "_" ++ style)%string with (Fresh.lora_key client style).
    change ("models/lora/" ++ client ++ "_" ++ style ++ "_lora.safetensors")%string
      with (Fresh.lora_path client style).
    destruct (path_exists w "models/lora"); cbn [negb andb]; [| apply lookup_empty].
    destruct (path_exists w Fresh.universal_lora);
      rewrite ?lookup_insert_ne by (intros Heq; by apply Hne);
      rewrite (foldl_insert_found _ (fun x => path_exists w (snd x)) ∅ _
                 Fresh_candidates_NoDup Hin);
      cbn [fst snd]; by rewrite lookup_empty. }
  split; [intros key path; apply Fresh_available_entries |].
  pose proof (Lora_load_lora_model_run w client st) as Hrun. cbv zeta in Hrun.
  split; [intros Hno; by rewrite Hrun, Hno |].
  split.
  { intros Hyes Hp. rewrite Hrun, Hyes, Hp.
    destruct (pipeline_load_lora_weights w _) as [[] | e].
    - eexists _, [ev_fuse_lora]. split; [reflexivity |].
      split; [reflexivity |].
      destruct (pipeline_fuse_lora w) as [[] | e]; split; try done.
      by intros [_ ?].
    - eexists false, []. split; [reflexivity |].
      split; [reflexivity |].
      split; [done | by intros [? _]]. }
  split.
  { repeat apply Forall_cons_2; try apply Forall_nil_2;
      unfold Lightweight.load_watermark, Lora.load_watermark, Fresh.load_watermark,
        EnhancedFallback.load_watermark, ForceVisible.load_watermark,
        UniLightweight.load_watermark, CpuLora.load_watermark,
        Lightweight.watermark_path, Lora.watermark_path, Fresh.watermark_path,
        EnhancedFallback.watermark_path, ForceVisible.watermark_path,
        UniLightweight.watermark_path, CpuLora.watermark_path;
      intros img;
      destruct (path_exists w "genfinity-watermark.png");
      destruct (open_rgba w "genfinity-watermark.png");
      (split; [intros H | intros [H1 H2]]; by simplify_eq). }
  intros img. unfold LoraOnly.load_watermark, LoraOnly.watermark_path.
  destruct (path_exists w "genfinity-watermark.png");
    destruct (open_rgba w "genfinity-watermark.png"); cbn [negb];
    (split; [intros H | intros [H1 H2]]; by simplify_eq).
Qed.

Lemma C5_lora_and_watermark_files_witness :
  Fresh.check_available_loras working_script_world !! "hedera_dark_theme"
  = Some "models/lora/hedera_dark_theme_lora.safetensors"
  /\ Lora.load_lora_model working_script_world "hedera" loaded
     = (Ret true,
        mkState loaded_generator
          [ev_load_lora "models/lora/hedera_lora.safetensors"; ev_fuse_lora])
  /\ Lightweight.load_watermark working_script_world = None.
Proof.
  destruct (C5_lora_and_watermark_files working_script_world "hedera" "dark_theme" loaded)
    as (Hfresh & _ & _ & Hlora & Hwm & _).
  split.
  { refine (Hfresh _ _); apply (bool_decide_unpack _); vm_compute; exact I. }
  split.
  { destruct (Hlora eq_refl eq_refl) as (ok & calls & Hrun & Hcalls & Hok).
    rewrite Hrun, Hcalls, (proj2 Hok) by (split; reflexivity). reflexivity. }
  apply Forall_cons_1 in Hwm as [Hwm _].
  assert (Hnone : forall img : Image,
            Lightweight.load_watermark working_script_world <> Some img).
  { intros img Hload. apply Hwm in Hload as [_ Hopen]. discriminate Hopen. }
  destruct (Lightweight.load_watermark working_script_world) as [img |];
    [by destruct (Hnone img) | reflexivity].
Defined.

(** C5, as stated, fails: for a client and a style, app_lora looks for the
    weights at models/lora/<client>_lora.safetensors, without the style.
    On a machine that has models/lora/hedera_dark_theme_lora.safetensors
    only, [load_lora_model] finds nothing to load for hedera; on a machine
    that has models/lora/hedera_lora.safetensors only, it loads that
    file. *)
Lemma C5_app_lora_path_has_no_style :
  path_exists (with_paths quiet_world ["models/lora";
                 "models/lora/hedera_dark_theme_lora.safetensors"])
    "models/lora/hedera_dark_theme_lora.safetensors" = true
  /\ Lora.load_lora_model
       (with_paths quiet_world ["models/lora";
          "models/lora/hedera_dark_theme_lora.safetensors"]) "hedera" loaded
     = (Ret false, loaded)
  /\ Lora.load_lora_model
       (with_paths quiet_world ["models/lora"; "models/lora/hedera_lora.safetensors"])
       "hedera" loaded
     = (Ret true,
        mkState loaded_generator
          [ev_load_lora "models/lora/hedera_lora.safetensors"; ev_fuse_lora]).
Proof. split; [| split]; reflexivity. Qed.

(** ** The simulated training run *)

Import CreateUniversalLora.

Lemma choice_nonempty (rng : Random) (n : nat) (l : list string) :
  l <> [] -> exists x : string, choice rng n l = Ret x /\ x ∈ l.
Proof.
  intros Hl. unfold choice.
  assert (Hlen : (0 < length l)%nat) by (destruct l; [done | simpl; lia]).
  destruct (lookup_lt_is_Some_2 l (rand_below rng n (length l) mod length l)) as [x Hx].
  { apply Nat.mod_upper_bound. lia. }
  rewrite Hx. exists x. split; [reflexivity |]. by eapply list_elem_of_lookup_2.
Qed.








Lemma training_step_ok (rng : Random) (stats : DatasetStats) (s : nat) :
  styles stats <> [] -> clients stats <> [] ->
  exists e : LogEntry,
    training_step rng stats s = Ret e
    /\ step e = s
    /\ loss e
       = py_max (2 # 100)
           ((3 # 2) * (1 - inject_Z (Z.of_nat s) / inject_Z (Z.of_nat training_steps))
            + uniform rng (3 * s) (- (1 # 10)) (1 # 10))
    /\ entry_style e ∈ styles stats
    /\ entry_client e ∈ clients stats
    /\ choice rng (3 * s + 1) (styles stats) = Ret (entry_style e)
    /\ choice rng (3 * s + 2) (clients stats) = Ret (entry_client e).
Proof.
  intros Hs Hc. unfold training_step.
  destruct (choice_nonempty rng (3 * s + 1) _ Hs) as (x & -> & Hx).
  destruct (choice_nonempty rng (3 * s + 2) _ Hc) as (y & -> & Hy).
  eexists. split; [reflexivity |]. by repeat split.
Qed.

Lemma training_loop_ok (rng : Random) (stats : DatasetStats) :
  styles stats <> [] -> clients stats <> [] ->
  forall (steps : list nat) (training_log : list LogEntry) (effects : list Effect),
  exists entries : list LogEntry,
    training_loop rng stats steps training_log effects
    = (Ret (training_log ++ entries)%list,
       (effects ++ repeat (sleep (1 # 100)) (length steps))%list)
    /\ Forall2 (fun s e => training_step rng stats s = Ret e) steps entries.
Proof.
  intros Hs Hc. induction steps as [| s steps IH]; intros training_log effects.
  - exists []. simpl. rewrite !app_nil_r. by split.
  - destruct (training_step_ok rng stats s Hs Hc) as (e & He & _).
    simpl. rewrite He.
    destruct (IH (training_log ++ [e])%list (effects ++ [sleep (1 # 100)])%list)
      as (entries & -> & Hall).
    exists (e :: entries). rewrite <- !app_assoc. split; [reflexivity |].
    by constructor.
Qed.






(** ** Words of a title *)

Lemma string_cons_app (c : ascii) (a b : string) :
  (String c a ++ b)%string = String c (a ++ b).
Proof. reflexivity. Qed.

Lemma string_nil_app (b : string) : ("" ++ b)%string = b.
Proof. reflexivity. Qed.

Lemma string_app_assoc (a b c : string) : ((a ++ b) ++ c = a ++ (b ++ c))%string.
Proof.
  induction a as [| x a IH]; [reflexivity |]. by rewrite !string_cons_app, IH.
Qed.

Lemma string_app_nil_r (a : string) : (a ++ "")%string = a.
Proof.
  induction a as [| x a IH]; [reflexivity |]. by rewrite string_cons_app, IH.
Qed.

Lemma split_go_app_space (a b cur : string) (c : ascii) :
  is_space c = true ->
  split_go (a ++ String c b) cur = (split_go a cur ++ split_go b "")%list.
Proof.
  intros Hc. revert cur. induction a as [| d a IH]; intros cur.
  - rewrite string_nil_app. simpl. rewrite Hc. by destruct (truthy cur).
  - rewrite string_cons_app. simpl. destruct (is_space d); [| apply IH].
    destruct (truthy cur); simpl; by rewrite IH.
Qed.

(** Every word that [split] returns is a single word itself. *)
Lemma split_go_words (s cur : string) :
  (forall t, split_go (cur ++ t) "" = split_go t cur) ->
  Forall (fun word => split word = [word]) (split_go s cur).
Proof.
  revert cur. induction s as [| c s IH]; intros cur Hcur; simpl.
  - destruct (truthy cur) eqn:Ht; constructor; [| constructor].
    unfold split. rewrite <- (string_app_nil_r cur) at 1. rewrite Hcur. simpl.
    by rewrite Ht.
  - assert (Hnil : forall t, split_go ("" ++ t) "" = split_go t "") by reflexivity.
    destruct (is_space c) eqn:Hc.
    + destruct (truthy cur) eqn:Ht; [constructor |]; try by apply IH.
      unfold split. rewrite <- (string_app_nil_r cur) at 1. rewrite Hcur. simpl.
      by rewrite Ht.
    + apply IH. intros t. rewrite string_app_assoc, string_cons_app, string_nil_app.
      rewrite Hcur. simpl. by rewrite Hc.
Qed.

Lemma split_words (s : string) : Forall (fun word => split word = [word]) (split s).
Proof. apply split_go_words. reflexivity. Qed.

Lemma split_join (words : list string) :
  Forall (fun word => split word = [word]) words -> split (join " " words) = words.
Proof.
  unfold join. induction 1 as [| x l Hx Hl IH]; [reflexivity |].
  destruct l as [| y l]; [exact Hx |].
  change (String.concat " " (x :: y :: l))
    with (x ++ String " " (String.concat " " (y :: l)))%string.
  unfold split in *. rewrite split_go_app_space by reflexivity.
  by rewrite Hx, IH.
Qed.

Lemma split_at_mid_word_words (words : list string) :
  Forall (fun word => split word = [word]) words ->
  exists first second : string,
    split_at_mid_word words = [first; second]
    /\ split first = take (length words / 2) words
    /\ split second = drop (length words / 2) words.
Proof.
  intros Hw. unfold split_at_mid_word. eexists _, _. split; [reflexivity |].
  split; apply split_join; [by apply Forall_take | by apply Forall_drop].
Qed.

(** Breaking a title into lines loses no word: each [create_text_overlay]
    draws either the uppercased title on one line, or two lines that hold
    the first [len(words) // 2] words and the remaining words, so that the
    words of the lines, read in order, are the words of the uppercased
    title. *)
Theorem title_lines_keep_every_word
    (v : TextOverlay) (w : World) (width : Z) (title : string) :
  let words := split (upper title) in
  let lines := title_lines_of v w width title in
  (lines = [upper title]
   \/ exists first second : string,
        lines = [first; second]
        /\ split first = take (length words / 2) words
        /\ split second = drop (length words / 2) words)
  /\ concat (map split lines) = words.
Proof.
  intros words lines.
  assert (Hcases : lines = [upper title]
                   \/ exists first second : string,
                        lines = [first; second]
                        /\ split first = take (length words / 2) words
                        /\ split second = drop (length words / 2) words).
  { subst lines.
    destruct v; simpl;
      unfold Lightweight.title_lines, Lora.title_lines, Fresh.title_lines,
        EnhancedFallback.title_lines, UniLightweight.title_lines, CpuLora.title_lines;
      cbv zeta;
      match goal with
      | |- context [if ?b then _ else _] => destruct b
      end;
      first [ by left | right; apply split_at_mid_word_words, split_words ]. }
  split; [exact Hcases |].
  destruct Hcases as [-> | (first & second & -> & H1 & H2)]; simpl.
  - by rewrite app_nil_r.
  - rewrite H1, H2, app_nil_r. apply take_drop.
Qed.

Lemma split_nonempty_title (title : string) :
  split (upper title) <> [] -> truthy title = true.
Proof. destruct title; [intros H; by destruct H | reflexivity]. Qed.



(** ** Requests with an empty title *)

Lemma parse5_fields (schema : list Field) (body : gmap string JValue)
    (r : GenerationRequest5) :
  parse5 schema body = Some r ->
  exists m : gmap string JValue,
    validate schema body = Some m
    /\ get_str m "title" = Some (title5 r)
    /\ get_str m "subtitle" = Some (subtitle5 r)
    /\ get_str m "client" = Some (client5 r)
    /\ get_optional_str m "style" = Some (style5 r)
    /\ get_bool m "use_trained_lora" = Some (use_trained_lora5 r).
Proof.
  unfold parse5. intros H.
  destruct (validate schema body) as [m |]; [| discriminate].
  exists m. split; [reflexivity |].
  cbv [base.mbind option_bind] in H.
  repeat (destruct_match; simplify_eq). by repeat split.
Qed.

Lemma parse4_fields (schema : list Field) (body : gmap string JValue)
    (r : GenerationRequest4) :
  parse4 schema body = Some r ->
  exists m : gmap string JValue,
    validate schema body = Some m
    /\ get_str m "title" = Some (title4 r)
    /\ get_str m "subtitle" = Some (subtitle4 r)
    /\ get_str m "client" = Some (client4 r)
    /\ get_optional_str m "style" = Some (style4 r).
Proof.
  unfold parse4. intros H.
  destruct (validate schema body) as [m |]; [| discriminate].
  exists m. split; [reflexivity |].
  cbv [base.mbind option_bind] in H.
  repeat (destruct_match; simplify_eq). by repeat split.
Qed.

(** What validation leaves under a key of the model. *)
Lemma validate_lookup (schema : list Field) (body m : gmap string JValue) (k : string) :
  validate schema body = Some m ->
  NoDup (map f_name schema) ->
  forall f : Field, f ∈ schema -> f_name f = k ->
  exists v : JValue, field_value body f = Some v /\ m !! k = Some v.
Proof.
  revert m. induction schema as [| g schema IH]; intros m Hv Hnd f Hin Hk.
  - by apply elem_of_nil in Hin.
  - simpl in Hv. destruct (field_value body g) as [v |] eqn:Hg; [| discriminate].
    destruct (validate schema body) as [m' |] eqn:Hm; [| discriminate].
    injection Hv as <-. simpl in Hnd. apply NoDup_cons in Hnd as [Hnotin Hnd].
    apply elem_of_cons in Hin as [-> | Hin].
    + exists v. split; [exact Hg |]. subst k. by rewrite lookup_insert_eq.
    + destruct (IH m' eq_refl Hnd f Hin Hk) as (v' & Hf & Hl).
      exists v'. split; [exact Hf |]. rewrite lookup_insert_ne; [exact Hl |].
      intros Heq. apply Hnotin. rewrite Heq, <- Hk.
      by apply (list_elem_of_fmap_2 f_name).
Qed.

(** A cover is only returned after the text overlay was drawn. *)
Ltac overlay_was_drawn H :=
  first [ apply mtry_default_inv in H as [H | [? _]]; [| discriminate]
        | apply mtry_reraise_inv in H ];
  minv H;
  repeat match goal with
         | Hov : bind ?m _ = Ret _ |- _ =>
             unfold bind in Hov; destruct m eqn:?; [| discriminate]
         end;
  by eauto.

Lemma Lightweight_cover_has_overlay w t s c y st img st' :
  Lightweight.generate_cover w t s c y st = (Ret (Some img), st') ->
  exists ops, Lightweight.overlay_ops w 1800 900 t s = Ret ops.
Proof.
  unfold Lightweight.generate_cover, Lightweight.create_text_overlay. intros H.
  overlay_was_drawn H.
Qed.

Lemma Lora_cover_has_overlay w t s c y st img st' :
  Lora.generate_cover w t s c y st = (Ret (Some img), st') ->
  exists ops, Lora.overlay_ops w 1800 900 t s = Ret ops.
Proof.
  unfold Lora.generate_cover, Lora.create_text_overlay. intros H.
  overlay_was_drawn H.
Qed.

Lemma Fresh_cover_has_overlay w t s c y u st img m st' :
  Fresh.generate_cover w t s c y u st = (Ret (Some img, m), st') ->
  exists ops, Fresh.overlay_ops w 1800 900 t s = Ret ops.
Proof.
  intros H. apply Fresh_cover_order in H as (bg & ops & _ & H & _). by eauto.
Qed.

Lemma Enhanced_cover_has_overlay w t s c y u st img m st' :
  EnhancedFallback.generate_cover w t s c y u st = (Ret (Some img, m), st') ->
  exists ops, EnhancedFallback.overlay_ops w 1800 900 t s = Ret ops.
Proof.
  intros H. apply Enhanced_cover_order in H as (bg & ops & _ & H & _). by eauto.
Qed.

Lemma ForceVisible_cover_has_overlay w t s c y st img st' :
  ForceVisible.generate_cover w t s c y st = (Ret (Some img), st') ->
  exists ops, ForceVisible.overlay_ops w 1800 900 t s = Ret ops.
Proof.
  unfold ForceVisible.generate_cover, ForceVisible.create_massive_text_overlay. intros H.
  overlay_was_drawn H.
Qed.

Lemma UniLightweight_cover_has_overlay w t s c y st img m st' :
  UniLightweight.generate_cover w t s c y st = (Ret (Some img, m), st') ->
  exists ops, UniLightweight.overlay_ops w 1800 900 t s = Ret ops.
Proof.
  unfold UniLightweight.generate_cover, UniLightweight.create_text_overlay. intros H.
  overlay_was_drawn H.
Qed.

Lemma CpuLora_cover_has_overlay w t s c y st img m st' :
  CpuLora.generate_cover w t s c y st = (Ret (img, m), st') ->
  exists ops, CpuLora.overlay_ops w 1800 900 t s = Ret ops.
Proof.
  unfold CpuLora.generate_cover, CpuLora.create_text_overlay. intros H.
  overlay_was_drawn H.
Qed.

Lemma LoraOnly_cover_has_overlay w t s c y st img m st' :
  LoraOnly.generate_cover w t s c y st = (Ret (img, m), st') ->
  exists ops, LoraOnly.overlay_ops w 1800 900 t s = Ret ops.
Proof.
  unfold LoraOnly.generate_cover, LoraOnly.create_enhanced_text_overlay. intros H.
  overlay_was_drawn H.
Qed.


Lemma empty_title_fields (schema : list Field) (body m : gmap string JValue) :
  validate schema body = Some m ->
  NoDup (map f_name schema) ->
  title_field ∈ schema -> subtitle_field ∈ schema ->
  body !! "title" = Some (JStr "") ->
  (body !! "subtitle" = None
   \/ exists s : string, s <> "" /\ body !! "subtitle" = Some (JStr s)) ->
  get_str m "title" = Some ""
  /\ exists s : string, get_str m "subtitle" = Some s /\ truthy s = true.
Proof.
  intros Hv Hnd Ht Hs Htitle Hsub.
  destruct (validate_lookup _ _ _ "title" Hv Hnd _ Ht eq_refl) as (v1 & Hf1 & Hl1).
  destruct (validate_lookup _ _ _ "subtitle" Hv Hnd _ Hs eq_refl) as (v2 & Hf2 & Hl2).
  unfold field_value in Hf1, Hf2. simpl in Hf1, Hf2. rewrite Htitle in Hf1.
  simpl in Hf1. injection Hf1 as <-.
  unfold get_str. rewrite Hl1, Hl2. split; [reflexivity |].
  destruct Hsub as [Hnone | (s & Hne & Hsome)].
  - rewrite Hnone in Hf2. injection Hf2 as <-. by eexists.
  - rewrite Hsome in Hf2. simpl in Hf2. injection Hf2 as <-.
    exists s. split; [reflexivity |]. by apply truthy_nonempty.
Qed.

Lemma empty_title_request5 (schema : list Field) (body : gmap string JValue)
    (r : GenerationRequest5) :
  parse5 schema body = Some r ->
  NoDup (map f_name schema) ->
  title_field ∈ schema -> subtitle_field ∈ schema ->
  body !! "title" = Some (JStr "") ->
  (body !! "subtitle" = None
   \/ exists s : string, s <> "" /\ body !! "subtitle" = Some (JStr s)) ->
  title5 r = "" /\ truthy (subtitle5 r) = true.
Proof.
  intros Hp Hnd Ht Hs Htitle Hsub.
  apply parse5_fields in Hp as (m & Hval & Ht5 & Hs5 & _).
  destruct (empty_title_fields schema body m Hval Hnd Ht Hs Htitle Hsub)
    as (Ht' & s & Hs' & Htruthy).
  split; congruence.
Qed.

Lemma empty_title_request4 (schema : list Field) (body : gmap string JValue)
    (r : GenerationRequest4) :
  parse4 schema body = Some r ->
  NoDup (map f_name schema) ->
  title_field ∈ schema -> subtitle_field ∈ schema ->
  body !! "title" = Some (JStr "") ->
  (body !! "subtitle" = None
   \/ exists s : string, s <> "" /\ body !! "subtitle" = Some (JStr s)) ->
  title4 r = "" /\ truthy (subtitle4 r) = true.
Proof.
  intros Hp Hnd Ht Hs Htitle Hsub.
  apply parse4_fields in Hp as (m & Hval & Ht4 & Hs4 & _).
  destruct (empty_title_fields schema body m Hval Hnd Ht Hs Htitle Hsub)
    as (Ht' & s & Hs' & Htruthy).
  split; congruence.
Qed.

Ltac schema_facts :=
  first [ apply (bool_decide_unpack _); vm_compute; exact I
        | apply list_elem_of_In; simpl; tauto ].

Ltac no_overlay_for_empty_title H :=
  cbv [Lightweight.overlay_ops Lora.overlay_ops Fresh.overlay_ops
       EnhancedFallback.overlay_ops ForceVisible.overlay_ops UniLightweight.overlay_ops
       CpuLora.overlay_ops LoraOnly.overlay_ops truthy bound_title_lines bind] in H;
  match type of H with
  | context [match ?s with EmptyString => _ | String _ _ => _ end] =>
      destruct s; [discriminate | discriminate H]
  end.

(** A request with an empty title and a subtitle that is left to its
    default or is not empty never gets a cover: the subtitle is placed
    below [title_lines], which only a non-empty title binds, so the overlay
    raises and the request ends in HTTP 500 (or in a validation error when
    another field is ill-typed). *)
Theorem empty_title_with_subtitle_is_a_500
    (v : Variant) (w : World) (body : gmap string JValue) (st : State) :
  composes_cover v = true ->
  body !! "title" = Some (JStr "") ->
  (body !! "subtitle" = None
   \/ exists s : string, s <> "" /\ body !! "subtitle" = Some (JStr s)) ->
  match fst (post_generate v w body st) with
  | http_ok _ => False
  | http_error status _ => status = 500
  | http_validation_error => True
  | http_not_found => False
  end.
Proof.
  intros Hv Htitle Hsub.
  destruct v; try discriminate Hv; clear Hv; unfold post_generate, serve.
  all: match goal with
       | |- context [parse5 ?schema ?b] =>
           destruct (parse5 schema b) as [r |] eqn:Hp; [| exact I];
           destruct (empty_title_request5 schema b r Hp) as [Ht Hs];
           [schema_facts | schema_facts | schema_facts | exact Htitle | exact Hsub |];
           destruct r as [t0 s0 c0 y0 u0]
       | |- context [parse4 ?schema ?b] =>
           destruct (parse4 schema b) as [r |] eqn:Hp; [| exact I];
           destruct (empty_title_request4 schema b r Hp) as [Ht Hs];
           [schema_facts | schema_facts | schema_facts | exact Htitle | exact Hsub |];
           destruct r as [t0 s0 c0 y0]
       end.
  all: simpl in Ht, Hs; subst; clear Hp.
  all: handler_unfold; crunch; cbn; try done.
  all: exfalso.
  all: cbn [title5 subtitle5 client5 style5 use_trained_lora5
            title4 subtitle4 client4 style4] in *.
  all: match goal with
       | H : Lightweight.generate_cover _ _ _ _ _ _ = _ |- _ =>
           apply Lightweight_cover_has_overlay in H as [ops Hov]
       | H : Lora.generate_cover _ _ _ _ _ _ = _ |- _ =>
           apply Lora_cover_has_overlay in H as [ops Hov]
       | H : Fresh.generate_cover _ _ _ _ _ _ _ = _ |- _ =>
           apply Fresh_cover_has_overlay in H as [ops Hov]
       | H : EnhancedFallback.generate_cover _ _ _ _ _ _ _ = _ |- _ =>
           apply Enhanced_cover_has_overlay in H as [ops Hov]
       | H : ForceVisible.generate_cover _ _ _ _ _ _ = _ |- _ =>
           apply ForceVisible_cover_has_overlay in H as [ops Hov]
       | H : UniLightweight.generate_cover _ _ _ _ _ _ = _ |- _ =>
           apply UniLightweight_cover_has_overlay in H as [ops Hov]
       | H : CpuLora.generate_cover _ _ _ _ _ _ = _ |- _ =>
           apply CpuLora_cover_has_overlay in H as [ops Hov]
       | H : LoraOnly.generate_cover _ _ _ _ _ _ = _ |- _ =>
           apply LoraOnly_cover_has_overlay in H as [ops Hov]
       end.
  all: no_overlay_for_empty_title Hov.
Qed.

Lemma empty_title_with_subtitle_is_a_500_witness :
  composes_cover FRESH_SDXL_app = true
  /\ title_only "" !! "title" = Some (JStr "")
  /\ title_only "" !! "subtitle" = None
  /\ match fst (post_generate FRESH_SDXL_app quiet_world (title_only "") start) with
     | http_ok _ => False
     | http_error status _ => status = 500
     | http_validation_error => True
     | http_not_found => False
     end.
Proof.
  assert (Ht : title_only "" !! "title" = Some (JStr "")) by reflexivity.
  assert (Hs : title_only "" !! "subtitle" = None) by reflexivity.
  split; [reflexivity |]. split; [exact Ht |]. split; [exact Hs |].
  exact (empty_title_with_subtitle_is_a_500 FRESH_SDXL_app quiet_world (title_only "")
           start eq_refl Ht (or_introl Hs)).
Defined.

(** ** Vertical layout on the 1800x900 canvas *)

Lemma title_lines_shape (v : TextOverlay) (w : World) (width : Z) (title : string) :
  (exists l, title_lines_of v w width title = [l])
  \/ (exists l1 l2, title_lines_of v w width title = [l1; l2]).
Proof.
  destruct (title_lines_keep_every_word v w width title) as [[H | (a & b & H & _)] _].
  - left. by eexists.
  - right. by eexists _, _.
Qed.

Ltac on_canvas Hop Hy :=
  unfold Lightweight.title_ops, Lightweight.subtitle_ops,
    Lora.title_ops, Lora.subtitle_ops in Hop;
  cbn in Hop;
  repeat (apply elem_of_cons in Hop as [-> | Hop];
          [cbn in Hy;
           repeat (apply elem_of_cons in Hy as [-> | Hy];
                   [split; vm_compute; done |]);
           by apply elem_of_nil in Hy |]);
  by apply elem_of_nil in Hop.

(** On the 900 pixel high canvas of [generate_cover], every vertical
    coordinate that the overlays of app_lightweight and app_lora pass to a
    drawing call (text anchors, top and bottom of the subtitle box) lies
    within the canvas, whatever the title, the subtitle and the fonts. *)
Theorem overlay_stays_on_canvas
    (v : TextOverlay) (w : World) (width : Z) (title subtitle : string)
    (ops : list DrawOp) :
  splits_by_width v = true ->
  overlay_ops_of v w width 900 title subtitle = Ret ops ->
  forall (op : DrawOp) (y : Z), op ∈ ops -> y ∈ op_ys op -> 0 <= y < 900.
Proof.
  intros Hv Hops op y Hop Hy.
  destruct v; try discriminate Hv; clear Hv.
  - pose proof (title_lines_shape overlay_lightweight w width title) as Hshape.
    cbn [title_lines_of] in Hshape.
    cbn [overlay_ops_of] in Hops. unfold Lightweight.overlay_ops in Hops.
    cbv zeta in Hops.
    destruct (truthy title); destruct (truthy subtitle);
      cbv [bound_title_lines bind] in Hops; simplify_eq;
      try (by apply elem_of_nil in Hop);
      destruct Hshape as [[l Hl] | (l1 & l2 & Hl)]; rewrite ?Hl in Hop;
      on_canvas Hop Hy.
  - pose proof (title_lines_shape overlay_lora w width title) as Hshape.
    cbn [title_lines_of] in Hshape.
    cbn [overlay_ops_of] in Hops. unfold Lora.overlay_ops in Hops.
    cbv zeta in Hops.
    destruct (truthy title); destruct (truthy subtitle);
      cbv [bound_title_lines bind] in Hops; simplify_eq;
      try (by apply elem_of_nil in Hop);
      destruct Hshape as [[l Hl] | (l1 & l2 & Hl)]; rewrite ?Hl in Hop;
      on_canvas Hop Hy.
Qed.

Lemma overlay_stays_on_canvas_witness :
  splits_by_width overlay_lightweight = true
  /\ exists ops : list DrawOp,
       overlay_ops_of overlay_lightweight quiet_world 1800 900
         "hedera hits record" "CRYPTO NEWS" = Ret ops
       /\ length ops = 7%nat
       /\ forall (op : DrawOp) (y : Z), op ∈ ops -> y ∈ op_ys op -> 0 <= y < 900.
Proof.
  split; [reflexivity |].
  eexists. split; [reflexivity |]. split; [reflexivity |].
  exact (overlay_stays_on_canvas overlay_lightweight quiet_world 1800
           "hedera hits record" "CRYPTO NEWS" _ eq_refl eq_refl).
Defined.

Lemma long_title_is_truthy (title : string) (n : nat) :
  (n < length (split (upper title)))%nat -> truthy title = true.
Proof.
  intros H. apply split_nonempty_title. intros Heq. rewrite Heq in H. simpl in H. lia.
Qed.

(** In FRESH and in app_enhanced_fallback a title that is broken into two
    lines pushes the subtitle off the canvas: on the 900 pixel high image
    the subtitle is anchored at y = 805 (FRESH) or 825
    (app_enhanced_fallback) and its box reaches down to y = 925 or 950. *)
Theorem two_line_title_pushes_subtitle_off_canvas
    (w : World) (width : Z) (title subtitle : string) :
  subtitle <> "" ->
  let x := centered_x w width font_subtitle subtitle in
  let text_width := text_width w font_subtitle subtitle in
  ((3 < length (split (upper title)))%nat ->
   exists ops : list DrawOp,
     Fresh.overlay_ops w width 900 title subtitle = Ret ops
     /\ draw_rounded_rectangle [x - 40; 785; x + text_width + 40; 925] 20
          (Some (black 180)) None 1 ∈ ops
     /\ draw_text (x, 805) subtitle white font_subtitle ∈ ops)
  /\ ((4 < length (split (upper title)))%nat ->
      exists ops : list DrawOp,
        EnhancedFallback.overlay_ops w width 900 title subtitle = Ret ops
        /\ draw_rounded_rectangle [x - 50; 800; x + text_width + 50; 950] 25
             (Some (black 180)) None 1 ∈ ops
        /\ draw_text (x, 825) subtitle white font_subtitle ∈ ops).
Proof.
  intros Hsub x tw.
  apply truthy_nonempty in Hsub.
  split; intros Hlong.
  - pose proof (long_title_is_truthy title 3 Hlong) as Htitle.
    unfold Fresh.overlay_ops. cbv zeta. rewrite Htitle, Hsub.
    unfold Fresh.title_lines. cbv zeta.
    replace (3 <? length (split (upper title)))%nat with true
      by (symmetry; by apply Nat.ltb_lt).
    cbv [bound_title_lines bind split_at_mid_word length].
    eexists. split; [reflexivity |].
    unfold Fresh.subtitle_ops. cbv zeta.
    change (900 / 4 + Z.of_nat 2 * 250 + 80) with 805.
    change (805 - 20) with 785. change (805 + 120) with 925.
    split; apply elem_of_app; right.
    + apply list_elem_of_here.
    + do 2 apply list_elem_of_further. apply list_elem_of_here.
  - pose proof (long_title_is_truthy title 4 Hlong) as Htitle.
    unfold EnhancedFallback.overlay_ops. cbv zeta. rewrite Htitle, Hsub.
    unfold EnhancedFallback.title_lines. cbv zeta.
    replace (4 <? length (split (upper title)))%nat with true
      by (symmetry; by apply Nat.ltb_lt).
    cbv [bound_title_lines bind split_at_mid_word length].
    eexists. split; [reflexivity |].
    unfold EnhancedFallback.subtitle_ops. cbv zeta.
    change (900 / 4 + Z.of_nat 2 * 250 + 100) with 825.
    change (825 - 25) with 800. change (825 + 125) with 950.
    split; apply elem_of_app; right.
    + apply list_elem_of_here.
    + do 3 apply list_elem_of_further. apply list_elem_of_here.
Qed.

Lemma two_line_title_pushes_subtitle_off_canvas_witness :
  "CRYPTO NEWS" <> ""
  /\ (3 < length (split (upper "bitcoin climbs to record")))%nat
  /\ exists ops : list DrawOp,
       Fresh.overlay_ops quiet_world 1800 900 "bitcoin climbs to record"
         "CRYPTO NEWS" = Ret ops
       /\ draw_rounded_rectangle [845 - 40; 785; 845 + 110 + 40; 925] 20
            (Some (black 180)) None 1 ∈ ops
       /\ draw_text (845, 805) "CRYPTO NEWS" white font_subtitle ∈ ops.
Proof.
  assert (Hs : "CRYPTO NEWS" <> "") by discriminate.
  assert (Hl : (3 < length (split (upper "bitcoin climbs to record")))%nat)
    by (vm_compute; lia).
  split; [exact Hs |]. split; [exact Hl |].
  exact (proj1 (two_line_title_pushes_subtitle_off_canvas quiet_world 1800
                  "bitcoin climbs to record" "CRYPTO NEWS" Hs) Hl).
Defined.

(** ** Switching LoRA weights in FRESH *)

(** [load_lora_weights] never raises.  It returns [True] exactly when a
    pipeline is loaded, an entry is available for the pair (or, failing
    that, the universal entry), the previous weights (if any) unload and
    the new ones load; the calls made are the unload, when a LoRA was
    current, and then the load of the chosen file, and [current_lora]
    becomes the chosen key.  When it returns [False], [current_lora] keeps
    its old value, also when the old weights were already unloaded. *)
Theorem Fresh_load_lora_weights_switches
    (w : World) (client style : string) (st : State) :
  exists (loaded : bool) (st' : State),
    Fresh.load_lora_weights w client style st = (Ret loaded, st')
    /\ same_setup (gen st') (gen st)
    /\ (loaded = true <->
        pipeline (gen st) = true
        /\ exists key path : string,
             Fresh_lora_choice (gen st) client style key path
             /\ (has_current_lora (gen st) = true ->
                 pipeline_unload_lora_weights w = Ret tt)
             /\ pipeline_load_lora_weights w path = Ret tt)
    /\ (loaded = true ->
        exists key path : string,
          Fresh_lora_choice (gen st) client style key path
          /\ current_lora (gen st') = Some key
          /\ log st' = (log st
                        ++ (if has_current_lora (gen st) then [ev_unload_lora] else [])
                        ++ [ev_load_lora path])%list)
    /\ (loaded = false -> current_lora (gen st') = current_lora (gen st)).
Proof.
  destruct st as [[wm pl la cl ula] lg].
  unfold Fresh.load_lora_weights, Fresh.switch_lora, Fresh_lora_choice, has_current_lora,
    same_setup.
  monad_unfold.
  cbn [gen log pipeline lora_available current_lora watermark universal_lora_available].
  destruct pl; cbn [negb];
    [destruct (la !! Fresh.lora_key client style) as [p1 |] eqn:H1;
     [| destruct (la !! "universal") as [p2 |] eqn:H2] |].
  all: try (destruct cl as [k |]; [destruct (truthy k) eqn:Hk |]).
  all: try (destruct (pipeline_unload_lora_weights w) as [[] | e1] eqn:Hu).
  all: try (destruct (pipeline_load_lora_weights w p1) as [[] | e2] eqn:Hl).
  all: try (destruct (pipeline_load_lora_weights w p2) as [[] | e2] eqn:Hl).
  all: cbn; rewrite ?Hk; cbn; rewrite ?Hu, ?Hl; cbn.
  all: eexists _, _; (split; [reflexivity |]); (split; [done |]).
  all: cbn [gen log current_lora].
  all: split; [split; [first [discriminate | intros _] | first [done | idtac]] |].
  all: try (split; [first [discriminate | intros _] | first [discriminate | done]]).
  all: try match goal with
           | |- _ -> false = true =>
               intros [Hp (key & path & Hch & Hun & Hload)];
               try discriminate Hp;
               try (specialize (Hun eq_refl); discriminate Hun);
               destruct Hch as [[-> Hk'] | (Hn & -> & Hk')]; congruence
           end.
  all: try (split; [done |]).
  all: eexists _, _;
    (split; [first [ left; split; [reflexivity | eassumption]
                   | right; repeat split; reflexivity ] |]).
  all: first [ split; [done | assumption]
             | split; [reflexivity |]; rewrite <- ?app_assoc; reflexivity ].
Qed.

(** ** The generation method FRESH reports *)




(** ** The LoRA files FRESH finds at start-up *)

(** [check_available_loras] finds exactly the files that exist: for each of
    the twelve client and style pairs, the key [<client>_<style>] is
    recorded with its path when [models/lora] and the file exist, and is
    absent otherwise; likewise for the key "universal".  Without the
    directory nothing is recorded. *)
Theorem Fresh_check_available_loras_finds (w : World) :
  (forall client style : string,
     client ∈ Fresh.clients -> style ∈ Fresh.styles ->
     Fresh.check_available_loras w !! Fresh.lora_key client style
     = if path_exists w "models/lora" && path_exists w (Fresh.lora_path client style)
       then Some (Fresh.lora_path client style)
       else None)
  /\ Fresh.check_available_loras w !! "universal"
     = (if path_exists w "models/lora"
           && path_exists w "models/lora/crypto_cover_styles_lora.safetensors"
        then Some "models/lora/crypto_cover_styles_lora.safetensors"
        else None)
  /\ (path_exists w "models/lora" = false -> Fresh.check_available_loras w = ∅).
Proof.
  unfold Fresh.check_available_loras. rewrite Fresh_specific_loras.
  change Fresh.lora_dir with "models/lora".
  change Fresh.universal_lora with "models/lora/crypto_cover_styles_lora.safetensors".
  split; [| split].
  - intros client style Hc Hs.
    destruct (Fresh_candidate_in client style Hc Hs) as [Hin Hne].
    destruct (path_exists w "models/lora"); cbn [negb andb]; [| apply lookup_empty].
    destruct (path_exists w "models/lora/crypto_cover_styles_lora.safetensors");
      rewrite ?lookup_insert_ne by (intros Heq; by apply Hne);
      rewrite (foldl_insert_found _ (fun x => path_exists w (snd x)) ∅ _
                 Fresh_candidates_NoDup Hin);
      cbn [fst snd]; by rewrite lookup_empty.
  - destruct (path_exists w "models/lora"); cbn [negb andb]; [| apply lookup_empty].
    destruct (path_exists w "models/lora/crypto_cover_styles_lora.safetensors").
    + apply lookup_insert_eq.
    + rewrite foldl_insert_other; [apply lookup_empty |].
      apply Fresh_universal_not_candidate.
  - by intros ->.
Qed.

(** ** Requests that do not touch the pipeline *)

Lemma declined_lora (schema : list Field) (body : gmap string JValue)
    (r : GenerationRequest5) :
  parse5 schema body = Some r ->
  NoDup (map f_name schema) ->
  use_trained_lora_field ∈ schema ->
  body !! "use_trained_lora" = Some (JBool false) ->
  use_trained_lora5 r = false.
Proof.
  intros Hp Hnd Hf Hbody.
  apply parse5_fields in Hp as (m & Hval & _ & _ & _ & _ & Hu).
  destruct (validate_lookup _ _ _ "use_trained_lora" Hval Hnd _ Hf eq_refl)
    as (v & Hv & Hl).
  unfold field_value in Hv. simpl in Hv. rewrite Hbody in Hv. simpl in Hv.
  injection Hv as <-. unfold get_bool in Hu. rewrite Hl in Hu. congruence.
Qed.

Ltac cover_unfold :=
  cbv [Lightweight.generate_cover ForceVisible.generate_cover
       UniLightweight.generate_cover Fresh.generate_cover EnhancedFallback.generate_cover
       Fresh.cover_background EnhancedFallback.cover_background
       Fresh.lora_enabled EnhancedFallback.lora_enabled andb
       mtry mbind lift mraise mret get_self fst snd] in *.

(** The applications that draw their backgrounds themselves, and FRESH and
    app_enhanced_fallback when the request declines the LoRA, serve
    [POST /generate] without a call to the pipeline, to a LoRA file or to a
    subprocess, and leave the generator as it was, whatever the outcome. *)
Theorem declined_lora_leaves_generator_alone
    (v : Variant) (w : World) (body : gmap string JValue) (st : State) :
  never_calls_pipeline v = true
  \/ (lora_is_optional v = true /\ body !! "use_trained_lora" = Some (JBool false)) ->
  snd (post_generate v w body st) = st.
Proof.
  intros [Hv | [Hv Hu]]; destruct v; try discriminate Hv; clear Hv;
    unfold post_generate, serve.
  all: match goal with
       | |- context [parse5 ?schema ?b] =>
           destruct (parse5 schema b) as [r |] eqn:Hp; [| reflexivity];
           try (assert (Hd : use_trained_lora5 r = false)
                  by (apply (declined_lora schema b r Hp);
                      [schema_facts | schema_facts | exact Hu]);
                destruct r as [t0 s0 c0 y0 u0]; simpl in Hd; subst u0)
       | |- context [parse4 ?schema ?b] =>
           destruct (parse4 schema b) as [r |] eqn:Hp; [| reflexivity]
       end.
  all: clear Hp.
  all: handler_unfold; cover_unfold; crunch; reflexivity.
Qed.

Lemma declined_lora_leaves_generator_alone_witness :
  lora_is_optional FRESH_SDXL_app = true
  /\ <["use_trained_lora" := JBool false]> (title_only "Bitcoin rallies")
       !! "use_trained_lora" = Some (JBool false)
  /\ snd (post_generate FRESH_SDXL_app quiet_world
            (<["use_trained_lora" := JBool false]> (title_only "Bitcoin rallies"))
            with_universal_lora)
     = with_universal_lora.
Proof.
  assert (Hu : <["use_trained_lora" := JBool false]> (title_only "Bitcoin rallies")
                 !! "use_trained_lora" = Some (JBool false)) by reflexivity.
  split; [reflexivity |]. split; [exact Hu |].
  apply declined_lora_leaves_generator_alone. right. by split.
Defined.

(** ** Start-up and generation method of app_enhanced_fallback *)

(** After [__init__], [universal_lora_available] and the pipeline stand or
    fall together: both are set exactly when the base model loads and the
    weights at models/lora/crypto_cover_styles_lora.safetensors exist and
    load.  A LoRA file that only exists at one of the two other places
    [check_universal_lora] looks at is found, but both flags end up
    unset. *)
Theorem Enhanced_init_flags_agree (w : World) :
  universal_lora_available (EnhancedFallback.init w) = pipeline (EnhancedFallback.init w)
  /\ (pipeline (EnhancedFallback.init w) = true
      <-> from_pretrained w "stabilityai/stable-diffusion-xl-base-1.0" = Ret tt
          /\ path_exists w "models/lora/crypto_cover_styles_lora.safetensors" = true
          /\ pipeline_load_lora_weights w "models/lora/crypto_cover_styles_lora.safetensors"
             = Ret tt)
  /\ (path_exists w "models/lora/crypto_cover_styles_lora.safetensors" = false ->
      EnhancedFallback.check_universal_lora w
      = path_exists w "models/lora/universal/crypto_cover_universal_lora.pt"
        || path_exists w "crypto_cover_styles_lora.safetensors"
      /\ pipeline (EnhancedFallback.init w) = false
      /\ universal_lora_available (EnhancedFallback.init w) = false).
Proof.
  unfold EnhancedFallback.init, EnhancedFallback.try_load_lora_pipeline,
    EnhancedFallback.check_universal_lora, EnhancedFallback.lora_paths,
    EnhancedFallback.lora_path.
  cbn [pipeline universal_lora_available existsb].
  destruct (path_exists w "models/lora/crypto_cover_styles_lora.safetensors") eqn:H1;
    cbn [orb negb].
  - destruct (from_pretrained w "stabilityai/stable-diffusion-xl-base-1.0") as [[] |];
      [destruct (pipeline_load_lora_weights w
                   "models/lora/crypto_cover_styles_lora.safetensors") as [[] |] |];
      (split; [reflexivity |]); (split; [| discriminate]);
      split; first [done | by intros (? & ? & ?)].
  - rewrite orb_false_r.
    destruct (path_exists w "models/lora/universal/crypto_cover_universal_lora.pt"
              || path_exists w "crypto_cover_styles_lora.safetensors"); cbn [negb];
      [destruct (from_pretrained w "stabilityai/stable-diffusion-xl-base-1.0") as [[] |] |];
      (split; [reflexivity |]); (split; [| done]);
      split; first [discriminate | by intros (? & ? & ?)].
Qed.

(** In app_enhanced_fallback the generation method names the generator of
    the background: "universal_lora" when the pipeline returned the image
    under the text (resized to 1800x900), "enhanced_fallback" when the
    procedural generator drew it. *)
Theorem Enhanced_method_names_the_background
    (w : World) (title subtitle client style : string) (use_trained_lora : bool)
    (st st' : State) (img : Image) (method : string) :
  EnhancedFallback.generate_cover w title subtitle client style use_trained_lora st
  = (Ret (Some img, method), st') ->
  exists (bg : Image) (ops : list DrawOp),
    EnhancedFallback.overlay_ops w 1800 900 title subtitle = Ret ops
    /\ im_pixels img = composed (gen st') bg ops
    /\ ((method = "universal_lora"
         /\ use_trained_lora = true /\ pipeline (gen st) = true
         /\ exists from_pipeline : Image,
              pipeline_call w (EnhancedFallback.prompt_for client style) 1024 512
              = Ret from_pipeline
              /\ bg = resize 1800 900 from_pipeline)
        \/ (method = "enhanced_fallback"
            /\ EnhancedFallback.generate_enhanced_fallback 1800 900 client style = Ret bg)).
Proof.
  intros H. apply Enhanced_cover_order in H as (bg & ops & Hbg & Hops & Hpx).
  exists bg, ops. split; [exact Hops |]. split; [exact Hpx |].
  unfold EnhancedFallback.cover_background, mbind at 1 2, get_self in Hbg.
  destruct (EnhancedFallback.lora_enabled (gen st) use_trained_lora) eqn:Hen.
  - apply Enhanced_lora_enabled_spec in Hen as [-> Hp].
    unfold EnhancedFallback.generate_with_universal_lora, mbind at 1, get_self in Hbg.
    rewrite Hp in Hbg. cbn [negb] in Hbg.
    unfold mtry, mbind, call, mret, lift in Hbg.
    destruct (pipeline_call w (EnhancedFallback.prompt_for client style) 1024 512)
      as [from_pipeline | e] eqn:Hcall.
    + injection Hbg as <- <- _. left. repeat split; try done. by exists from_pipeline.
    + destruct (EnhancedFallback.generate_enhanced_fallback 1800 900 client style)
        as [fb | e'] eqn:Hfb; [| discriminate].
      injection Hbg as <- <- _. right. by split.
  - unfold mret, mbind, lift in Hbg.
    destruct (EnhancedFallback.generate_enhanced_fallback 1800 900 client style)
      as [fb | e'] eqn:Hfb; [| discriminate].
    injection Hbg as <- <- _. right. by split.
Qed.

Lemma Enhanced_method_names_the_background_witness :
  exists (img : Image) (st' : State),
    EnhancedFallback.generate_cover quiet_world "Bitcoin rallies" "CRYPTO NEWS"
      "bitcoin" "dark_theme" true loaded = (Ret (Some img, "universal_lora"), st')
    /\ exists (bg : Image) (ops : list DrawOp),
         EnhancedFallback.overlay_ops quiet_world 1800 900 "Bitcoin rallies" "CRYPTO NEWS"
         = Ret ops
         /\ im_pixels img = composed (gen st') bg ops
         /\ bg = resize 1800 900 (mkImage 1024 512 RGB (px_external 0)).
Proof.
  eexists _, _.
  assert (Hrun : EnhancedFallback.generate_cover quiet_world "Bitcoin rallies"
                   "CRYPTO NEWS" "bitcoin" "dark_theme" true loaded
                 = (Ret (Some (mkImage 1800 900 RGB
                                 (px_composite (px_resize (px_external 0))
                                    (px_overlay
                                       (EnhancedFallback.title_ops quiet_world 1800 225
                                          ["BITCOIN RALLIES"]
                                        ++ EnhancedFallback.subtitle_ops quiet_world 1800
                                             575 "CRYPTO NEWS")))),
                         "universal_lora"),
                    mkState loaded_generator
                      [ev_pipeline (EnhancedFallback.prompt_for "bitcoin" "dark_theme")
                         1024 512]))
    by (vm_compute; reflexivity).
  split; [exact Hrun |].
  destruct (Enhanced_method_names_the_background _ _ _ _ _ _ _ _ _ _ Hrun)
    as (bg & ops & Hops & Hpx & [(_ & _ & _ & p & Hcall & ->) | [Hm _]]);
    [| discriminate Hm].
  exists (resize 1800 900 p), ops. split; [exact Hops |]. split; [exact Hpx |].
  vm_compute in Hcall. by injection Hcall as <-.
Defined.

(** ** app_lora: the prompt and the pipeline run *)

Lemma lower_upper_char (c : ascii) : lower_char (upper_char c) = lower_char c.
Proof. destruct c as [[] [] [] [] [] [] [] []]; reflexivity. Qed.

Lemma lower_upper (s : string) : lower (upper s) = lower s.
Proof.
  unfold lower, upper. induction s as [| c r IH]; simpl; [reflexivity |].
  by rewrite lower_upper_char, IH.
Qed.

Lemma Lora_default_prompt :
  exists p : string, Lora.get_enhanced_prompts "hedera" "energy_fields" = Ret p.
Proof. eexists. vm_compute. reflexivity. Qed.

Lemma Lora_prompt_total (client style : string) :
  exists p : string, Lora.get_enhanced_prompts client style = Ret p.
Proof.
  destruct Lora_default_prompt as [p0 Hp0].
  assert (Hdflt : (do h <- dict_index Lora.brand_prompts "hedera";
                   dict_index h "energy_fields") = Ret p0).
  { rewrite <- Hp0. reflexivity. }
  unfold Lora.get_enhanced_prompts.
  destruct (Lora.brand_prompts !! lower client) as [styles |];
    [destruct (styles !! style) as [p |] |]; rewrite ?Hdflt; by eexists.
Qed.

(** [get_enhanced_prompts] never raises.  The client is looked up in lower
    case, so its case does not matter; the style is looked up as it is.  A
    client outside the table, or a style the client has no prompt for,
    gets the prompt of hedera's energy_fields. *)
Theorem Lora_get_enhanced_prompts_falls_back (client style : string) :
  (exists p : string, Lora.get_enhanced_prompts client style = Ret p)
  /\ Lora.get_enhanced_prompts (upper client) style
     = Lora.get_enhanced_prompts client style
  /\ (forall (styles : gmap string string) (p : string),
        Lora.brand_prompts !! lower client = Some styles ->
        styles !! style = Some p ->
        Lora.get_enhanced_prompts client style = Ret p)
  /\ ((Lora.brand_prompts !! lower client = None
       \/ exists styles : gmap string string,
            Lora.brand_prompts !! lower client = Some styles /\ styles !! style = None) ->
      Lora.get_enhanced_prompts client style
      = Lora.get_enhanced_prompts "hedera" "energy_fields").
Proof.
  destruct Lora_default_prompt as [p0 Hp0].
  assert (Hdflt : (do h <- dict_index Lora.brand_prompts "hedera";
                   dict_index h "energy_fields") = Ret p0).
  { rewrite <- Hp0. reflexivity. }
  split; [| split; [| split]].
  - apply Lora_prompt_total.
  - unfold Lora.get_enhanced_prompts. by rewrite lower_upper.
  - intros styles p Hc Hs. unfold Lora.get_enhanced_prompts. by rewrite Hc, Hs.
  - intros [Hc | (styles & Hc & Hs)]; unfold Lora.get_enhanced_prompts at 1;
      rewrite Hc, ?Hs, Hdflt; by rewrite Hp0.
Qed.

(** In app_lora the outcome of [load_lora_model] does not decide anything:
    with or without LoRA weights, [generate_cover] goes on to run the
    pipeline once, at 1792x896, with the prompt of [get_enhanced_prompts].
    It never raises and never unloads weights: what an earlier request
    fused into the pipeline stays there. *)
Theorem Lora_runs_the_pipeline_with_or_without_lora
    (w : World) (title subtitle client style : string) (st : State) :
  pipeline (gen st) = true ->
  exists (result : option Image) (st' : State) (prompt : string),
    Lora.generate_cover w title subtitle client style st = (Ret result, st')
    /\ Lora.get_enhanced_prompts client style = Ret prompt
    /\ gen st' = gen st
    /\ log st' = (log st ++ Lora_load_calls w client
                  ++ [ev_pipeline prompt 1792 896])%list.
Proof.
  intros Hp.
  destruct (Lora_prompt_total client style) as [prompt Hprompt].
  destruct st as [[wm pl la cl ula] lg]. cbn [gen pipeline] in Hp. subst pl.
  unfold Lora.generate_cover, Lora.load_lora_model, Lora.run_pipeline, Lora.on_pipeline,
    Lora_load_calls.
  rewrite Hprompt. monad_unfold.
  destruct (path_exists w (Lora.lora_path client));
    [destruct (pipeline_load_lora_weights w (Lora.lora_path client)) as [[] |];
     [destruct (pipeline_fuse_lora w) as [[] |] |] |];
    cbn [gen log pipeline];
    destruct (pipeline_call w prompt 1792 896) as [image |];
    cbn [gen log pipeline];
    repeat match goal with
           | |- context [match ?x with Ret _ => _ | Raise _ => _ end] => destruct x
           end;
    eexists _, _, prompt; (split; [reflexivity |]); (split; [reflexivity |]);
    (split; [reflexivity |]); cbn [log]; by rewrite <- ?app_assoc, ?app_nil_r.
Qed.

Lemma Lora_runs_the_pipeline_with_or_without_lora_witness :
  pipeline (gen loaded) = true
  /\ exists (result : option Image) (st' : State) (prompt : string),
       Lora.generate_cover working_script_world "Bitcoin rallies" "CRYPTO NEWS"
         "hedera" "dark_theme" loaded = (Ret result, st')
       /\ Lora.get_enhanced_prompts "hedera" "dark_theme" = Ret prompt
       /\ gen st' = gen loaded
       /\ log st' = [ ev_load_lora "models/lora/hedera_lora.safetensors"; ev_fuse_lora;
                      ev_pipeline prompt 1792 896 ].
Proof.
  split; [reflexivity |].
  exact (Lora_runs_the_pipeline_with_or_without_lora working_script_world
           "Bitcoin rallies" "CRYPTO NEWS" "hedera" "dark_theme" loaded eq_refl).
Defined.

(** ** The dataset statistics of the training script *)

Lemma scan_items_result (w : World) (dataset_dir : string) (items : list ManifestItem)
    (styles0 clients0 : list string) (n0 : nat)
    (styles clients : list string) (n : nat) :
  scan_items w dataset_dir items styles0 clients0 n0 = Ret (styles, clients, n) ->
  styles = (styles0 ++ map style_of (filter (fun i => counted w dataset_dir i = true) items))%list
  /\ clients
     = (clients0 ++ map client_of (filter (fun i => counted w dataset_dir i = true) items))%list
  /\ n = (n0 + length (filter (fun i => counted w dataset_dir i = true) items))%nat.
Proof.
  revert styles0 clients0 n0.
  induction items as [| item rest IH]; intros styles0 clients0 n0 H.
  - simpl in H. injection H as <- <- <-. by rewrite !app_nil_r, Nat.add_0_r.
  - simpl in H. unfold bind in H.
    destruct (item_is_valid w dataset_dir item) as [valid |] eqn:Hvalid; [| discriminate].
    assert (Hc : counted w dataset_dir item = valid)
      by (unfold counted; by rewrite Hvalid).
    rewrite filter_cons. destruct valid.
    + rewrite decide_True by exact Hc.
      apply IH in H as (-> & -> & ->). cbn [map length].
      rewrite <- !app_assoc. repeat split; try reflexivity. lia.
    + rewrite decide_False by (rewrite Hc; discriminate). by apply IH in H.
Qed.

Lemma str_le_total : Total str_le.
Proof. intros a b. apply String.leb_total. Qed.

Lemma sorted_set_spec (l : list string) :
  Sorted str_le (sorted_set l)
  /\ NoDup (sorted_set l)
  /\ (forall s : string, s ∈ sorted_set l <-> s ∈ l)
  /\ (sorted_set l = [] <-> l = []).
Proof.
  unfold sorted_set.
  pose proof (merge_sort_Permutation str_le (remove_dups l)) as Hperm.
  split; [apply Sorted_merge_sort; exact str_le_total |].
  split; [rewrite Hperm; apply NoDup_remove_dups |].
  split; [intros s; rewrite Hperm; apply elem_of_remove_dups |].
  split.
  - intros Hnil. rewrite Hnil in Hperm. symmetry in Hperm.
    apply Permutation_nil_r in Hperm.
    destruct l as [| x l]; [reflexivity |].
    assert (Hx : x ∈ remove_dups (x :: l)) by (apply elem_of_remove_dups; by left).
    rewrite Hperm in Hx. by apply elem_of_nil in Hx.
  - intros ->. reflexivity.
Qed.

Lemma analyze_dataset_inv (w : World) (read_manifest : string -> Res Manifest)
    (dataset_dir : string) (dataset_stats : DatasetStats) :
  analyze_dataset w read_manifest dataset_dir = Ret (Some dataset_stats) ->
  exists (manifest : Manifest) (items : list ManifestItem),
    read_manifest (joinpath dataset_dir "training_manifest.json") = Ret manifest
    /\ images manifest = Some items
    /\ let valid := filter (fun i => counted w dataset_dir i = true) items in
       dataset_stats
       = mkStats (length valid) (sorted_set (map style_of valid))
           (sorted_set (map client_of valid)).
Proof.
  unfold analyze_dataset. cbv zeta.
  destruct (negb _); [discriminate |]. unfold bind.
  destruct (read_manifest _) as [manifest |] eqn:Hread; [| discriminate].
  destruct (images manifest) as [items |] eqn:Himages; [| discriminate].
  cbn [json_index].
  destruct (scan_items w dataset_dir items [] [] 0) as [[[ss cs] n] |] eqn:Hscan;
    [| discriminate].
  destruct (dataset_info manifest); [| discriminate].
  cbn [json_index]. intros H. injection H as <-.
  apply scan_items_result in Hscan as (-> & -> & ->).
  by exists manifest, items.
Qed.

Lemma no_sample_no_style (w : World) (read_manifest : string -> Res Manifest)
    (dataset_dir : string) (dataset_stats : DatasetStats) :
  analyze_dataset w read_manifest dataset_dir = Ret (Some dataset_stats) ->
  total_samples dataset_stats = 0%nat
  <-> styles dataset_stats = [] /\ clients dataset_stats = [].
Proof.
  intros H. apply analyze_dataset_inv in H as (manifest & items & _ & _ & ->).
  cbn [total_samples styles clients].
  destruct (sorted_set_spec (map style_of
              (filter (fun i => counted w dataset_dir i = true) items)))
    as (_ & _ & _ & Hs).
  destruct (sorted_set_spec (map client_of
              (filter (fun i => counted w dataset_dir i = true) items)))
    as (_ & _ & _ & Hc).
  rewrite Hs, Hc. destruct (filter _ items); simpl; split; try done; by intros [? ?].
Qed.

(** When [analyze_dataset] returns statistics, they describe the entries
    of the manifest whose image and caption both exist in the dataset
    directory: [total_samples] counts them, [styles] and [clients] list
    their styles and clients (with "default" and "generic" for an entry
    without the key), each once and in sorted order.  No such entry means
    empty lists. *)
Theorem analyze_dataset_statistics
    (w : World) (read_manifest : string -> Res Manifest) (dataset_dir : string)
    (dataset_stats : DatasetStats) :
  analyze_dataset w read_manifest dataset_dir = Ret (Some dataset_stats) ->
  exists (manifest : Manifest) (items : list ManifestItem),
    read_manifest (joinpath dataset_dir "training_manifest.json") = Ret manifest
    /\ images manifest = Some items
    /\ total_samples dataset_stats
       = length (filter (fun i => counted w dataset_dir i = true) items)
    /\ (forall s : string,
          s ∈ styles dataset_stats
          <-> exists i, i ∈ items /\ counted w dataset_dir i = true /\ style_of i = s)
    /\ (forall c : string,
          c ∈ clients dataset_stats
          <-> exists i, i ∈ items /\ counted w dataset_dir i = true /\ client_of i = c)
    /\ Sorted str_le (styles dataset_stats) /\ NoDup (styles dataset_stats)
    /\ Sorted str_le (clients dataset_stats) /\ NoDup (clients dataset_stats)
    /\ (total_samples dataset_stats = 0%nat
        <-> styles dataset_stats = [] /\ clients dataset_stats = []).
Proof.
  intros H.
  pose proof (no_sample_no_style _ _ _ _ H) as Hzero.
  apply analyze_dataset_inv in H as (manifest & items & Hread & Himages & ->).
  cbn [total_samples styles clients] in *.
  set (valid := filter (fun i => counted w dataset_dir i = true) items) in *.
  destruct (sorted_set_spec (map style_of valid)) as (Hs1 & Hs2 & Hs3 & _).
  destruct (sorted_set_spec (map client_of valid)) as (Hc1 & Hc2 & Hc3 & _).
  assert (Hin : forall (f : ManifestItem -> string) (x : string),
            x ∈ map f valid
            <-> exists i, i ∈ items /\ counted w dataset_dir i = true /\ f i = x).
  { intros f x. subst valid. split.
    - intros Hx. apply (list_elem_of_fmap_1 f) in Hx as (i & -> & Hi).
      apply list_elem_of_filter in Hi as [Hi1 Hi2]. by exists i.
    - intros (i & Hi1 & Hi2 & <-). apply (list_elem_of_fmap_2 f).
      by apply list_elem_of_filter. }
  exists manifest, items.
  split; [exact Hread |]. split; [exact Himages |]. split; [reflexivity |].
  split; [intros s; rewrite Hs3; apply Hin |].
  split; [intros c; rewrite Hc3; apply Hin |].
  repeat (split; [assumption |]). exact Hzero.
Qed.

Lemma analyze_dataset_statistics_witness :
  analyze_dataset working_script_world (fun _ => Ret three_covers)
    "training_data/minimal_universal_dataset"
  = Ret (Some (mkStats 3 ["dark_theme"; "default"] ["algorand"; "hedera"]))
  /\ exists (manifest : Manifest) (items : list ManifestItem),
       images manifest = Some items
       /\ 3%nat = length (filter (fun i => counted working_script_world
                                              "training_data/minimal_universal_dataset" i
                                            = true) items).
Proof.
  assert (Hrun : analyze_dataset working_script_world (fun _ => Ret three_covers)
                   "training_data/minimal_universal_dataset"
                 = Ret (Some (mkStats 3 ["dark_theme"; "default"] ["algorand"; "hedera"])))
    by (vm_compute; reflexivity).
  split; [exact Hrun |].
  destruct (analyze_dataset_statistics _ _ _ _ Hrun)
    as (manifest & items & _ & Himages & Htotal & _).
  by exists manifest, items.
Defined.

(** ** The whole run of the training script *)

Lemma training_loop_without_styles (rng : Random) (dataset_stats : DatasetStats) :
  styles dataset_stats = [] ->
  create_lora_model_structure rng dataset_stats
  = (Raise (PyError "IndexError" "Cannot choose from an empty sequence"), []).
Proof.
  intros Hs. unfold create_lora_model_structure, training_steps.
  cbn [seq training_loop]. unfold training_step, choice. by rewrite Hs.
Qed.

(** [create_universal_lora] never returns [True].  Without the manifest it
    returns [False] and does nothing.  With statistics that list no style
    (no entry of the manifest has its files) the first [random.choice]
    raises [IndexError] before anything is written.  Otherwise the loop
    pauses 500 times, the weights, model_info.json, the guide and the
    example are written, training_log.json is opened, and the run ends in
    the [AttributeError] of the last [json.dump]. *)
Theorem create_universal_lora_never_returns_true
    (w : World) (read_manifest : string -> Res Manifest) (rng : Random)
    (torch : nat -> nat -> nat -> Q) (dataset_dir output_dir : string) :
  let result := create_universal_lora w read_manifest rng torch dataset_dir output_dir in
  outcome result <> Ret true
  /\ (path_exists w (joinpath dataset_dir "training_manifest.json") = false ->
      result = mkRun (Ret false) [] [])
  /\ (forall dataset_stats : DatasetStats,
        analyze_dataset w read_manifest dataset_dir = Ret (Some dataset_stats) ->
        (total_samples dataset_stats = 0%nat ->
         result = mkRun (Raise (PyError "IndexError" "Cannot choose from an empty sequence"))
                 [] [])
        /\ (total_samples dataset_stats <> 0%nat ->
            outcome result
            = Raise (PyError "AttributeError" "'PosixPath' object has no attribute 'write'")
            /\ slept result = repeat (sleep (1 # 100)) 500
            /\ exists (weights : list (string * Tensor)) (info : ModelInfo),
                 written result
                 = [ torch_save (output_dir ++ "/crypto_cover_universal_lora.pt") weights;
                     json_dump (output_dir ++ "/model_info.json") info;
                     write_text (output_dir ++ "/DEPLOYMENT_GUIDE.md");
                     write_text (output_dir ++ "/integration_example.py");
                     open_for_writing (output_dir ++ "/training_log.json") ]
                 /\ dataset_size info = total_samples dataset_stats
                 /\ info_training_steps info = 500%nat)).
Proof.
  intros result. subst result. split; [| split].
  - unfold create_universal_lora.
    destruct (analyze_dataset w read_manifest dataset_dir) as [[stats |] | e];
      [| discriminate | discriminate].
    destruct (create_lora_model_structure rng stats) as [[tlog | e] effects];
      [| discriminate].
    unfold save_universal_lora_model. discriminate.
  - intros Hmissing. unfold create_universal_lora, analyze_dataset. cbv zeta.
    by rewrite Hmissing.
  - intros stats Hstats.
    pose proof (no_sample_no_style w read_manifest dataset_dir stats Hstats) as Hzero.
    unfold create_universal_lora. rewrite Hstats. split.
    + intros Hn. apply Hzero in Hn as [Hs _].
      by rewrite (training_loop_without_styles rng stats Hs).
    + intros Hn.
      assert (Hs : styles stats <> [] /\ clients stats <> []).
      { apply analyze_dataset_inv in Hstats as (manifest & items & _ & _ & ->).
        cbn [total_samples styles clients] in *.
        destruct (sorted_set_spec (map style_of
                    (filter (fun i => counted w dataset_dir i = true) items)))
          as (_ & _ & _ & Hs).
        destruct (sorted_set_spec (map client_of
                    (filter (fun i => counted w dataset_dir i = true) items)))
          as (_ & _ & _ & Hc).
        rewrite Hs, Hc. destruct (filter _ items); [done |]. by split. }
      destruct Hs as [Hs Hc].
      destruct (training_loop_ok rng stats Hs Hc (seq 0 training_steps) [] [])
        as (tlog & Hrun & Hall).
      unfold create_lora_model_structure. rewrite Hrun.
      apply Forall2_length in Hall. rewrite length_seq in Hall.
      unfold save_universal_lora_model. cbn [outcome slept written bind app].
      split; [reflexivity |]. split; [by rewrite length_seq |].
      eexists _, _. split; [reflexivity |]. cbn [dataset_size info_training_steps].
      split; [reflexivity |]. by rewrite <- Hall.
Qed.

(** ** What model_info.json reports *)



(** ** The covers of the applications that draw every background *)



(** ** The fonts of the text overlay *)

Lemma first_font_some (w : World) (pil : ImageFont) (font_paths : list string)
    (size : Z) (font : Font) :
  first_font w pil font_paths size = Some font ->
  font_choice w pil font_paths size font /\ font <> default_font.
Proof.
  induction font_paths as [| p rest IH]; [discriminate |]. simpl.
  destruct (path_exists w p) eqn:Hex.
  - destruct (truetype pil p size) as [u | e] eqn:Hload.
    + intros [= <-]. split; [| discriminate]. split; [reflexivity |].
      exists [], rest. repeat split; eauto.
    + intros H. destruct (IH H) as [Hc Hd]. split; [| exact Hd].
      destruct font as [q s |]; [| done].
      destruct Hc as (-> & before & after & -> & Hq & Hbefore).
      split; [reflexivity |]. exists (p :: before), after.
      repeat split; try apply Hq.
      constructor; [| exact Hbefore]. intros [_ [u Hu]]. congruence.
  - intros H. destruct (IH H) as [Hc Hd]. split; [| exact Hd].
    destruct font as [q s |]; [| done].
    destruct Hc as (-> & before & after & -> & Hq & Hbefore).
    split; [reflexivity |]. exists (p :: before), after.
    repeat split; try apply Hq.
    constructor; [| exact Hbefore]. intros [Hp _]. congruence.
Qed.

Lemma first_font_none (w : World) (pil : ImageFont) (font_paths : list string) (size : Z) :
  first_font w pil font_paths size = None ->
  Forall (fun p => ~ loadable w pil size p) font_paths.
Proof.
  induction font_paths as [| p rest IH]; [constructor |]. simpl.
  destruct (path_exists w p) eqn:Hex.
  - destruct (truetype pil p size) as [u | e] eqn:Hload; [discriminate |].
    intros H. constructor; [| by apply IH]. intros [_ [u Hu]]. congruence.
  - intros H. constructor; [| by apply IH]. intros [Hp _]. congruence.
Qed.

Lemma load_font_ok (w : World) (pil : ImageFont) (font_paths : list string)
    (fallback : Res Font) (size : Z) :
  (fallback = use_default pil
   \/ fallback = try_except (use_default pil) (fun _ => use_default pil)) ->
  match load_font w pil font_paths fallback size with
  | Ret font => font_choice w pil font_paths size font
  | Raise e =>
      load_default pil = Raise e /\ Forall (fun p => ~ loadable w pil size p) font_paths
  end.
Proof.
  intros Hfallback. unfold load_font.
  destruct (first_font w pil font_paths size) as [font |] eqn:Hfirst.
  - by apply first_font_some in Hfirst as [? _].
  - apply first_font_none in Hfirst.
    assert (Hsame : fallback = use_default pil).
    { destruct Hfallback as [-> | ->]; [reflexivity |].
      unfold try_except. by destruct (use_default pil). }
    rewrite Hsame. unfold use_default, bind.
    destruct (load_default pil) as [u | e]; [exact Hfirst | by split].
Qed.

Lemma font_dict_spec (w : World) (pil : ImageFont) (font_paths : list string)
    (fallback : Res Font) (font_sizes : FontKey -> Z) :
  (fallback = use_default pil
   \/ fallback = try_except (use_default pil) (fun _ => use_default pil)) ->
  font_dict_ok w pil font_paths font_sizes
    (font_dict w pil font_paths fallback font_sizes).
Proof.
  intros Hfallback. unfold font_dict, font_dict_ok, bind.
  pose proof (load_font_ok w pil font_paths fallback (font_sizes font_title) Hfallback) as Ht.
  pose proof (load_font_ok w pil font_paths fallback (font_sizes font_subtitle) Hfallback)
    as Hs.
  pose proof (load_font_ok w pil font_paths fallback (font_sizes font_small) Hfallback) as Hm.
  destruct (load_font w pil font_paths fallback (font_sizes font_title));
    [| destruct Ht; eauto].
  destruct (load_font w pil font_paths fallback (font_sizes font_subtitle));
    [| destruct Hs; eauto].
  destruct (load_font w pil font_paths fallback (font_sizes font_small));
    [| destruct Hm; eauto].
  by intros [].
Qed.

(** [get_fonts] of app_lightweight, app_lora, FRESH and
    app_enhanced_fallback chooses the font of each size on its own: the
    first path of the variant's list that exists and that
    [ImageFont.truetype] opens at that size, and PIL's default font when
    there is none.  It raises only what [ImageFont.load_default] raises,
    and only when some size has no usable font file.  The sizes are
    180/90/50 in app_lightweight, 120/60/40 in app_lora and 200/100/60 in
    the other two. *)
Theorem get_fonts_takes_the_first_usable_file (w : World) (pil : ImageFont) :
  let sizes := fun (title subtitle small : Z) (size_name : FontKey) =>
    match size_name with
    | font_title => title
    | font_subtitle => subtitle
    | font_small => small
    end in
  font_dict_ok w pil
    [ "/usr/share/fonts/truetype/dejavu/DejaVuSans-Bold.ttf";
      "/usr/share/fonts/truetype/liberation/LiberationSans-Bold.ttf";
      "/System/Library/Fonts/Arial.ttc";
      "/usr/share/fonts/arial.ttf" ]
    (sizes 180 90 50) (Lightweight.get_fonts w pil)
  /\ font_dict_ok w pil
       [ "/usr/share/fonts/truetype/dejavu/DejaVuSans-Bold.ttf";
         "/System/Library/Fonts/Arial.ttc";
         "/usr/share/fonts/arial.ttf" ]
       (sizes 120 60 40) (Lora.get_fonts w pil)
  /\ font_dict_ok w pil
       [ "/usr/share/fonts/truetype/dejavu/DejaVuSans-Bold.ttf";
         "/usr/share/fonts/truetype/liberation/LiberationSans-Bold.ttf" ]
       (sizes 200 100 60) (Fresh.get_fonts w pil)
  /\ font_dict_ok w pil
       [ "/usr/share/fonts/truetype/dejavu/DejaVuSans-Bold.ttf";
         "/usr/share/fonts/truetype/liberation/LiberationSans-Bold.ttf";
         "/System/Library/Fonts/Arial.ttc" ]
       (sizes 200 100 60) (EnhancedFallback.get_fonts w pil).
Proof.
  intros sizes. split; [| split; [| split]].
  - apply (font_dict_spec w pil Lightweight.font_paths _ Lightweight.font_sizes). auto.
  - apply (font_dict_spec w pil Lora.font_paths _ Lora.font_sizes). auto.
  - apply (font_dict_spec w pil Fresh.font_paths _ Fresh.font_sizes). auto.
  - apply (font_dict_spec w pil EnhancedFallback.font_paths _ EnhancedFallback.font_sizes).
    auto.
Qed.

(** ** The applications without a fallback *)

Lemma CpuLora_background_inv w c y t st img st' :
  CpuLora.generate_with_cpu_lora w c y t st = (Ret img, st') ->
  exists (path : string) (background : Image),
    pipeline (gen st) = true
    /\ lora_available (gen st) !! "universal" = Some path
    /\ pipeline_load_lora_weights w path = Ret tt
    /\ pipeline_call w (CpuLora.prompt_for c y) 1024 512 = Ret background
    /\ log st' = (log st ++ (if has_current_lora (gen st) then [ev_unload_lora] else [])
                 ++ [ev_load_lora path; ev_pipeline (CpuLora.prompt_for c y) 1024 512])%list
    /\ current_lora (gen st') = Some "universal".
Proof.
  destruct st as [[wm pl la cl ula] lg]. cbn [gen log pipeline lora_available].
  intros H.
  match goal with
  | |- context [if ?b then [ev_unload_lora] else []] =>
      set (calls := if b then [ev_unload_lora] else [])
  end.
  unfold CpuLora.generate_with_cpu_lora, CpuLora.force_load_lora_weights, dict_index in H.
  monad_unfold.
  repeat (destruct_match; monad_unfold; simplify_eq).
  all: cbn [pipeline lora_available current_lora negb] in *; simplify_eq.
  all: repeat match goal with u : unit |- _ => destruct u end.
  all: destruct pl; [| discriminate].
  all: eexists _, _; subst calls; unfold has_current_lora; cbn [current_lora gen].
  all: repeat match goal with
              | Ht : truthy _ = _ |- _ => rewrite Ht
              end.
  all: repeat split; try eassumption; try reflexivity.
  all: cbn [log]; rewrite <- ?app_assoc; reflexivity.
Qed.

Lemma LoraOnly_background_inv w c y t st img st' :
  LoraOnly.generate_with_universal_lora w c y t st = (Ret img, st') ->
  exists (path : string) (background : Image),
    pipeline (gen st) = true
    /\ lora_available (gen st) !! "universal" = Some path
    /\ pipeline_load_lora_weights w path = Ret tt
    /\ pipeline_call w (LoraOnly.prompt_for c y) 1024 512 = Ret background
    /\ log st' = (log st ++ (if has_current_lora (gen st) then [ev_unload_lora] else [])
                 ++ [ev_load_lora path; ev_pipeline (LoraOnly.prompt_for c y) 1024 512])%list
    /\ current_lora (gen st') = Some "universal".
Proof.
  destruct st as [[wm pl la cl ula] lg]. cbn [gen log pipeline lora_available].
  intros H.
  match goal with
  | |- context [if ?b then [ev_unload_lora] else []] =>
      set (calls := if b then [ev_unload_lora] else [])
  end.
  unfold LoraOnly.generate_with_universal_lora, LoraOnly.force_load_lora_weights, dict_index in H.
  monad_unfold.
  repeat (destruct_match; monad_unfold; simplify_eq).
  all: cbn [pipeline lora_available current_lora negb] in *; simplify_eq.
  all: repeat match goal with u : unit |- _ => destruct u end.
  all: destruct pl; [| discriminate].
  all: eexists _, _; subst calls; unfold has_current_lora; cbn [current_lora gen].
  all: repeat match goal with
              | Ht : truthy _ = _ |- _ => rewrite Ht
              end.
  all: repeat split; try eassumption; try reflexivity.
  all: cbn [log]; rewrite <- ?app_assoc; reflexivity.
Qed.

(** app_CPU_LORA and app_LORA_ONLY answer [POST /generate] with HTTP 200
    only after loading the file of the ["universal"] entry of
    [lora_available] and running the pipeline once at 1024x512, whatever
    [use_trained_lora] says: the weights are unloaded first when a LoRA is
    current, so every cover reloads them, and [current_lora] is
    ["universal"] afterwards.  Without a pipeline, without that entry, or
    when a call fails, there is no cover. *)
Theorem forced_lora_variants_never_fall_back
    (v : Variant) (w : World) (body : gmap string JValue) (st : State) :
  v = app_CPU_LORA \/ v = app_LORA_ONLY ->
  let '(response, st') := post_generate v w body st in
  match response with
  | http_ok _ =>
      exists (path prompt : string) (background : Image),
        pipeline (gen st) = true
        /\ lora_available (gen st) !! "universal" = Some path
        /\ pipeline_load_lora_weights w path = Ret tt
        /\ pipeline_call w prompt 1024 512 = Ret background
        /\ log st'
           = (log st
              ++ (if has_current_lora (gen st) then [ev_unload_lora] else [])
              ++ [ev_load_lora path; ev_pipeline prompt 1024 512])%list
        /\ current_lora (gen st') = Some "universal"
  | _ => True
  end.
Proof.
  intros [-> | ->].
  - unfold post_generate, serve.
    destruct (parse5 CpuLora.GenerationRequest body) as [r |]; [| exact I].
    unfold as_json.
    destruct (CpuLora.generate_image w r st) as [[resp | e] st1] eqn:H;
      [| cbn; by destruct e].
    cbn. unfold CpuLora.generate_image in H.
    apply mtry_reraise_inv in H.
    apply mbind_inv_ret in H as ([image method] & st2 & Hcover & H).
    minv H.
    unfold CpuLora.generate_cover in Hcover. apply mtry_reraise_inv in Hcover.
    apply mbind_inv_ret in Hcover as (bg & st3 & Hbg & Hcover).
    minv Hcover.
    apply CpuLora_background_inv in Hbg
      as (path & background & Hp & Hl & Hload & Hcall & Hlog & Hcur).
    apply get_self_inv in Hrun0 as [_ ->]. apply get_self_inv in Hrun as [_ ->].
    by exists path, (CpuLora.prompt_for (client5 r) (style_or (style5 r) "dark_theme")),
      background.
  - unfold post_generate, serve.
    destruct (parse5 LoraOnly.GenerationRequest body) as [r |]; [| exact I].
    unfold as_json.
    destruct (LoraOnly.generate_image w r st) as [[resp | e] st1] eqn:H;
      [| cbn; by destruct e].
    cbn. unfold LoraOnly.generate_image in H.
    apply mtry_reraise_inv in H.
    apply mbind_inv_ret in H as ([image method] & st2 & Hcover & H).
    minv H.
    unfold LoraOnly.generate_cover in Hcover. apply mtry_reraise_inv in Hcover.
    apply mbind_inv_ret in Hcover as (bg & st3 & Hbg & Hcover).
    minv Hcover.
    apply LoraOnly_background_inv in Hbg
      as (path & background & Hp & Hl & Hload & Hcall & Hlog & Hcur).
    apply get_self_inv in Hrun0 as [_ ->]. apply get_self_inv in Hrun as [_ ->].
    by exists path, (LoraOnly.prompt_for (client5 r) (style_or (style5 r) "dark_theme")),
      background.
Qed.

Lemma forced_lora_variants_never_fall_back_witness :
  (app_CPU_LORA = app_CPU_LORA \/ app_CPU_LORA = app_LORA_ONLY)
  /\ (exists j : JValue,
        fst (post_generate app_CPU_LORA quiet_world (title_only "Bitcoin rallies")
               with_universal_lora) = http_ok j)
  /\ let '(response, st') :=
       post_generate app_CPU_LORA quiet_world (title_only "Bitcoin rallies")
         with_universal_lora in
     match response with
     | http_ok _ =>
         exists (path prompt : string) (background : Image),
           pipeline (gen with_universal_lora) = true
           /\ lora_available (gen with_universal_lora) !! "universal" = Some path
           /\ pipeline_load_lora_weights quiet_world path = Ret tt
           /\ pipeline_call quiet_world prompt 1024 512 = Ret background
           /\ log st'
              = (log with_universal_lora
                 ++ (if has_current_lora (gen with_universal_lora)
                     then [ev_unload_lora] else [])
                 ++ [ev_load_lora path; ev_pipeline prompt 1024 512])%list
           /\ current_lora (gen st') = Some "universal"
     | _ => True
     end.
Proof.
  split; [by left |].
  split; [eexists; vm_compute; reflexivity |].
  exact (forced_lora_variants_never_fall_back app_CPU_LORA quiet_world
           (title_only "Bitcoin rallies") with_universal_lora (or_introl eq_refl)).
Defined.

(** ** create_minimal_dataset.py and the dataset it leaves behind *)

Import CreateMinimalDataset.

Lemma has_char_app (c : ascii) (a b : string) :
  has_char c (a ++ b) = has_char c a || has_char c b.
Proof.
  induction a as [| x a IH]; [reflexivity |].
  rewrite string_cons_app. simpl. rewrite IH. by rewrite orb_assoc.
Qed.

Lemma split_on_no_sep (sep : ascii) (s cur : string) :
  has_char sep s = false -> split_on sep s cur = [(cur ++ s)%string].
Proof.
  revert cur. induction s as [| x s IH]; intros cur H.
  - simpl. by rewrite string_app_nil_r.
  - simpl in H. apply orb_false_iff in H as [Hx Hs]. simpl. rewrite Hx.
    rewrite (IH _ Hs), string_app_assoc. reflexivity.
Qed.

Lemma split_on_app_sep (sep : ascii) (a b cur : string) :
  has_char sep a = false ->
  split_on sep (a ++ String sep b) cur = (cur ++ a)%string :: split_on sep b "".
Proof.
  revert cur. induction a as [| x a IH]; intros cur H.
  - rewrite string_nil_app, string_app_nil_r. simpl. by rewrite Ascii.eqb_refl.
  - simpl in H. apply orb_false_iff in H as [Hx Ha].
    rewrite string_cons_app. simpl. rewrite Hx, (IH _ Ha), string_app_assoc. reflexivity.
Qed.

Lemma path_name_in_dataset (c : ascii) (name : string) :
  has_char "/" (String c name) = false ->
  name <> "" ->
  joinpath dataset_dir (String c name) = (dataset_dir ++ "/" ++ String c name)%string
  /\ path_name (joinpath dataset_dir (String c name)) = String c name.
Proof.
  intros Hslash Hname. split; [reflexivity |].
  unfold joinpath, path_name. cbn [truthy].
  change (dataset_dir ++ "/" ++ String c name)%string
    with ("training_data" ++ String "/"
            ("minimal_universal_dataset" ++ String "/" (String c name)))%string.
  rewrite split_on_app_sep by reflexivity.
  rewrite split_on_app_sep by reflexivity.
  rewrite split_on_no_sep by exact Hslash.
  rewrite !string_nil_app.
  rewrite !filter_cons, filter_nil.
  rewrite decide_True by (split; discriminate).
  rewrite decide_True by (split; discriminate).
  rewrite decide_True; [reflexivity |].
  split; [discriminate |]. intros [= _ ->]. by apply Hname.
Qed.

Lemma decimal_no_slash (n : nat) : has_char "/" (decimal n) = false.
Proof.
  unfold decimal. induction (Nat.to_uint n) as [| d IH | d IH | d IH | d IH | d IH
                                                 | d IH | d IH | d IH | d IH | d IH];
    simpl; try reflexivity; exact IH.
Qed.

Lemma zeros_no_slash (k : nat) : has_char "/" (String.concat "" (replicate k "0")) = false.
Proof.
  induction k as [| k IH]; [reflexivity |].
  simpl. destruct (replicate k "0") eqn:Hr; [reflexivity |].
  rewrite string_cons_app, string_nil_app, string_nil_app. simpl. exact IH.
Qed.

Lemma fmt_04d_no_slash (i : nat) : has_char "/" (fmt_04d i) = false.
Proof.
  unfold fmt_04d. cbv zeta. by rewrite has_char_app, zeros_no_slash, decimal_no_slash.
Qed.

Lemma dataset_file (c x : ascii) (stem ext : string) (i : nat) :
  has_char "/" (String c (String x stem)) = false ->
  has_char "/" ext = false ->
  let path := joinpath dataset_dir (String c (String x stem) ++ fmt_04d i ++ ext) in
  joinpath dataset_dir (path_name path) = path
  /\ has_char "/" path = true.
Proof.
  intros Hstem Hext path. subst path. rewrite string_cons_app.
  change (has_char "/" (String c (String x stem)))
    with (Ascii.eqb c "/" || has_char "/" (String x stem)) in Hstem.
  apply orb_false_iff in Hstem as [Hc Hstem].
  destruct (path_name_in_dataset c (String x stem ++ fmt_04d i ++ ext)) as [Hjoin Hname].
  - change (Ascii.eqb c "/" || has_char "/" (String x stem ++ fmt_04d i ++ ext) = false).
    by rewrite Hc, !has_char_app, Hstem, fmt_04d_no_slash, Hext.
  - discriminate.
  - rewrite Hname. split; [reflexivity |]. rewrite Hjoin. reflexivity.
Qed.

Lemma keeps_files_refl (fs : gmap string File) : keeps_files fs fs.
Proof. by intros q. Qed.

Lemma keeps_files_trans (a b c : gmap string File) :
  keeps_files a b -> keeps_files b c -> keeps_files a c.
Proof. intros Hab Hbc q Hq. by apply Hbc, Hab. Qed.

Lemma keeps_files_insert (fs : gmap string File) (path : string) (file : File) :
  keeps_files fs (<[path := file]> fs).
Proof.
  intros q Hq. apply lookup_insert_is_Some. destruct (decide (path = q)); auto.
Qed.

Lemma stored_keeps (fs fs' : gmap string File) (path : string) :
  keeps_files fs fs' -> stored fs path -> stored fs' path.
Proof. intros Hk [Hp Hs]. split; [exact Hp | by apply Hk]. Qed.

Lemma stored_insert (fs : gmap string File) (c x : ascii) (stem ext : string) (i : nat) (file : File) :
  has_char "/" (String c (String x stem)) = false ->
  has_char "/" ext = false ->
  stored (<[joinpath dataset_dir (String c (String x stem) ++ fmt_04d i ++ ext) := file]> fs)
    (joinpath dataset_dir (String c (String x stem) ++ fmt_04d i ++ ext)).
Proof.
  intros Hstem Hext. destruct (dataset_file c x stem ext i Hstem Hext) as [Hp _].
  split; [exact Hp |]. rewrite lookup_insert_eq. by eexists.
Qed.

Lemma insert_elsewhere (fs : gmap string File) (c x : ascii) (stem ext : string) (i : nat)
    (file : File) (q : string) :
  has_char "/" (String c (String x stem)) = false ->
  has_char "/" ext = false ->
  has_char "/" q = false ->
  <[joinpath dataset_dir (String c (String x stem) ++ fmt_04d i ++ ext) := file]> fs !! q
  = fs !! q.
Proof.
  intros Hstem Hext Hq. destruct (dataset_file c x stem ext i Hstem Hext) as [_ Hp].
  apply lookup_insert_ne. intros Heq. rewrite Heq in Hp. congruence.
Qed.

Lemma found_elsewhere (fs fs' : gmap string File) (images : list TestImage) :
  Forall (fun img => has_char "/" (test_file img) = false) images ->
  (forall q : string, has_char "/" q = false -> fs' !! q = fs !! q) ->
  filter (fun img => is_Some (fs' !! test_file img)) images
  = filter (fun img => is_Some (fs !! test_file img)) images.
Proof.
  intros Himages Hsame. induction Himages as [| img rest Himg _ IH]; [reflexivity |].
  rewrite !filter_cons, IH. rewrite (Hsame _ Himg). reflexivity.
Qed.

Lemma add_test_images_spec (images : list TestImage) (i : nat) (acc : list Pair)
    (fs : gmap string File) :
  Forall (fun img => has_char "/" (test_file img) = false) images ->
  exists (new : list Pair) (fs' : gmap string File),
    add_test_images i images acc fs = (Ret (acc ++ new)%list, fs')
    /\ map pair_style new
       = map test_style (filter (fun img => is_Some (fs !! test_file img)) images)
    /\ map pair_client new
       = map test_client (filter (fun img => is_Some (fs !! test_file img)) images)
    /\ keeps_files fs fs'
    /\ (forall q : string, has_char "/" q = false -> fs' !! q = fs !! q)
    /\ Forall (fun p => stored fs' (pair_image p) /\ stored fs' (pair_caption p)) new
    /\ (new = [] -> fs' = fs).
Proof.
  intros Himages. revert i acc fs.
  induction Himages as [| img rest Himg Hrest IH]; intros i acc fs.
  - exists [], fs. rewrite app_nil_r. repeat split; auto using keeps_files_refl.
  - cbn [add_test_images]. unfold fbind at 1. unfold file_exists at 1.
    rewrite filter_cons.
    destruct (decide (is_Some (fs !! test_file img))) as [Hfound | Hmissing].
    + rewrite bool_decide_eq_true_2 by exact Hfound.
      destruct Hfound as [file Hfile].
      unfold fbind at 1. unfold copy2 at 1. rewrite Hfile.
      unfold fbind at 1. unfold write at 1.
      set (target_path := joinpath dataset_dir ("cover_" ++ fmt_04d i ++ ".png")).
      set (caption_path := joinpath dataset_dir ("cover_" ++ fmt_04d i ++ ".txt")).
      set (fs1 := <[target_path := file]> fs).
      set (fs2 := <[caption_path := _]> fs1).
      set (pair := mkPair _ _ _ _ _).
      destruct (IH (S i) (acc ++ [pair])%list fs2)
        as (new & fs' & Hrun & Hstyles & Hclients & Hkeeps & Hsame & Hstored & _).
      assert (Hsame2 : forall q : string, has_char "/" q = false -> fs2 !! q = fs !! q).
      { intros q Hq. subst fs2 fs1 caption_path target_path.
        rewrite insert_elsewhere by done. by rewrite insert_elsewhere by done. }
      assert (Hkeeps2 : keeps_files fs fs2).
      { eapply keeps_files_trans; apply keeps_files_insert. }
      exists (pair :: new), fs'. rewrite Hrun, <- app_assoc.
      rewrite (found_elsewhere fs fs2 rest Hrest Hsame2) in Hstyles, Hclients.
      split; [reflexivity |].
      split; [cbn [map]; by rewrite Hstyles |].
      split; [cbn [map]; by rewrite Hclients |].
      split; [by eapply keeps_files_trans |].
      split; [intros q Hq; by rewrite Hsame, Hsame2 |].
      split; [| discriminate].
      constructor; [| exact Hstored]. subst pair. cbn [pair_image pair_caption].
      split; apply (stored_keeps fs2 fs' _ Hkeeps).
      * apply (stored_keeps fs1 fs2); [apply keeps_files_insert |].
        subst fs1 target_path. by apply stored_insert.
      * subst fs2 caption_path. by apply stored_insert.
    + rewrite bool_decide_eq_false_2 by exact Hmissing.
      destruct (IH (S i) acc fs)
        as (new & fs' & Hrun & Hstyles & Hclients & Hkeeps & Hsame & Hstored & Hnone).
      exists new, fs'. rewrite Hrun. repeat split; auto.
Qed.

Lemma choice_of_nonempty {A : Type} (rng : Random) (n : nat) (l : list A) :
  l <> [] -> exists x : A, choice_of rng n l = Ret x /\ x ∈ l.
Proof.
  intros Hl. unfold choice_of.
  assert (Hlen : (0 < length l)%nat) by (destruct l; [done | simpl; lia]).
  destruct (lookup_lt_is_Some_2 l (rand_below rng n (length l) mod length l)) as [x Hx].
  { apply Nat.mod_upper_bound. lia. }
  rewrite Hx. exists x. split; [reflexivity |]. by eapply list_elem_of_lookup_2.
Qed.

Lemma synthetic_loop_spec (rng : Random) (base_pairs : list Pair) (steps : list nat)
    (n : nat) (acc : list Pair) (fs : gmap string File) :
  base_pairs <> [] ->
  Forall (fun p => is_Some (fs !! pair_image p)) base_pairs ->
  exists (new : list Pair) (fs' : gmap string File),
    synthetic_loop rng base_pairs steps n acc fs = (Ret (acc ++ new)%list, fs')
    /\ length new = length steps
    /\ keeps_files fs fs'
    /\ Forall (fun p => stored fs' (pair_image p) /\ stored fs' (pair_caption p)
                        /\ pair_style p ∈ style_variations
                        /\ pair_client p ∈ client_variations) new.
Proof.
  intros Hbase. revert n acc fs.
  induction steps as [| i rest IH]; intros n acc fs Hsources.
  - exists [], fs. rewrite app_nil_r. repeat split; auto using keeps_files_refl.
  - cbn [synthetic_loop].
    destruct (choice_nonempty rng n style_variations) as (style & Hstyle & Hstyle_in);
      [discriminate |].
    destruct (choice_nonempty rng (n + 1) client_variations)
      as (client & Hclient & Hclient_in); [discriminate |].
    destruct (choice_nonempty rng (n + 2) title_variations) as (title & Htitle & _);
      [discriminate |].
    destruct (choice_of_nonempty rng (n + 3) base_pairs Hbase)
      as (source & Hsource & Hsource_in).
    unfold fbind at 1. unfold flift at 1. rewrite Hstyle.
    unfold fbind at 1. unfold flift at 1. rewrite Hclient.
    unfold fbind at 1. unfold flift at 1. rewrite Htitle.
    destruct base_pairs as [| b0 base_rest] eqn:Hb; [done |]. rewrite <- Hb in *.
    unfold fbind at 1. unfold flift at 1. rewrite Hsource.
    rewrite Forall_forall in Hsources.
    destruct (Hsources source Hsource_in) as [file Hfile].
    unfold fbind at 1. unfold copy2 at 1. rewrite Hfile.
    unfold fbind at 1. unfold write at 1.
    set (target_path := joinpath dataset_dir ("synthetic_" ++ fmt_04d i ++ ".png")).
    set (caption_path := joinpath dataset_dir ("synthetic_" ++ fmt_04d i ++ ".txt")).
    set (fs1 := <[target_path := file]> fs).
    set (fs2 := <[caption_path := _]> fs1).
    set (pair := mkPair _ _ _ _ _).
    assert (Hkeeps2 : keeps_files fs fs2).
    { eapply keeps_files_trans; apply keeps_files_insert. }
    destruct (IH (n + 4)%nat (acc ++ [pair])%list fs2)
      as (new & fs' & Hrun & Hlen & Hkeeps & Hstored).
    { apply Forall_forall. intros p Hp. by apply Hkeeps2, Hsources. }
    exists (pair :: new), fs'. rewrite Hrun, <- app_assoc.
    split; [reflexivity |]. split; [simpl; by rewrite Hlen |].
    split; [by eapply keeps_files_trans |].
    constructor; [| exact Hstored]. subst pair.
    cbn [pair_image pair_caption pair_style pair_client].
    split; [| split; [| by split]]; apply (stored_keeps fs2 fs' _ Hkeeps).
    * apply (stored_keeps fs1 fs2); [apply keeps_files_insert |].
      subst fs1 target_path. by apply stored_insert.
    * subst fs2 caption_path. by apply stored_insert.
Qed.

Lemma scan_items_all_valid (w : World) (dir : string) (items : list ManifestItem)
    (styles0 clients0 : list string) (n0 : nat) :
  Forall (fun item => item_is_valid w dir item = Ret true) items ->
  scan_items w dir items styles0 clients0 n0
  = Ret ((styles0 ++ map style_of items)%list, (clients0 ++ map client_of items)%list,
         (n0 + length items)%nat).
Proof.
  intros Hvalid. revert styles0 clients0 n0.
  induction Hvalid as [| item rest Hitem _ IH]; intros styles0 clients0 n0.
  - simpl. by rewrite !app_nil_r, Nat.add_0_r.
  - simpl. rewrite Hitem. simpl. rewrite IH, <- !app_assoc. simpl.
    by rewrite Nat.add_succ_r.
Qed.

Lemma stored_valid (w : World) (fs : gmap string File) (pair : Pair) :
  stored fs (pair_image pair) ->
  stored fs (pair_caption pair) ->
  item_is_valid (with_files w fs) dataset_dir (loaded_item pair) = Ret true.
Proof.
  intros [Himage Hi] [Hcaption Hc]. unfold item_is_valid, loaded_item. simpl.
  rewrite Himage, Hcaption.
  by rewrite !bool_decide_eq_true_2.
Qed.

Lemma loaded_styles (pairs : list Pair) :
  map style_of (map loaded_item pairs) = map pair_style pairs
  /\ map client_of (map loaded_item pairs) = map pair_client pairs.
Proof.
  split; (induction pairs as [| p rest IH]; [reflexivity |]);
    cbn [map]; rewrite IH; reflexivity.
Qed.

Lemma test_images_are_plain :
  Forall (fun img => has_char "/" (test_file img) = false) test_images.
Proof. repeat constructor. Qed.

Lemma found_test_images_bound (fs : gmap string File) :
  (length (found_test_images fs) <= 3)%nat
  /\ forall img : TestImage,
       img ∈ found_test_images fs -> test_client img ∈ client_variations.
Proof.
  split.
  - unfold found_test_images. etransitivity; [apply length_filter | reflexivity].
  - intros img Hin. apply list_elem_of_filter in Hin as [_ Hin].
    apply list_elem_of_In in Hin. apply list_elem_of_In.
    simpl in Hin. simpl. intuition (subst; simpl; auto).
Qed.

(** The dataset that [create_minimal_dataset] leaves behind is read back
    in full by [analyze_dataset] of create_universal_lora_model.py.  With
    no test image present it returns [(None, 0)] and writes nothing.  With
    [k] of the three test images present it returns the dataset directory
    and the count 9k, and the analysis of the files it wrote counts 9k
    valid samples, finds the style and client of every test image that was
    present, only styles of those images or of [style_variations], and
    only clients of [client_variations]; quick_train.sh announces 90k
    training steps. *)
Theorem minimal_dataset_is_counted_in_full
    (w : World) (rng : Random) (list_of_set : list string -> list string)
    (fs : gmap string File) :
  let found := found_test_images fs in
  let '(result, fs') := create_minimal_dataset rng list_of_set fs in
  match found with
  | [] => result = Ret (None, 0%nat) /\ fs' = fs
  | _ :: _ =>
      result = Ret (Some dataset_dir, (9 * length found)%nat)
      /\ exists stats : DatasetStats,
           analyze_dataset (with_files w fs') (read_manifest fs') dataset_dir
           = Ret (Some stats)
           /\ total_samples stats = (9 * length found)%nat
           /\ (forall img : TestImage,
                 img ∈ found ->
                 test_style img ∈ styles stats /\ test_client img ∈ clients stats)
           /\ (forall s : string,
                 s ∈ styles stats -> s ∈ map test_style found \/ s ∈ style_variations)
           /\ (forall c : string, c ∈ clients stats -> c ∈ client_variations)
           /\ fs' !! "training_data/quick_train.sh"
              = Some (quick_train_sh (9 * length found) (90 * length found) dataset_dir)
  end.
Proof.
  intros found.
  destruct (found_test_images_bound fs) as [Hbound Hfound_clients].
  fold found in Hbound, Hfound_clients.
  destruct (add_test_images_spec test_images 0 [] fs test_images_are_plain)
    as (base & fs1 & Hbase & Hstyles & Hclients & Hkeeps1 & _ & Hstored1 & Hnone).
  change (filter _ test_images) with found in Hstyles, Hclients.
  assert (Hlen : length base = length found).
  { by rewrite <- (length_map pair_style), Hstyles, length_map. }
  clearbody found.
  unfold create_minimal_dataset, fbind at 1.
  unfold create_from_test_images. rewrite Hbase. rewrite app_nil_l.
  destruct found as [| img0 found'] eqn:Hfound.
  { destruct base; [| discriminate]. simpl. by rewrite Hnone. }
  rewrite <- Hfound in *.
  assert (Hbase_ne : base <> []) by (destruct base; [by rewrite Hfound in Hlen | done]).
  destruct (length base =? 0)%nat eqn:Hzero;
    [apply Nat.eqb_eq in Hzero; destruct base; done |].
  destruct (synthetic_loop_spec rng base (seq 0 (8 * length base)) 0 [] fs1 Hbase_ne)
    as (synthetic & fs2 & Hsynthetic & Hlen2 & Hkeeps2 & Hstored2).
  { eapply Forall_impl; [exact Hstored1 |]. by intros p [[_ Hp] _]. }
  rewrite length_seq in Hlen2. rewrite app_nil_l in Hsynthetic.
  unfold fbind at 1. unfold create_synthetic_variations. rewrite Hsynthetic.
  unfold fbind at 1. unfold create_training_manifest, fbind at 1, write at 1.
  unfold fret at 1. unfold fbind at 1.
  unfold create_quick_training_script, write at 1. unfold fret.
  set (all_pairs := (base ++ synthetic)%list).
  set (manifest := mkTrainingManifest _ _ all_pairs).
  set (fs3 := <[joinpath dataset_dir "training_manifest.json" := json_file manifest]> fs2).
  assert (Hcount : length all_pairs = (9 * length found)%nat).
  { subst all_pairs. rewrite length_app, Hlen2, Hlen. clear. lia. }
  assert (Hsteps : Nat.min 500 (Nat.max 1 (length all_pairs) * 10)
                   = (90 * length found)%nat).
  { rewrite Hcount.
    assert (Hk : (1 <= length found <= 3)%nat).
    { split; [| exact Hbound]. rewrite Hfound. simpl. lia. }
    clear - Hk. revert Hk. generalize (length found). intros k Hk.
    rewrite Nat.max_r by lia. rewrite Nat.min_r by lia. lia. }
  rewrite Hsteps, Hcount.
  set (fs4 := <[joinpath "training_data" "quick_train.sh" := _]> fs3).
  assert (Hmanifest : fs4 !! joinpath dataset_dir "training_manifest.json"
                      = Some (json_file manifest)).
  { subst fs4 fs3. rewrite lookup_insert_ne by discriminate. apply lookup_insert_eq. }
  assert (Hkeeps : keeps_files fs2 fs4).
  { eapply keeps_files_trans; apply keeps_files_insert. }
  assert (Hvalid : Forall (fun item => item_is_valid (with_files w fs4) dataset_dir item
                                        = Ret true) (map loaded_item all_pairs)).
  { apply Forall_fmap. subst all_pairs. apply Forall_app. split.
    - eapply Forall_impl; [exact Hstored1 |]. intros p [Hi Hc].
      assert (Hk : keeps_files fs1 fs4) by (by eapply keeps_files_trans).
      apply stored_valid; by apply (stored_keeps fs1 fs4).
    - eapply Forall_impl; [exact Hstored2 |]. intros p (Hi & Hc & _).
      apply stored_valid; by apply (stored_keeps fs2 fs4). }
  split; [reflexivity |].
  eexists. split.
  { unfold analyze_dataset. cbv zeta.
    change (path_exists (with_files w fs4) ?p) with (bool_decide (is_Some (fs4 !! p))).
    rewrite Hmanifest, bool_decide_eq_true_2 by (by eexists).
    cbn [negb]. unfold read_manifest at 1. rewrite Hmanifest.
    cbn [bind json_load images json_index manifest_images manifest dataset_info].
    rewrite (scan_items_all_valid _ _ _ _ _ _ Hvalid).
    cbn [bind]. reflexivity. }
  cbn [total_samples styles clients].
  destruct (loaded_styles all_pairs) as [-> ->].
  rewrite length_map, Hcount.
  split; [reflexivity |].
  subst all_pairs. rewrite !app_nil_l, !map_app, Hstyles, Hclients.
  pose proof (sorted_set_spec (map test_style found ++ map pair_style synthetic))
    as (_ & _ & Hs & _).
  pose proof (sorted_set_spec (map test_client found ++ map pair_client synthetic))
    as (_ & _ & Hc & _).
  split; [| split; [| split]].
  - intros img Himg. split; [apply Hs | apply Hc]; apply elem_of_app; left;
      by apply list_elem_of_fmap_2.
  - intros s Hin. apply Hs, elem_of_app in Hin as [Hin | Hin]; [by left | right].
    apply list_elem_of_fmap in Hin as (p & -> & Hp).
    rewrite Forall_forall in Hstored2. by apply Hstored2 in Hp as (_ & _ & Hp & _).
  - intros c Hin. apply Hc, elem_of_app in Hin as [Hin | Hin].
    + apply list_elem_of_fmap in Hin as (img & -> & Himg). by apply Hfound_clients.
    + apply list_elem_of_fmap in Hin as (p & -> & Hp).
      rewrite Forall_forall in Hstored2. by apply Hstored2 in Hp as (_ & _ & _ & Hp).
  - subst fs4. apply lookup_insert_eq.
Qed.

Lemma last_char_app (a : string) (c : ascii) (b : string) :
  last_char (a ++ String c b) = last_char (String c b).
Proof.
  induction a as [| x a IH]; [reflexivity |].
  rewrite string_cons_app. cbn [last_char]. rewrite IH.
  destruct a; reflexivity.
Qed.

Lemma dataset_path_end (c x e : ascii) (stem ext : string) (i : nat) :
  last_char (joinpath dataset_dir (String c (String x stem) ++ fmt_04d i ++ String e ext))
  = last_char (String e ext).
Proof.
  rewrite string_cons_app. unfold joinpath. cbn [truthy].
  rewrite <- string_cons_app, <- !string_app_assoc. apply last_char_app.
Qed.

Lemma dataset_png_end (c x : ascii) (stem : string) (i : nat) :
  last_char (joinpath dataset_dir (String c (String x stem) ++ fmt_04d i ++ ".png"))
  = Some "g"%char.
Proof. apply (dataset_path_end c x "." stem "png"). Qed.

Lemma dataset_txt_end (c x : ascii) (stem : string) (i : nat) :
  last_char (joinpath dataset_dir (String c (String x stem) ++ fmt_04d i ++ ".txt"))
  <> Some "g"%char.
Proof. rewrite (dataset_path_end c x "." stem "txt"). discriminate. Qed.

Lemma is_copy_after_copy (origin fs : gmap string File) (path target : string)
    (file : File) (img : TestImage) :
  img ∈ found_test_images origin ->
  Some file = origin !! test_file img ->
  last_char target = Some "g"%char ->
  is_copy origin (<[target := file]> fs) target
  /\ (is_copy origin fs path -> is_copy origin (<[target := file]> fs) path).
Proof.
  intros Himg Hfile Hend.
  assert (Htarget : is_copy origin (<[target := file]> fs) target).
  { split; [exact Hend |]. exists img. split; [exact Himg |]. by rewrite lookup_insert_eq. }
  split; [exact Htarget |]. intros [Hg (img' & Himg' & Hlook)].
  destruct (decide (target = path)) as [<- | Hne]; [exact Htarget |].
  split; [exact Hg |]. exists img'. split; [exact Himg' |]. by rewrite lookup_insert_ne.
Qed.

Lemma is_copy_after_write (origin fs : gmap string File) (path target : string)
    (file : File) :
  last_char target <> Some "g"%char ->
  is_copy origin fs path -> is_copy origin (<[target := file]> fs) path.
Proof.
  intros Hend [Hg (img & Himg & Hlook)]. split; [exact Hg |].
  exists img. split; [exact Himg |]. rewrite lookup_insert_ne; [exact Hlook |].
  intros ->. by apply Hend.
Qed.

Lemma add_test_images_copies (origin : gmap string File) (images : list TestImage)
    (i : nat) (acc : list Pair) (fs : gmap string File)
    (result : list Pair) (fs' : gmap string File) :
  Forall (fun img => has_char "/" (test_file img) = false /\ img ∈ test_images) images ->
  (forall q : string, has_char "/" q = false -> fs !! q = origin !! q) ->
  Forall (fun p => is_copy origin fs (pair_image p)) acc ->
  add_test_images i images acc fs = (Ret result, fs') ->
  Forall (fun p => is_copy origin fs' (pair_image p)) result.
Proof.
  intros Himages. revert i acc fs.
  induction Himages as [| img rest [Hplain Htest] _ IH]; intros i acc fs Hsame Hacc Hrun.
  - injection Hrun as <- <-. exact Hacc.
  - cbn [add_test_images] in Hrun. unfold fbind at 1 in Hrun.
    unfold file_exists at 1 in Hrun.
    destruct (decide (is_Some (fs !! test_file img))) as [Hfound | Hmissing].
    + rewrite bool_decide_eq_true_2 in Hrun by exact Hfound.
      destruct Hfound as [file Hfile].
      unfold fbind at 1 in Hrun. unfold copy2 at 1 in Hrun. rewrite Hfile in Hrun.
      unfold fbind at 1 in Hrun. unfold write at 1 in Hrun.
      assert (Himg : img ∈ found_test_images origin).
      { apply list_elem_of_filter. split; [| exact Htest].
        rewrite <- (Hsame _ Hplain), Hfile. by eexists. }
      assert (Horigin : Some file = origin !! test_file img).
      { by rewrite <- (Hsame _ Hplain). }
      pose proof (dataset_png_end "c" "o" "ver_" i) as Hpng.
      pose proof (dataset_txt_end "c" "o" "ver_" i) as Htxt.
      apply IH in Hrun; [exact Hrun | |].
      * intros q Hq. rewrite insert_elsewhere by done.
        rewrite insert_elsewhere by done. by apply Hsame.
      * apply Forall_app. split.
        -- eapply Forall_impl; [exact Hacc |]. intros p Hp.
           apply is_copy_after_write; [exact Htxt |].
           by eapply is_copy_after_copy.
        -- constructor; [| constructor]. cbn [pair_image].
           apply is_copy_after_write; [exact Htxt |].
           by eapply (is_copy_after_copy origin fs "").
    + rewrite bool_decide_eq_false_2 in Hrun by exact Hmissing.
      by apply IH in Hrun.
Qed.

Lemma choice_of_member {A : Type} (rng : Random) (n : nat) (l : list A) (x : A) :
  choice_of rng n l = Ret x -> x ∈ l.
Proof.
  unfold choice_of. destruct (l !! _) as [y |] eqn:Hy; [| discriminate].
  intros [= <-]. by eapply list_elem_of_lookup_2.
Qed.

Lemma synthetic_loop_copies (origin : gmap string File) (rng : Random)
    (base_pairs : list Pair) (steps : list nat) (n : nat) (acc : list Pair)
    (fs : gmap string File) (result : list Pair) (fs' : gmap string File) :
  Forall (fun p => is_copy origin fs (pair_image p)) base_pairs ->
  Forall (fun p => is_copy origin fs (pair_image p)) acc ->
  synthetic_loop rng base_pairs steps n acc fs = (Ret result, fs') ->
  Forall (fun p => is_copy origin fs' (pair_image p)) base_pairs
  /\ Forall (fun p => is_copy origin fs' (pair_image p)) result.
Proof.
  revert n acc fs.
  induction steps as [| i rest IH]; intros n acc fs Hbase Hacc Hrun.
  - injection Hrun as <- <-. by split.
  - cbn [synthetic_loop] in Hrun.
    unfold fbind at 1 in Hrun. unfold flift at 1 in Hrun.
    destruct (choice rng n style_variations) as [style |]; [| discriminate].
    unfold fbind at 1 in Hrun. unfold flift at 1 in Hrun.
    destruct (choice rng (n + 1) client_variations) as [client |]; [| discriminate].
    unfold fbind at 1 in Hrun. unfold flift at 1 in Hrun.
    destruct (choice rng (n + 2) title_variations) as [title |]; [| discriminate].
    destruct base_pairs as [| b0 base_rest] eqn:Hb; [by apply IH in Hrun |].
    rewrite <- Hb in *.
    unfold fbind at 1 in Hrun. unfold flift at 1 in Hrun.
    destruct (choice_of rng (n + 3) base_pairs) as [source |] eqn:Hsource;
      [| discriminate].
    apply choice_of_member in Hsource.
    unfold fbind at 1 in Hrun. unfold copy2 at 1 in Hrun.
    destruct (fs !! pair_image source) as [file |] eqn:Hfile; [| discriminate].
    unfold fbind at 1 in Hrun. unfold write at 1 in Hrun.
    rewrite Forall_forall in Hbase.
    destruct (Hbase source Hsource) as [_ (img & Himg & Hlook)].
    rewrite Hfile in Hlook.
    pose proof (dataset_png_end "s" "y" "nthetic_" i) as Hpng.
    pose proof (dataset_txt_end "s" "y" "nthetic_" i) as Htxt.
    apply IH in Hrun; [exact Hrun | |].
    + apply Forall_forall. intros p Hp.
      apply is_copy_after_write; [exact Htxt |].
      eapply is_copy_after_copy; eauto.
    + apply Forall_app. split.
      * eapply Forall_impl; [exact Hacc |]. intros p Hp.
        apply is_copy_after_write; [exact Htxt |].
        by eapply is_copy_after_copy.
      * constructor; [| constructor]. cbn [pair_image].
        apply is_copy_after_write; [exact Htxt |].
        by eapply (is_copy_after_copy origin fs "").
Qed.

(** Synthetic variations add captions, not images: in the manifest that
    [create_minimal_dataset] writes, every listed image file, synthetic or
    not, holds what one of the test images found at the start held, so
    the dataset has at most three different images.  The manifest counts
    the pairs it lists and recommends min(1000, 50 n) steps for n pairs. *)
Theorem synthetic_variations_add_no_image
    (rng : Random) (list_of_set : list string -> list string) (fs : gmap string File) :
  let '(result, fs') := create_minimal_dataset rng list_of_set fs in
  match result with
  | Ret (Some _, count) =>
      exists manifest : TrainingManifest,
        fs' !! "training_data/minimal_universal_dataset/training_manifest.json"
        = Some (json_file manifest)
        /\ length (manifest_images manifest) = count
        /\ total_images (manifest_dataset_info manifest) = count
        /\ recommended_steps (training_config manifest) = Nat.min 1000 (count * 50)
        /\ forall pair : Pair,
             pair ∈ manifest_images manifest ->
             exists img : TestImage,
               img ∈ found_test_images fs
               /\ fs' !! pair_image pair = fs !! test_file img
  | _ => True
  end.
Proof.
  unfold create_minimal_dataset, fbind at 1. unfold create_from_test_images.
  destruct (add_test_images 0 test_images [] fs) as [[base |] fs1] eqn:Hbase; [| exact I].
  destruct (length base =? 0)%nat; [exact I |].
  unfold fbind at 1. unfold create_synthetic_variations.
  destruct (synthetic_loop rng base (seq 0 (8 * length base)) 0 [] fs1)
    as [[synthetic |] fs2] eqn:Hsynthetic; [| exact I].
  apply (add_test_images_copies fs) in Hbase;
    [| repeat constructor; apply list_elem_of_In; simpl; tauto | done | constructor].
  apply (synthetic_loop_copies fs) in Hsynthetic as [Hbase2 Hsynthetic];
    [| exact Hbase | constructor].
  unfold fbind at 1. unfold create_training_manifest, fbind at 1, write at 1.
  unfold fret at 1. unfold fbind at 1.
  unfold create_quick_training_script, write at 1. unfold fret.
  eexists. split.
  { rewrite lookup_insert_ne by discriminate. apply lookup_insert_eq. }
  cbn [manifest_images manifest_dataset_info total_images training_config
       recommended_steps].
  repeat (split; [reflexivity |]).
  intros pair Hpair.
  assert (Hcopy : is_copy fs fs2 (pair_image pair)).
  { apply elem_of_app in Hpair as [Hpair | Hpair];
      [rewrite Forall_forall in Hbase2; by apply Hbase2
      | rewrite Forall_forall in Hsynthetic; by apply Hsynthetic]. }
  eapply is_copy_after_write in Hcopy; [| shelve].
  eapply is_copy_after_write in Hcopy; [| shelve].
  destruct Hcopy as [_ Hcopy]. exact Hcopy.
  Unshelve. all: discriminate.
Qed.
